(** * docid: deterministic document identifiers

    A shallow embedding of [docid/document_id.py] and of the identifier and
    duplicate-cache part of [docid/pipeline.py].

    Modelling conventions.
    - A Python [str] is a list of Unicode code points ([list N]); the bytes
      handed to a hash are its UTF-8 encoding.
    - [str.upper] is tabulated exactly for U+0000..U+017F (Basic Latin,
      Latin-1 Supplement, Latin Extended-A, which holds the Polish letters)
      and is the identity above; [str.isspace] / regex [\s] is the full
      Unicode table; regex [\d] is the ASCII digits, the only decimal digits
      below U+0180; [str.isdigit] is tabulated for the same range (the
      ASCII digits and the superscripts U+00B2, U+00B3, U+00B9).
    - [hashlib.sha256] is FIPS 180-4 on 32-bit words kept in [N] with the
      wrap-around written out.
    - [decimal.Decimal] is a sign, a coefficient and an exponent, under the
      default context (28 digits); exponents are unbounded.
    - A call that can raise returns [option]. *)

From Stdlib Require Import ZArith NArith List Bool Lia String Ascii.
From stdpp Require Import gmap.
Import ListNotations.

Local Open Scope N_scope.

(** ** Python strings *)

Module PyStr.

Definition str := list N.

(** An ASCII literal as a [str]. *)
Definition lit (s : string) : str :=
  List.map N_of_ascii (list_ascii_of_string s).

Fixpoint eqb (a b : str) : bool :=
  match a, b with
  | [], [] => true
  | x :: a', y :: b' => N.eqb x y && eqb a' b'
  | _, _ => false
  end.

(** [a < b] on [str]: lexicographic on code points. *)
Fixpoint ltb (a b : str) : bool :=
  match a, b with
  | _, [] => false
  | [], _ :: _ => true
  | x :: a', y :: b' =>
      if x <? y then true else if y <? x then false else ltb a' b'
  end.

(** [str.isspace] on one code point; also the regex class [\s]. *)
Definition isspace (c : N) : bool :=
  ((9 <=? c) && (c <=? 13)) || ((28 <=? c) && (c <=? 32))
  || (c =? 133) || (c =? 160) || (c =? 5760)
  || ((8192 <=? c) && (c <=? 8202))
  || (c =? 8232) || (c =? 8233) || (c =? 8239) || (c =? 8287)
  || (c =? 12288).

(** Regex class [\d]. *)
Definition isdigit (c : N) : bool := (48 <=? c) && (c <=? 57).

(** Regex class [[A-Z]]. *)
Definition is_AZ (c : N) : bool := (65 <=? c) && (c <=? 90).

(** Regex class [[a-z]]. *)
Definition in_az (c : N) : bool := (97 <=? c) && (c <=? 122).

(** [str.upper] on one code point (full case mapping, so a list). *)
Definition upper_cp (c : N) : list N :=
  if in_az c then [c - 32]
  else if c <? 181 then [c]
  else if c =? 181 then [924]
  else if c <? 223 then [c]
  else if c =? 223 then [83; 83]
  else if c <? 255 then (if c =? 247 then [c] else [c - 32])
  else if c =? 255 then [376]
  else if c <? 305 then (if N.odd c then [c - 1] else [c])
  else if c =? 305 then [73]
  else if c <? 312 then (if N.odd c then [c - 1] else [c])
  else if c =? 312 then [c]
  else if c <? 329 then (if N.even c then [c - 1] else [c])
  else if c =? 329 then [700; 78]
  else if c <? 376 then (if N.odd c then [c - 1] else [c])
  else if c =? 376 then [c]
  else if c <? 383 then (if N.even c then [c - 1] else [c])
  else if c =? 383 then [83]
  else [c].

Definition upper (s : str) : str := List.flat_map upper_cp s.

Fixpoint lstrip_by (p : N -> bool) (s : str) : str :=
  match s with
  | c :: s' => if p c then lstrip_by p s' else s
  | [] => []
  end.

Definition strip_by (p : N -> bool) (s : str) : str :=
  List.rev (lstrip_by p (List.rev (lstrip_by p s))).

(** [s.strip()] *)
Definition strip (s : str) : str := strip_by isspace s.

(** [s.strip(c)] for a one-character argument. *)
Definition strip_char (c : N) (s : str) : str := strip_by (N.eqb c) s.

(** [re.sub(r'[...]', '', s)]: delete every code point of a class. *)
Definition remove_class (p : N -> bool) (s : str) : str :=
  List.filter (fun c => negb (p c)) s.

(** [re.sub(r'[...]+', r, s)]: every maximal run of a class becomes [r];
    [in_run] tells that the previous code point was in the class. *)
Fixpoint sub_runs_from (p : N -> bool) (r : N) (in_run : bool) (s : str)
  : str :=
  match s with
  | [] => []
  | c :: s' =>
      if p c then
        (if in_run then sub_runs_from p r true s'
         else r :: sub_runs_from p r true s')
      else c :: sub_runs_from p r false s'
  end.

Definition sub_runs (p : N -> bool) (r : N) (s : str) : str :=
  sub_runs_from p r false s.

(** [s.replace(a, b)] for one-character [a] and [b]. *)
Definition replace_char (a b : N) (s : str) : str :=
  List.map (fun c => if c =? a then b else c) s.

(** [sep.join(parts)] *)
Fixpoint join (sep : str) (parts : list str) : str :=
  match parts with
  | [] => []
  | [p] => p
  | p :: rest => p ++ sep ++ join sep rest
  end.

(** [s.split(sep)] for a one-character separator: the pieces between the
    separators, at least one piece. *)
Fixpoint split (sep : N) (s : str) : list str :=
  match s with
  | [] => [[]]
  | c :: s' =>
      if c =? sep then [] :: split sep s'
      else match split sep s' with
           | p :: ps => (c :: p) :: ps
           | [] => [[c]]
           end
  end.

(** [s.rsplit(sep, 1)]: split at the last separator only. *)
Fixpoint rsplit1 (sep : N) (s : str) : option (str * str) :=
  match s with
  | [] => None
  | c :: s' =>
      match rsplit1 sep s' with
      | Some (a, b) => Some (c :: a, b)
      | None => if c =? sep then Some ([], s') else None
      end
  end.

(** [s.zfill(2)] on a string of digits. *)
Definition zfill2 (s : str) : str :=
  match s with
  | [] => [48; 48]
  | [c] => [48; c]
  | _ => s
  end.

(** [re.findall(r'\d+', s)]: the maximal digit runs, left to right;
    [cur] is the run being read, reversed. *)
Fixpoint digit_runs_from (cur : str) (s : str) : list str :=
  match s with
  | [] => match cur with [] => [] | _ => [List.rev cur] end
  | c :: s' =>
      if isdigit c then digit_runs_from (c :: cur) s'
      else match cur with
           | [] => digit_runs_from [] s'
           | _ => List.rev cur :: digit_runs_from [] s'
           end
  end.

Definition digit_runs (s : str) : list str := digit_runs_from [] s.

(** [s.encode('utf-8')] *)
Definition utf8_cp (c : N) : list N :=
  if c <? 128 then [c]
  else if c <? 2048 then [192 + c / 64; 128 + c mod 64]
  else if c <? 65536 then
    [224 + c / 4096; 128 + (c / 64) mod 64; 128 + c mod 64]
  else [240 + c / 262144; 128 + (c / 4096) mod 64;
        128 + (c / 64) mod 64; 128 + c mod 64].

Definition encode_utf8 (s : str) : list N := List.flat_map utf8_cp s.

(** [str.isdigit] on one code point below U+0180: the decimal digits and
    the superscript digits, which are digits but not decimal. *)
Definition isdigit_cp (c : N) : bool :=
  isdigit c || (c =? 178) || (c =? 179) || (c =? 185).

(** [s.isdigit()]: false on the empty string. *)
Definition str_isdigit (s : str) : bool :=
  match s with
  | [] => false
  | _ => List.forallb isdigit_cp s
  end.

(** [int(c)] for a one-character string; [None] is [ValueError]. *)
Definition int_of_char (c : N) : option N :=
  if isdigit c then Some (c - 48) else None.

End PyStr.

(** ** SHA-256 (FIPS 180-4), as [hashlib.sha256] *)

Module SHA256.

Definition wrap (x : N) : N := x mod 2 ^ 32.
Definition add32 (x y : N) : N := wrap (x + y).
Definition rotr (n x : N) : N :=
  N.lor (N.shiftr x n) (wrap (N.shiftl x (32 - n))).
Definition not32 (x : N) : N := N.lxor x (2 ^ 32 - 1).

Definition Ch (x y z : N) : N :=
  N.lxor (N.land x y) (N.land (not32 x) z).
Definition Maj (x y z : N) : N :=
  N.lxor (N.lxor (N.land x y) (N.land x z)) (N.land y z).
Definition bsig0 (x : N) : N :=
  N.lxor (N.lxor (rotr 2 x) (rotr 13 x)) (rotr 22 x).
Definition bsig1 (x : N) : N :=
  N.lxor (N.lxor (rotr 6 x) (rotr 11 x)) (rotr 25 x).
Definition ssig0 (x : N) : N :=
  N.lxor (N.lxor (rotr 7 x) (rotr 18 x)) (N.shiftr x 3).
Definition ssig1 (x : N) : N :=
  N.lxor (N.lxor (rotr 17 x) (rotr 19 x)) (N.shiftr x 10).

(** The constants are the leading 32 fraction bits of the square roots
    (initial state) and cube roots (round constants) of the first primes. *)
Definition is_prime (n : N) : bool :=
  (2 <=? n) &&
  List.forallb (fun d => negb (n mod d =? 0) || (n <=? d))
               (List.map N.of_nat (List.seq 2 18)).

Definition primes64 : list N :=
  List.filter is_prime (List.map N.of_nat (List.seq 2 310)).

(** Integer cube root, one bit at a time from bit [k-1] down. *)
Fixpoint icbrt_bits (k : nat) (n acc : N) : N :=
  match k with
  | O => acc
  | S k' =>
      let c := acc + 2 ^ N.of_nat k' in
      icbrt_bits k' n (if c * c * c <=? n then c else acc)
  end.

Definition round_constants : list N :=
  Eval vm_compute in
    List.map (fun p => wrap (icbrt_bits 40 (p * 2 ^ 96) 0)) primes64.

Definition initial_state : list N :=
  Eval vm_compute in
    List.map (fun p => wrap (N.sqrt (p * 2 ^ 64))) (List.firstn 8 primes64).

(** Padding: one 1 bit, zeros up to 56 mod 64, the bit length on 8 bytes. *)
Definition be_bytes (k : nat) (x : N) : list N :=
  List.map (fun i => (x / 2 ^ (8 * N.of_nat i)) mod 256)
           (List.rev (List.seq 0 k)).

Definition pad (msg : list N) : list N :=
  let len := N.of_nat (List.length msg) in
  let zeros := N.to_nat ((119 - len mod 64) mod 64) in
  msg ++ 128 :: List.repeat 0 zeros ++ be_bytes 8 (8 * len).

Fixpoint be_word (bs : list N) (acc : N) : N :=
  match bs with
  | [] => acc
  | b :: bs' => be_word bs' (acc * 256 + b)
  end.

(** Cut a byte list into [k] chunks of [n] bytes. *)
Fixpoint chunks (k n : nat) (bs : list N) : list (list N) :=
  match k with
  | O => []
  | S k' => List.firstn n bs :: chunks k' n (List.skipn n bs)
  end.

(** Message schedule: [w] holds the words so far, newest first. *)
Fixpoint schedule (k : nat) (w : list N) : list N :=
  match k with
  | O => w
  | S k' =>
      let nth i := List.nth i w 0 in
      schedule k'
        (add32 (add32 (ssig1 (nth 1%nat)) (nth 6%nat))
               (add32 (ssig0 (nth 14%nat)) (nth 15%nat)) :: w)
  end.

Definition round (st : list N) (kw : N * N) : list N :=
  match st with
  | [a; b; c; d; e; f; g; h] =>
      let t1 := add32 (add32 (add32 h (bsig1 e)) (add32 (Ch e f g) (fst kw)))
                      (snd kw) in
      let t2 := add32 (bsig0 a) (Maj a b c) in
      [add32 t1 t2; a; b; c; add32 d t1; e; f; g]
  | _ => st
  end.

Definition compress (st : list N) (block : list N) : list N :=
  let w0 := List.map (fun b => be_word b 0) (chunks 16 4 block) in
  let w := List.rev (schedule 48 (List.rev w0)) in
  let st' := List.fold_left round (List.combine round_constants w) st in
  List.map (fun p => add32 (fst p) (snd p)) (List.combine st st').

(** [hashlib.sha256(msg).digest()] *)
Definition digest (msg : list N) : list N :=
  let p := pad msg in
  let blocks := chunks (List.length p / 64) 64 p in
  List.flat_map (be_bytes 4) (List.fold_left compress blocks initial_state).

Definition hex_digit (d : N) : N := if d <? 10 then 48 + d else 87 + d.

(** [bytes.hex()] *)
Definition hex (bs : list N) : PyStr.str :=
  List.flat_map (fun b => [hex_digit (b / 16); hex_digit (b mod 16)]) bs.

(** [hashlib.sha256(s.encode('utf-8')).hexdigest()] *)
Definition hexdigest (s : PyStr.str) : PyStr.str :=
  hex (digest (PyStr.encode_utf8 s)).

End SHA256.

(** ** MD5 (RFC 1321), as [hashlib.md5] *)

Module MD5.

Definition rotl (n x : N) : N :=
  N.lor (SHA256.wrap (N.shiftl x n)) (N.shiftr x (32 - n)).

(** The rotation of each of the 64 steps. *)
Definition shifts : list N :=
  List.concat
    (List.map (fun row => row ++ row ++ row ++ row)
       [[7; 12; 17; 22]; [5; 9; 14; 20]; [4; 11; 16; 23]; [6; 10; 15; 21]]).

(** The table [T] of the RFC: the integer part of [2^32 * abs (sin i)]
    for [i] from 1 to 64. *)
Definition sines : list N :=
  [ 0xd76aa478; 0xe8c7b756; 0x242070db; 0xc1bdceee;
    0xf57c0faf; 0x4787c62a; 0xa8304613; 0xfd469501;
    0x698098d8; 0x8b44f7af; 0xffff5bb1; 0x895cd7be;
    0x6b901122; 0xfd987193; 0xa679438e; 0x49b40821;
    0xf61e2562; 0xc040b340; 0x265e5a51; 0xe9b6c7aa;
    0xd62f105d; 0x02441453; 0xd8a1e681; 0xe7d3fbc8;
    0x21e1cde6; 0xc33707d6; 0xf4d50d87; 0x455a14ed;
    0xa9e3e905; 0xfcefa3f8; 0x676f02d9; 0x8d2a4c8a;
    0xfffa3942; 0x8771f681; 0x6d9d6122; 0xfde5380c;
    0xa4beea44; 0x4bdecfa9; 0xf6bb4b60; 0xbebfbc70;
    0x289b7ec6; 0xeaa127fa; 0xd4ef3085; 0x04881d05;
    0xd9d4d039; 0xe6db99e5; 0x1fa27cf8; 0xc4ac5665;
    0xf4292244; 0x432aff97; 0xab9423a7; 0xfc93a039;
    0x655b59c3; 0x8f0ccc92; 0xffeff47d; 0x85845dd1;
    0x6fa87e4f; 0xfe2ce6e0; 0xa3014314; 0x4e0811a1;
    0xf7537e82; 0xbd3af235; 0x2ad7d2bb; 0xeb86d391 ].

Definition initial_state : list N :=
  [0x67452301; 0xefcdab89; 0x98badcfe; 0x10325476].

Definition le_bytes (k : nat) (x : N) : list N :=
  List.map (fun i => (x / 2 ^ (8 * N.of_nat i)) mod 256) (List.seq 0 k).

Fixpoint le_word (bs : list N) : N :=
  match bs with
  | [] => 0
  | b :: bs' => b + 256 * le_word bs'
  end.

(** Padding: one 1 bit, zeros up to 56 mod 64, the bit length on 8 bytes,
    low byte first. *)
Definition pad (msg : list N) : list N :=
  let len := N.of_nat (List.length msg) in
  let zeros := N.to_nat ((119 - len mod 64) mod 64) in
  msg ++ 128 :: List.repeat 0 zeros ++ le_bytes 8 (8 * len).

(** Step [i] on the state [[a; b; c; d]] with the block words [m]. *)
Definition step (m : list N) (st : list N) (i : nat) : list N :=
  match st with
  | [a; b; c; d] =>
      let f :=
        if (i <? 16)%nat then
          N.lor (N.land b c) (N.land (SHA256.not32 b) d)
        else if (i <? 32)%nat then
          N.lor (N.land d b) (N.land (SHA256.not32 d) c)
        else if (i <? 48)%nat then N.lxor (N.lxor b c) d
        else N.lxor c (N.lor b (SHA256.not32 d)) in
      let g :=
        if (i <? 16)%nat then i
        else if (i <? 32)%nat then ((5 * i + 1) mod 16)%nat
        else if (i <? 48)%nat then ((3 * i + 5) mod 16)%nat
        else ((7 * i) mod 16)%nat in
      let x :=
        SHA256.add32 (SHA256.add32 a f)
          (SHA256.add32 (List.nth i sines 0) (List.nth g m 0)) in
      [d; SHA256.add32 b (rotl (List.nth i shifts 0) x); b; c]
  | _ => st
  end.

Definition compress (st : list N) (block : list N) : list N :=
  let m := List.map le_word (SHA256.chunks 16 4 block) in
  let st' := List.fold_left (step m) (List.seq 0 64) st in
  List.map (fun p => SHA256.add32 (fst p) (snd p)) (List.combine st st').

(** [hashlib.md5(msg).digest()] *)
Definition digest (msg : list N) : list N :=
  let p := pad msg in
  let blocks := SHA256.chunks (List.length p / 64) 64 p in
  List.flat_map (le_bytes 4) (List.fold_left compress blocks initial_state).

(** [hashlib.md5(s.encode()).hexdigest()] *)
Definition hexdigest (s : PyStr.str) : PyStr.str :=
  SHA256.hex (digest (PyStr.encode_utf8 s)).

End MD5.

(** ** [decimal.Decimal] under the default context *)

Module PyDecimal.
Import PyStr.

Inductive decimal :=
| Finite (neg : bool) (coeff : N) (exp : Z)
| Inf (neg : bool)
| NaN (neg : bool) (signaling : bool) (diag : str).

Definition prec : Z := 28.
Definition Emax : Z := 999999.

(** The decimal digits of [n], least significant first; [fuel] bounds
    their number. *)
Fixpoint digits_rev (fuel : nat) (n : N) : str :=
  match fuel with
  | O => []
  | S f =>
      (48 + n mod 10) :: (if n <? 10 then [] else digits_rev f (n / 10))
  end.

(** [str(n)] for a natural number. *)
Definition digits_of_N (n : N) : str :=
  List.rev (digits_rev (S (N.to_nat (N.size n))) n).

(** [str(z)] for an [int]. *)
Definition str_of_int (z : Z) : str :=
  if (z <? 0)%Z then 45 :: digits_of_N (Z.abs_N z)
  else digits_of_N (Z.abs_N z).

(** [int(s)] for a string of ASCII digits (0 for the empty string). *)
Definition int_of_digits (s : str) : N :=
  List.fold_left (fun acc c => 10 * acc + (c - 48)) s 0.

(** Number of digits of the coefficient, [len(self._int)]. *)
Definition ndigits (c : N) : Z := Z.of_nat (List.length (digits_of_N c)).

(** [self.adjusted()] *)
Definition adjusted (c : N) (e : Z) : Z := (e + ndigits c - 1)%Z.

(** Longest prefix of digits and the rest. *)
Fixpoint span_digits (s : str) : str * str :=
  match s with
  | c :: s' => if isdigit c then
                 let (d, r) := span_digits s' in (c :: d, r)
               else ([], s)
  | [] => ([], [])
  end.

(** An optional sign [[-+]] and the rest. *)
Definition split_sign (s : str) : bool * str :=
  match s with
  | c :: t =>
      if c =? 45 then (true, t) else if c =? 43 then (false, t)
      else (false, s)
  | [] => (false, [])
  end.

(** A signed run of digits up to the end of the string: the exponent. *)
Definition parse_exponent (s : str) : option Z :=
  let (neg, t) := split_sign s in
  match span_digits t with
  | (c :: d, []) =>
      let v := Z.of_N (int_of_digits (c :: d)) in
      Some (if neg then (- v)%Z else v)
  | _ => None
  end.

(** The body of a number after the sign: digits, an optional fraction, an
    optional exponent, then the end of the string. *)
Definition parse_number (neg : bool) (s : str) : option decimal :=
  let (ip, r1) := span_digits s in
  let '(fp, r2) :=
    match r1 with
    | c :: t => if c =? 46 then span_digits t else ([], r1)
    | [] => ([], [])
    end in
  match ip ++ fp with
  | [] => None
  | ds =>
      let fin e :=
        Some (Finite neg (int_of_digits ds)
                     (e - Z.of_nat (List.length fp))) in
      match r2 with
      | [] => fin 0%Z
      | c :: t =>
          if (c =? 69) || (c =? 101) then
            match parse_exponent t with
            | Some e => fin e
            | None => None
            end
          else None
      end
  end.

Definition ascii_upper (s : str) : str :=
  List.map (fun c => if in_az c then c - 32 else c) s.

(** [s] without the prefix [p], when it starts with it. *)
Fixpoint strip_prefix (p s : str) : option str :=
  match p, s with
  | [], _ => Some s
  | a :: p', b :: s' => if a =? b then strip_prefix p' s' else None
  | _ :: _, [] => None
  end.

(** [Inf], [Infinity], [NaN] and [sNaN] with a digit payload; case is
    ignored. *)
Definition parse_special (neg : bool) (s : str) : option decimal :=
  let u := ascii_upper s in
  if eqb u (lit "INF") || eqb u (lit "INFINITY") then Some (Inf neg)
  else
    let nan sig t :=
      match span_digits t with
      | (d, []) => Some (NaN neg sig (lstrip_by (N.eqb 48) d))
      | _ => None
      end in
    match strip_prefix (lit "NAN") u with
    | Some t => nan false t
    | None =>
        match strip_prefix (lit "SNAN") u with
        | Some t => nan true t
        | None => None
        end
    end.

(** [Decimal(s)]; [None] is [InvalidOperation]. *)
Definition of_str (s : str) : option decimal :=
  let (neg, body) := split_sign (remove_class (N.eqb 95) (strip s)) in
  match body with
  | c :: _ =>
      if isdigit c || (c =? 46) then parse_number neg body
      else parse_special neg body
  | [] => None
  end.

(** [_round_half_up]: drop the last [k] digits of [c] ([k > 0]) and add
    one when the first dropped digit is 5 or more. *)
Definition drop_half_up (c : N) (k : N) : N :=
  c / 10 ^ k + (if 5 <=? (c / 10 ^ (k - 1)) mod 10 then 1 else 0).

(** [self._rescale(exp, ROUND_HALF_UP)] on a nonzero finite number. *)
Definition rescale_half_up (c : N) (e target : Z) : N :=
  if (target <=? e)%Z then c * 10 ^ Z.to_N (e - target)
  else drop_half_up c (Z.to_N (target - e)).

(** [d.quantize(Decimal('0.01'), rounding=ROUND_HALF_UP)]; [None] is
    [InvalidOperation]. *)
Definition quantize_cents (d : decimal) : option decimal :=
  match d with
  | NaN neg sig diag => if sig then None else Some (NaN neg false diag)
  | Inf _ => None
  | Finite neg c e =>
      if c =? 0 then Some (Finite neg 0 (-2))
      else if (Emax <? adjusted c e)%Z then None
      else if (prec <? adjusted c e - (-2) + 1)%Z then None
      else
        let c' := rescale_half_up c e (-2) in
        if (Emax <? adjusted c' (-2))%Z then None
        else if (prec <? ndigits c')%Z then None
        else Some (Finite neg c' (-2))
  end.

(** [str(d)], scientific notation included. *)
Definition to_str (d : decimal) : str :=
  let sign (neg : bool) := if neg then [45] else [] in
  match d with
  | Inf neg => sign neg ++ lit "Infinity"
  | NaN neg sig diag =>
      sign neg ++ (if sig then lit "sNaN" else lit "NaN") ++ diag
  | Finite neg c e =>
      let ds := digits_of_N c in
      let len := Z.of_nat (List.length ds) in
      let leftdigits := (e + len)%Z in
      let dotplace :=
        if (e <=? 0)%Z && (-6 <? leftdigits)%Z then leftdigits else 1%Z in
      let '(intpart, fracpart) :=
        if (dotplace <=? 0)%Z then
          ([48], 46 :: List.repeat 48 (Z.to_nat (- dotplace)) ++ ds)
        else if (len <=? dotplace)%Z then
          (ds ++ List.repeat 48 (Z.to_nat (dotplace - len)), [])
        else
          (List.firstn (Z.to_nat dotplace) ds,
           46 :: List.skipn (Z.to_nat dotplace) ds) in
      let ex :=
        if (leftdigits =? dotplace)%Z then []
        else
          let x := (leftdigits - dotplace)%Z in
          69 :: (if (x <? 0)%Z then 45 else 43)
             :: digits_of_N (Z.abs_N x) in
      sign neg ++ intpart ++ fracpart ++ ex
  end.

End PyDecimal.

(** ** The four normalizers of [document_id.py] *)

Module NIPValidator.
Import PyStr.

(** [re.sub(r'^[A-Z]{2}', '', s)] *)
Definition strip_country (s : str) : str :=
  match s with
  | a :: b :: t => if is_AZ a && is_AZ b then t else s
  | _ => s
  end.

(** Regex class [[\s\-\.]]. *)
Definition is_sep (c : N) : bool := isspace c || (c =? 45) || (c =? 46).

Definition normalize (nip : str) : str :=
  match nip with
  | [] => []
  | _ =>
      let cleaned := strip_country (upper nip) in
      remove_class is_sep cleaned
  end.

Definition weights : list N := [6; 5; 7; 2; 3; 4; 5; 6; 7].

(** [sum(int(nip[i]) * weights[i] for i in range(9))]; [None] when an
    [int] raises. *)
Fixpoint weighted_sum (nip : str) (ws : list N) : option N :=
  match ws with
  | [] => Some 0
  | w :: ws' =>
      match nip with
      | c :: rest =>
          match int_of_char c with
          | Some v =>
              match weighted_sum rest ws' with
              | Some total => Some (v * w + total)
              | None => None
              end
          | None => None
          end
      | [] => None
      end
  end.

(** [validate]; [None] is the [ValueError] of an [int]. *)
Definition validate (nip : str) : option bool :=
  let nip := normalize nip in
  if negb (List.length nip =? 10)%nat || negb (str_isdigit nip) then
    Some false
  else
    match weighted_sum nip weights with
    | Some checksum =>
        match int_of_char (List.nth 9 nip 0) with
        | Some last => Some (checksum mod 11 =? last)
        | None => None
        end
    | None => None
    end.

End NIPValidator.

Module AmountNormalizer.
Import PyStr PyDecimal.

(** The argument: an [int], a [float] given by the text [str] prints for
    it, a [Decimal], or a [str]. *)
Inductive amount :=
| AInt (z : Z)
| AFloat (repr : str)
| ADecimal (d : decimal)
| AStr (s : str).

(** Regex class [[ZŁPLN\s]]. *)
Definition is_currency (c : N) : bool :=
  (c =? 90) || (c =? 321) || (c =? 80) || (c =? 76) || (c =? 78)
  || isspace c.

(** Regex class [[\.\s]]. *)
Definition is_dot_space (c : N) : bool := (c =? 46) || isspace c.

(** The numeric branch; the quantize is not under the [try]. *)
Definition normalize_number (text : str) : option str :=
  match of_str text with
  | Some d => option_map to_str (quantize_cents d)
  | None => None
  end.

(** The string branch, entered with [str(amount)]. *)
Definition normalize_str (text : str) : str :=
  let cleaned := upper text in
  let cleaned := remove_class is_currency cleaned in
  let cleaned := replace_char 44 46 cleaned in
  let cleaned :=
    match rsplit1 46 cleaned with
    | Some (integer_part, decimal_part) =>
        remove_class is_dot_space integer_part ++ 46 :: decimal_part
    | None => remove_class is_dot_space cleaned
    end in
  match of_str cleaned with
  | Some d =>
      match quantize_cents d with
      | Some q => to_str q
      | None => lit "0.00"
      end
  | None => lit "0.00"
  end.

Definition normalize (a : amount) : option str :=
  match a with
  | AInt z => normalize_number (str_of_int z)
  | AFloat repr => normalize_number repr
  | ADecimal d => Some (normalize_str (to_str d))
  | AStr s => Some (normalize_str s)
  end.

End AmountNormalizer.

Module InvoiceNumberNormalizer.
Import PyStr.

(** Regex class [[\s\-_]]. *)
Definition is_sep (c : N) : bool := isspace c || (c =? 45) || (c =? 95).

Definition normalize (number : str) : str :=
  match number with
  | [] => []
  | _ =>
      let normalized := strip (upper number) in
      let normalized := sub_runs is_sep 47 normalized in
      let normalized := sub_runs (N.eqb 47) 47 normalized in
      strip_char 47 normalized
  end.

End InvoiceNumberNormalizer.

Module DateNormalizer.
Import PyStr PyDecimal.

(** The argument: a [str], or a [date] / [datetime] object. *)
Inductive date_arg :=
| DStr (s : str)
| DDate (year month day : N).

(** The directives of the formats in [FORMATS]; a blank in a format
    stands for the regex [\s+]. *)
Inductive directive := DirY | DirM | DirD | DirLit (c : N) | DirSpace.

Definition FORMATS : list (list directive) :=
  [ [DirY; DirLit 45; DirM; DirLit 45; DirD];
    [DirD; DirLit 45; DirM; DirLit 45; DirY];
    [DirD; DirLit 46; DirM; DirLit 46; DirY];
    [DirD; DirLit 47; DirM; DirLit 47; DirY];
    [DirY; DirLit 47; DirM; DirLit 47; DirD];
    [DirD; DirSpace; DirM; DirSpace; DirY];
    [DirY; DirM; DirD] ].

Definition in_range (lo hi c : N) : bool := (lo <=? c) && (c <=? hi).

(** One alternative of a directive's regex: two characters in the given
    classes, or one; an alternative yields its value and the rest. *)
Definition two_chars (p1 p2 : N -> bool) (s : str) : list (N * str) :=
  match s with
  | a :: b :: t =>
      if p1 a && p2 b then [(int_of_digits (lstrip_by isspace [a; b]), t)]
      else []
  | _ => []
  end.

Definition one_char (p : N -> bool) (s : str) : list (N * str) :=
  match s with
  | a :: t => if p a then [(int_of_digits [a], t)] else []
  | _ => []
  end.

(** [%d]: [3[0-1]|[1-2]\d|0[1-9]|[1-9]| [1-9]], in priority order. *)
Definition day_alts (s : str) : list (N * str) :=
  two_chars (N.eqb 51) (in_range 48 49) s
  ++ two_chars (in_range 49 50) isdigit s
  ++ two_chars (N.eqb 48) (in_range 49 57) s
  ++ one_char (in_range 49 57) s
  ++ two_chars (N.eqb 32) (in_range 49 57) s.

(** [%m]: [1[0-2]|0[1-9]|[1-9]] *)
Definition month_alts (s : str) : list (N * str) :=
  two_chars (N.eqb 49) (in_range 48 50) s
  ++ two_chars (N.eqb 48) (in_range 49 57) s
  ++ one_char (in_range 49 57) s.

(** [\s+]: the rests after one or more blanks, longest run first. *)
Fixpoint space_alts (s : str) : list str :=
  match s with
  | c :: t => if isspace c then space_alts t ++ [t] else []
  | [] => []
  end.

Fixpoint first_match {A B : Type} (f : A -> option B) (l : list A)
  : option B :=
  match l with
  | [] => None
  | x :: l' => match f x with Some y => Some y | None => first_match f l' end
  end.

(** [format_regex.match(s)]: the first match in the regex's priority
    order, with the fields read so far and the unmatched rest. *)
Fixpoint match_format (fmt : list directive) (ymd : N * N * N) (s : str)
  : option (N * N * N * str) :=
  match fmt with
  | [] => Some (ymd, s)
  | DirLit c :: f =>
      match s with
      | x :: t => if x =? c then match_format f ymd t else None
      | [] => None
      end
  | DirSpace :: f => first_match (match_format f ymd) (space_alts s)
  | DirY :: f =>
      match s with
      | a :: b :: c :: d :: t =>
          if isdigit a && isdigit b && isdigit c && isdigit d then
            match_format f (int_of_digits [a; b; c; d], snd (fst ymd),
                            snd ymd) t
          else None
      | _ => None
      end
  | DirM :: f =>
      first_match
        (fun vt => match_format f (fst (fst ymd), fst vt, snd ymd) (snd vt))
        (month_alts s)
  | DirD :: f =>
      first_match
        (fun vt => match_format f (fst ymd, fst vt) (snd vt))
        (day_alts s)
  end.

Definition is_leap (y : N) : bool :=
  (y mod 4 =? 0) && (negb (y mod 100 =? 0) || (y mod 400 =? 0)).

Definition days_in_month (y m : N) : N :=
  if m =? 2 then (if is_leap y then 29 else 28)
  else if (m =? 4) || (m =? 6) || (m =? 9) || (m =? 11) then 30
  else 31.

(** The range checks of the [date] constructor. *)
Definition valid_date (y m d : N) : bool :=
  (1 <=? y) && (y <=? 9999) && (1 <=? m) && (m <=? 12)
  && (1 <=? d) && (d <=? days_in_month y m).

(** [datetime.strptime(s, fmt)]; [None] is [ValueError]. *)
Definition strptime (s : str) (fmt : list directive) : option (N * N * N) :=
  match match_format fmt (1900, 1, 1) s with
  | Some (y, m, d, []) => if valid_date y m d then Some (y, m, d) else None
  | _ => None
  end.

Definition pad_to (width : nat) (s : str) : str :=
  List.repeat 48 (width - List.length s) ++ s.

(** [strftime('%Y-%m-%d')]. CPython leaves [%Y] to the C library:
    [pads_year] tells whether it pads a year below 1000 to four digits
    (glibc does not). *)
Definition strftime (pads_year : bool) (y m d : N) : str :=
  (if pads_year then pad_to 4 (digits_of_N y) else digits_of_N y)
  ++ 45 :: pad_to 2 (digits_of_N m) ++ 45 :: pad_to 2 (digits_of_N d).

(** The fallback on the digit runs of the text. *)
Definition guess_from_digits (cleaned : str) : str :=
  match digit_runs cleaned with
  | d0 :: d1 :: d2 :: _ =>
      if (List.length d0 =? 4)%nat then
        d0 ++ 45 :: zfill2 d1 ++ 45 :: zfill2 d2
      else if (List.length d2 =? 4)%nat then
        d2 ++ 45 :: zfill2 d1 ++ 45 :: zfill2 d0
      else cleaned
  | _ => cleaned
  end.

Definition normalize_str (pads_year : bool) (date_str : str) : str :=
  let cleaned := strip date_str in
  match first_match (strptime cleaned) FORMATS with
  | Some (y, m, d) => strftime pads_year y m d
  | None => guess_from_digits cleaned
  end.

Definition normalize (pads_year : bool) (date_str : date_arg) : str :=
  match date_str with
  | DDate y m d => strftime pads_year y m d
  | DStr s => normalize_str pads_year s
  end.

End DateNormalizer.

(** ** Document types and the identifier generator *)

Module DocumentType.
Inductive t :=
| INVOICE | RECEIPT | CONTRACT | BANK_STATEMENT | CORRECTION | PROFORMA
| ADVANCE | BILL | CASH_IN | CASH_OUT | DEBIT_NOTE | DELIVERY_NOTE
| RECEIPT_NOTE | EXPENSE_REPORT | OTHER.

Definition value (d : t) : PyStr.str :=
  PyStr.lit
    match d with
    | INVOICE => "FV" | RECEIPT => "PAR" | CONTRACT => "UMO"
    | BANK_STATEMENT => "WB" | CORRECTION => "KOR" | PROFORMA => "PRO"
    | ADVANCE => "ZAL" | BILL => "RAC" | CASH_IN => "KP" | CASH_OUT => "KW"
    | DEBIT_NOTE => "NK" | DELIVERY_NOTE => "WZ" | RECEIPT_NOTE => "PZ"
    | EXPENSE_REPORT => "DEL" | OTHER => "DOC"
    end%string.

(** The members in definition order, as [for dt in DocumentType] walks
    them. *)
Definition members : list t :=
  [ INVOICE; RECEIPT; CONTRACT; BANK_STATEMENT; CORRECTION; PROFORMA;
    ADVANCE; BILL; CASH_IN; CASH_OUT; DEBIT_NOTE; DELIVERY_NOTE;
    RECEIPT_NOTE; EXPENSE_REPORT; OTHER ].
End DocumentType.

(** [raw_fields] only keeps the arguments for debugging and is left out. *)
Record CanonicalData := {
  document_type : DocumentType.t;
  canonical_string : PyStr.str
}.

Module DocumentIDGenerator.
Import PyStr.

Record t := { prefix : str }.

(** The instance built by [DocumentIDGenerator()]. *)
Definition default : t := {| prefix := lit "DOC" |}.

(** [hashlib.sha256(s.encode('utf-8')).digest().hex()[:16].upper()] *)
Definition hash16 (s : str) : str :=
  upper (List.firstn 16 (SHA256.hex (SHA256.digest (encode_utf8 s)))).

Definition _generate_id (self : t) (canonical : CanonicalData) : str :=
  prefix self ++ 45 :: DocumentType.value (document_type canonical)
  ++ 45 :: hash16 (canonical_string canonical).

(** [if x: parts.append(f(x))] *)
Definition append_if (o : option str) (f : str -> str) (parts : list str)
  : list str :=
  match o with
  | Some (c :: x) => parts ++ [f (c :: x)]
  | _ => parts
  end.

Definition strip_upper (s : str) : str := upper (strip s).

(** [sorted] on strings: a stable insertion sort that compares with [<]. *)
Fixpoint insert_sorted (x : str) (l : list str) : list str :=
  match l with
  | [] => [x]
  | y :: l' => if ltb y x then y :: insert_sorted x l' else x :: l
  end.

Definition sorted (l : list str) : list str :=
  List.fold_right insert_sorted [] l.

Definition invoice_canonical (pads_year : bool)
    (seller_nip invoice_number : str)
    (issue_date : DateNormalizer.date_arg)
    (gross_amount : AmountNormalizer.amount) : option CanonicalData :=
  match AmountNormalizer.normalize gross_amount with
  | Some amount =>
      Some {| document_type := DocumentType.INVOICE;
              canonical_string :=
                join [124]
                  [ NIPValidator.normalize seller_nip;
                    InvoiceNumberNormalizer.normalize invoice_number;
                    DateNormalizer.normalize pads_year issue_date;
                    amount ] |}
  | None => None
  end.

Definition generate_invoice_id (self : t) (pads_year : bool)
    (seller_nip invoice_number : str)
    (issue_date : DateNormalizer.date_arg)
    (gross_amount : AmountNormalizer.amount) : option str :=
  option_map (_generate_id self)
    (invoice_canonical pads_year seller_nip invoice_number issue_date
       gross_amount).

Definition receipt_canonical (pads_year : bool) (seller_nip : str)
    (receipt_date : DateNormalizer.date_arg)
    (gross_amount : AmountNormalizer.amount)
    (receipt_number cash_register_number : option str)
  : option CanonicalData :=
  match AmountNormalizer.normalize gross_amount with
  | Some amount =>
      let parts := [ NIPValidator.normalize seller_nip;
                     DateNormalizer.normalize pads_year receipt_date;
                     amount ] in
      let parts := append_if receipt_number strip_upper parts in
      let parts := append_if cash_register_number strip_upper parts in
      Some {| document_type := DocumentType.RECEIPT;
              canonical_string := join [124] parts |}
  | None => None
  end.

Definition generate_receipt_id (self : t) (pads_year : bool)
    (seller_nip : str) (receipt_date : DateNormalizer.date_arg)
    (gross_amount : AmountNormalizer.amount)
    (receipt_number cash_register_number : option str) : option str :=
  option_map (_generate_id self)
    (receipt_canonical pads_year seller_nip receipt_date gross_amount
       receipt_number cash_register_number).

Definition contract_canonical (pads_year : bool)
    (party1_nip party2_nip : str) (contract_date : DateNormalizer.date_arg)
    (contract_number contract_type : option str) : CanonicalData :=
  let nips := sorted [ NIPValidator.normalize party1_nip;
                       NIPValidator.normalize party2_nip ] in
  let parts := [ List.nth 0 nips []; List.nth 1 nips [];
                 DateNormalizer.normalize pads_year contract_date ] in
  let parts := append_if contract_number strip_upper parts in
  let parts := append_if contract_type strip_upper parts in
  {| document_type := DocumentType.CONTRACT;
     canonical_string := join [124] parts |}.

Definition generate_contract_id (self : t) (pads_year : bool)
    (party1_nip party2_nip : str) (contract_date : DateNormalizer.date_arg)
    (contract_number contract_type : option str) : str :=
  _generate_id self
    (contract_canonical pads_year party1_nip party2_nip contract_date
       contract_number contract_type).

Definition generic_canonical (pads_year : bool)
    (document_type : DocumentType.t) (content_hash : str)
    (document_date : option DateNormalizer.date_arg)
    (issuer_nip : option str) : CanonicalData :=
  let parts := [ List.firstn 64 content_hash ] in
  let parts :=
    match document_date with
    | None | Some (DateNormalizer.DStr []) => parts
    | Some d => parts ++ [DateNormalizer.normalize pads_year d]
    end in
  let parts := append_if issuer_nip NIPValidator.normalize parts in
  {| document_type := document_type;
     canonical_string := join [124] parts |}.

Definition generate_generic_id (self : t) (pads_year : bool)
    (document_type : DocumentType.t) (content_hash : str)
    (document_date : option DateNormalizer.date_arg)
    (issuer_nip : option str) : str :=
  _generate_id self
    (generic_canonical pads_year document_type content_hash document_date
       issuer_nip).

Definition verify_id (self : t) (document_id canonical_string : str) : bool :=
  let expected_hash := hash16 canonical_string in
  match split 45 document_id with
  | [_; _; h] => eqb h expected_hash
  | _ => false
  end.

(** Regex class [[\s\-]]. *)
Definition is_space_dash (c : N) : bool := isspace c || (c =? 45).

Definition bank_statement_canonical (pads_year : bool)
    (account_number : str) (statement_date : DateNormalizer.date_arg)
    (statement_number : option str) : CanonicalData :=
  let account := remove_class is_space_dash account_number in
  let parts := [ account;
                 DateNormalizer.normalize pads_year statement_date ] in
  let parts := append_if statement_number strip parts in
  {| document_type := DocumentType.BANK_STATEMENT;
     canonical_string := join [124] parts |}.

Definition generate_bank_statement_id (self : t) (pads_year : bool)
    (account_number : str) (statement_date : DateNormalizer.date_arg)
    (statement_number : option str) : str :=
  _generate_id self
    (bank_statement_canonical pads_year account_number statement_date
       statement_number).

Definition correction_canonical (pads_year : bool)
    (seller_nip correction_number : str)
    (issue_date : DateNormalizer.date_arg)
    (original_invoice_number : str)
    (gross_amount : AmountNormalizer.amount) : option CanonicalData :=
  match AmountNormalizer.normalize gross_amount with
  | Some amount =>
      Some {| document_type := DocumentType.CORRECTION;
              canonical_string :=
                join [124]
                  [ NIPValidator.normalize seller_nip;
                    InvoiceNumberNormalizer.normalize correction_number;
                    DateNormalizer.normalize pads_year issue_date;
                    InvoiceNumberNormalizer.normalize
                      original_invoice_number;
                    amount ] |}
  | None => None
  end.

Definition generate_correction_id (self : t) (pads_year : bool)
    (seller_nip correction_number : str)
    (issue_date : DateNormalizer.date_arg)
    (original_invoice_number : str)
    (gross_amount : AmountNormalizer.amount) : option str :=
  option_map (_generate_id self)
    (correction_canonical pads_year seller_nip correction_number
       issue_date original_invoice_number gross_amount).

(** [hashlib.md5(name.strip().upper().encode()).hexdigest()[:8]] *)
Definition name_hash (name : str) : str :=
  List.firstn 8 (MD5.hexdigest (upper (strip name))).

Definition cash_receipt_canonical (pads_year : bool)
    (document_number : str) (document_date : DateNormalizer.date_arg)
    (amount : AmountNormalizer.amount)
    (issuer_nip payer_name : option str) : option CanonicalData :=
  match AmountNormalizer.normalize amount with
  | Some a =>
      let parts := [ upper (strip document_number);
                     DateNormalizer.normalize pads_year document_date;
                     a ] in
      let parts := append_if issuer_nip NIPValidator.normalize parts in
      let parts := append_if payer_name name_hash parts in
      Some {| document_type := DocumentType.CASH_IN;
              canonical_string := join [124] parts |}
  | None => None
  end.

Definition generate_cash_receipt_id (self : t) (pads_year : bool)
    (document_number : str) (document_date : DateNormalizer.date_arg)
    (amount : AmountNormalizer.amount)
    (issuer_nip payer_name : option str) : option str :=
  option_map (_generate_id self)
    (cash_receipt_canonical pads_year document_number document_date amount
       issuer_nip payer_name).

Definition cash_disbursement_canonical (pads_year : bool)
    (document_number : str) (document_date : DateNormalizer.date_arg)
    (amount : AmountNormalizer.amount)
    (issuer_nip recipient_name : option str) : option CanonicalData :=
  match AmountNormalizer.normalize amount with
  | Some a =>
      let parts := [ upper (strip document_number);
                     DateNormalizer.normalize pads_year document_date;
                     a ] in
      let parts := append_if issuer_nip NIPValidator.normalize parts in
      let parts := append_if recipient_name name_hash parts in
      Some {| document_type := DocumentType.CASH_OUT;
              canonical_string := join [124] parts |}
  | None => None
  end.

Definition generate_cash_disbursement_id (self : t) (pads_year : bool)
    (document_number : str) (document_date : DateNormalizer.date_arg)
    (amount : AmountNormalizer.amount)
    (issuer_nip recipient_name : option str) : option str :=
  option_map (_generate_id self)
    (cash_disbursement_canonical pads_year document_number document_date
       amount issuer_nip recipient_name).

Definition bill_canonical (pads_year : bool)
    (issuer_nip bill_number : str) (issue_date : DateNormalizer.date_arg)
    (gross_amount : AmountNormalizer.amount) : option CanonicalData :=
  match AmountNormalizer.normalize gross_amount with
  | Some amount =>
      Some {| document_type := DocumentType.BILL;
              canonical_string :=
                join [124]
                  [ NIPValidator.normalize issuer_nip;
                    InvoiceNumberNormalizer.normalize bill_number;
                    DateNormalizer.normalize pads_year issue_date;
                    amount ] |}
  | None => None
  end.

Definition generate_bill_id (self : t) (pads_year : bool)
    (issuer_nip bill_number : str) (issue_date : DateNormalizer.date_arg)
    (gross_amount : AmountNormalizer.amount) : option str :=
  option_map (_generate_id self)
    (bill_canonical pads_year issuer_nip bill_number issue_date
       gross_amount).

Definition debit_note_canonical (pads_year : bool)
    (issuer_nip note_number : str) (issue_date : DateNormalizer.date_arg)
    (amount : AmountNormalizer.amount) (recipient_nip : option str)
  : option CanonicalData :=
  match AmountNormalizer.normalize amount with
  | Some a =>
      let parts := [ NIPValidator.normalize issuer_nip;
                     upper (strip note_number);
                     DateNormalizer.normalize pads_year issue_date;
                     a ] in
      let parts := append_if recipient_nip NIPValidator.normalize parts in
      Some {| document_type := DocumentType.DEBIT_NOTE;
              canonical_string := join [124] parts |}
  | None => None
  end.

Definition generate_debit_note_id (self : t) (pads_year : bool)
    (issuer_nip note_number : str) (issue_date : DateNormalizer.date_arg)
    (amount : AmountNormalizer.amount) (recipient_nip : option str)
  : option str :=
  option_map (_generate_id self)
    (debit_note_canonical pads_year issuer_nip note_number issue_date
       amount recipient_nip).

Definition delivery_note_canonical (pads_year : bool)
    (issuer_nip document_number : str)
    (issue_date : DateNormalizer.date_arg) (recipient_nip : option str)
  : CanonicalData :=
  let parts := [ NIPValidator.normalize issuer_nip;
                 upper (strip document_number);
                 DateNormalizer.normalize pads_year issue_date ] in
  let parts := append_if recipient_nip NIPValidator.normalize parts in
  {| document_type := DocumentType.DELIVERY_NOTE;
     canonical_string := join [124] parts |}.

Definition generate_delivery_note_id (self : t) (pads_year : bool)
    (issuer_nip document_number : str)
    (issue_date : DateNormalizer.date_arg) (recipient_nip : option str)
  : str :=
  _generate_id self
    (delivery_note_canonical pads_year issuer_nip document_number
       issue_date recipient_nip).

Definition expense_report_canonical (pads_year : bool)
    (employee_id : str) (report_date : DateNormalizer.date_arg)
    (total_amount : AmountNormalizer.amount)
    (report_number company_nip : option str) : option CanonicalData :=
  match AmountNormalizer.normalize total_amount with
  | Some a =>
      let parts := [ upper (strip employee_id);
                     DateNormalizer.normalize pads_year report_date;
                     a ] in
      let parts := append_if report_number strip_upper parts in
      let parts := append_if company_nip NIPValidator.normalize parts in
      Some {| document_type := DocumentType.EXPENSE_REPORT;
              canonical_string := join [124] parts |}
  | None => None
  end.

Definition generate_expense_report_id (self : t) (pads_year : bool)
    (employee_id : str) (report_date : DateNormalizer.date_arg)
    (total_amount : AmountNormalizer.amount)
    (report_number company_nip : option str) : option str :=
  option_map (_generate_id self)
    (expense_report_canonical pads_year employee_id report_date
       total_amount report_number company_nip).

(** The dictionary that [parse_id] returns. *)
Record ParsedID := {
  parsed_prefix : str;
  parsed_type : str;
  parsed_hash : str;
  parsed_document_type : option DocumentType.t
}.

(** [parse_id]; [None] is its [ValueError]. *)
Definition parse_id (document_id : str) : option ParsedID :=
  match split 45 document_id with
  | [prefix; type_code; hash_value] =>
      Some {| parsed_prefix := prefix;
              parsed_type := type_code;
              parsed_hash := hash_value;
              parsed_document_type :=
                List.find (fun dt => eqb (DocumentType.value dt) type_code)
                  DocumentType.members |}
  | _ => None
  end.

End DocumentIDGenerator.

(** ** The pipeline: identifier and duplicate cache *)

Module DocumentCategory.
Inductive t := INVOICE | RECEIPT | CONTRACT | BANK_STATEMENT | UNKNOWN.
End DocumentCategory.

(** The fields of [ExtractionResult] that the pipeline reads. *)
Record ExtractionResult := {
  category : DocumentCategory.t;
  document_date : option PyStr.str;
  issuer_nip : option PyStr.str;
  invoice_number : option PyStr.str;
  gross_amount : option PyStr.str;
  receipt_number : option PyStr.str;
  cash_register_number : option PyStr.str;
  contract_number : option PyStr.str;
  party2_nip : option PyStr.str
}.

(** One page, or one document, as the OCR layer returns it; confidences
    are floats and play no part in the identifier. *)
Record DocumentOCRResult := {
  full_text : PyStr.str;
  detected_nips : list PyStr.str;
  detected_amounts : list PyStr.str;
  detected_dates : list PyStr.str;
  detected_invoice_numbers : list PyStr.str
}.

Record ProcessedDocument := {
  document_id : PyStr.str;
  doc_type : DocumentType.t;
  doc_canonical_string : PyStr.str;
  extraction : ExtractionResult;
  ocr_result : DocumentOCRResult;
  is_duplicate : bool;
  duplicate_of : option PyStr.str
}.

Module DocumentPipeline.
Import PyStr.

Record t := {
  id_generator : DocumentIDGenerator.t;
  _processed_ids : gmap str str
}.

(** [DocumentPipeline(id_prefix=p)] *)
Definition init (id_prefix : str) : t :=
  {| id_generator := {| DocumentIDGenerator.prefix := id_prefix |};
     _processed_ids := ∅ |}.

(** [x or ""] *)
Definition or_empty (o : option str) : str :=
  match o with Some x => x | None => [] end.

(** [x or "0"] *)
Definition or_zero (o : option str) : str :=
  match o with
  | Some (c :: x) => c :: x
  | _ => lit "0"
  end.

Definition _map_category_to_type (c : DocumentCategory.t)
  : DocumentType.t :=
  match c with
  | DocumentCategory.INVOICE => DocumentType.INVOICE
  | DocumentCategory.RECEIPT => DocumentType.RECEIPT
  | DocumentCategory.CONTRACT => DocumentType.CONTRACT
  | DocumentCategory.BANK_STATEMENT => DocumentType.BANK_STATEMENT
  | DocumentCategory.UNKNOWN => DocumentType.OTHER
  end.

(** [if x: parts.append(f(x))] of the pipeline, where [x] is a field. *)
Definition append_field (o : option str) (f : str -> str)
    (parts : list str) : list str :=
  DocumentIDGenerator.append_if o f parts.

Definition date_of (o : option str) : DateNormalizer.date_arg :=
  DateNormalizer.DStr (or_empty o).

(** [list(set(xs))]. CPython walks a set in hash-table order, and the
    hash of a [str] is seeded per process: [slot] is the table position
    the running process gives each string, and strings that fall in one
    slot keep their insertion order. *)
Fixpoint insert_by_slot (slot : str -> N) (x : str) (l : list str)
  : list str :=
  match l with
  | [] => [x]
  | y :: l' =>
      if eqb y x then l
      else if slot x <? slot y then x :: l
      else y :: insert_by_slot slot x l'
  end.

Definition list_of_set (slot : str -> N) (xs : list str) : list str :=
  List.fold_left (fun acc x => insert_by_slot slot x acc) xs [].

(** The merge of the pages of a PDF in [process]; [None] is the
    [ValueError] for a PDF without pages. *)
Definition combine_pages (slot : str -> N) (pages : list DocumentOCRResult)
  : option DocumentOCRResult :=
  match pages with
  | [] => None
  | _ =>
      let merged (field : DocumentOCRResult -> list str) :=
        list_of_set slot (List.concat (List.map field pages)) in
      Some {| full_text := join [10; 10] (List.map full_text pages);
              detected_nips := merged detected_nips;
              detected_amounts := merged detected_amounts;
              detected_dates := merged detected_dates;
              detected_invoice_numbers := merged detected_invoice_numbers |}
  end.

(** The fallback of [DocumentExtractor.extract] when no extractor
    accepts the document. *)
Definition unknown_extraction (ocr_result : DocumentOCRResult)
  : ExtractionResult :=
  {| category := DocumentCategory.UNKNOWN;
     document_date := List.head (detected_dates ocr_result);
     issuer_nip := List.head (detected_nips ocr_result);
     invoice_number := None; gross_amount := None;
     receipt_number := None; cash_register_number := None;
     contract_number := None; party2_nip := None |}.

(** [_generate_id]: the pair (identifier, canonical string). *)
Definition _generate_id (self : t) (pads_year : bool)
    (extraction : ExtractionResult) (doc_type : DocumentType.t)
    (ocr_result : DocumentOCRResult) : option (str * str) :=
  let gen := id_generator self in
  let amount := AmountNormalizer.AStr (or_zero (gross_amount extraction)) in
  match doc_type with
  | DocumentType.INVOICE =>
      match AmountNormalizer.normalize amount with
      | Some a =>
          let canonical :=
            join [124]
              [ NIPValidator.normalize (or_empty (issuer_nip extraction));
                upper (or_empty (invoice_number extraction));
                DateNormalizer.normalize pads_year
                  (date_of (document_date extraction));
                a ] in
          option_map (fun doc_id => (doc_id, canonical))
            (DocumentIDGenerator.generate_invoice_id gen pads_year
               (or_empty (issuer_nip extraction))
               (or_empty (invoice_number extraction))
               (date_of (document_date extraction)) amount)
      | None => None
      end
  | DocumentType.RECEIPT =>
      match AmountNormalizer.normalize amount with
      | Some a =>
          let parts :=
            [ NIPValidator.normalize (or_empty (issuer_nip extraction));
              DateNormalizer.normalize pads_year
                (date_of (document_date extraction));
              a ] in
          let parts :=
            append_field (receipt_number extraction) (fun x => x) parts in
          let parts :=
            append_field (cash_register_number extraction) (fun x => x)
              parts in
          let canonical := join [124] parts in
          option_map (fun doc_id => (doc_id, canonical))
            (DocumentIDGenerator.generate_receipt_id gen pads_year
               (or_empty (issuer_nip extraction))
               (date_of (document_date extraction)) amount
               (receipt_number extraction)
               (cash_register_number extraction))
      | None => None
      end
  | DocumentType.CONTRACT =>
      let nips :=
        DocumentIDGenerator.sorted
          [ NIPValidator.normalize (or_empty (issuer_nip extraction));
            NIPValidator.normalize (or_empty (party2_nip extraction)) ] in
      let parts :=
        [ List.nth 0 nips []; List.nth 1 nips [];
          DateNormalizer.normalize pads_year
            (date_of (document_date extraction)) ] in
      let parts := append_field (contract_number extraction) upper parts in
      let canonical := join [124] parts in
      Some (DocumentIDGenerator.generate_contract_id gen pads_year
              (or_empty (issuer_nip extraction))
              (or_empty (party2_nip extraction))
              (date_of (document_date extraction))
              (contract_number extraction) None,
            canonical)
  | _ =>
      let content_hash := SHA256.hexdigest (full_text ocr_result) in
      let canonical :=
        join [124]
          [ List.firstn 32 content_hash;
            DateNormalizer.normalize pads_year
              (date_of (document_date extraction));
            NIPValidator.normalize (or_empty (issuer_nip extraction)) ] in
      Some (DocumentIDGenerator.generate_generic_id gen pads_year doc_type
              content_hash
              (option_map DateNormalizer.DStr (document_date extraction))
              (issuer_nip extraction),
            canonical)
  end.

(** Steps 3 to 5 of [process], after text acquisition and extraction:
    the type, the identifier, the duplicate check. Returns the pipeline
    with its updated cache and the result. *)
Definition process (self : t) (pads_year : bool)
    (force_type : option DocumentType.t)
    (extraction : ExtractionResult) (ocr_result : DocumentOCRResult)
  : option (t * ProcessedDocument) :=
  let doc_type :=
    match force_type with
    | Some ty => ty
    | None => _map_category_to_type (category extraction)
    end in
  match _generate_id self pads_year extraction doc_type ocr_result with
  | Some (document_id, canonical_string) =>
      let '(cache, is_duplicate, duplicate_of) :=
        match _processed_ids self !! canonical_string with
        | Some existing => (_processed_ids self, true, Some existing)
        | None =>
            (<[canonical_string := document_id]> (_processed_ids self),
             false, None)
        end in
      Some ({| id_generator := id_generator self;
               _processed_ids := cache |},
            {| document_id := document_id;
               doc_type := doc_type;
               doc_canonical_string := canonical_string;
               extraction := extraction;
               ocr_result := ocr_result;
               is_duplicate := is_duplicate;
               duplicate_of := duplicate_of |})
  | None => None
  end.

(** [process_batch]. A file is given by what text acquisition and
    extraction deliver for it, [None] when they raise; an exception of any
    step skips the file and leaves the cache as it was. *)
Fixpoint process_batch (self : t) (pads_year : bool)
    (file_paths : list (option (ExtractionResult * DocumentOCRResult)))
    (skip_duplicates : bool) : t * list ProcessedDocument :=
  match file_paths with
  | [] => (self, [])
  | Some (extraction, ocr_result) :: rest =>
      match process self pads_year None extraction ocr_result with
      | Some (self', result) =>
          let '(final, results) :=
            process_batch self' pads_year rest skip_duplicates in
          if skip_duplicates && is_duplicate result then (final, results)
          else (final, result :: results)
      | None => process_batch self pads_year rest skip_duplicates
      end
  | None :: rest => process_batch self pads_year rest skip_duplicates
  end.

Definition verify_document (self : t) (pads_year : bool)
    (extraction : ExtractionResult) (ocr_result : DocumentOCRResult)
    (expected_id : str) : option (t * bool) :=
  match process self pads_year None extraction ocr_result with
  | Some (self', result) => Some (self', eqb (document_id result) expected_id)
  | None => None
  end.

Definition get_canonical_string (self : t) (pads_year : bool)
    (extraction : ExtractionResult) (ocr_result : DocumentOCRResult)
  : option (t * str) :=
  match process self pads_year None extraction ocr_result with
  | Some (self', result) => Some (self', doc_canonical_string result)
  | None => None
  end.

End DocumentPipeline.

(** * The vocabulary of the properties *)

(** What the statements below are written with: the sets of characters,
    the texts and the runs of calls they speak of. None of it is part of
    the program. *)

Section HashTerms.
Import PyStr.

Definition is_upper_hex (c : N) : bool :=
  ((48 <=? c) && (c <=? 57)) || ((65 <=? c) && (c <=? 70)).

End HashTerms.

Section SegmentTerms.
Import PyStr DocumentIDGenerator.
Import AmountNormalizer DateNormalizer.

(** The segment an optional argument contributes to a canonical string:
    none when the argument is absent or empty. *)
Definition optional_segment (o : option str) : list str :=
  match o with
  | None | Some [] => []
  | Some x => [upper (strip x)]
  end.

End SegmentTerms.

Section CacheTerms.
Import PyStr DocumentPipeline.

(** One call of [process]: the forced type, and what extraction and OCR
    delivered for the file. *)
Record request := {
  req_force_type : option DocumentType.t;
  req_extraction : ExtractionResult;
  req_ocr_result : DocumentOCRResult
}.

Definition process_request (self : t) (pads_year : bool) (r : request) :=
  process self pads_year (req_force_type r) (req_extraction r)
    (req_ocr_result r).

(** Successive calls of [process] on one pipeline instance. *)
Fixpoint process_all (self : t) (pads_year : bool) (rs : list request)
  : option (t * list ProcessedDocument) :=
  match rs with
  | [] => Some (self, [])
  | r :: rs' =>
      match process_request self pads_year r with
      | Some (self', doc) =>
          match process_all self' pads_year rs' with
          | Some (self'', docs) => Some (self'', doc :: docs)
          | None => None
          end
      | None => None
      end
  end.

(** The identifier of the first document of a list with a given
    canonical string. *)
Definition first_id (k : str) (docs : list ProcessedDocument)
  : option str :=
  option_map document_id
    (List.find (fun d => eqb (doc_canonical_string d) k) docs).

End CacheTerms.

Section PipelineTerms.
Import PyStr DocumentPipeline.

(** A document whose text holds nothing the scanners detect. *)
Definition text_only (text : str) : DocumentOCRResult :=
  {| full_text := text; detected_nips := []; detected_amounts := [];
     detected_dates := []; detected_invoice_numbers := [] |}.

End PipelineTerms.

Section PageTerms.
Import PyStr DocumentPipeline.

(** The union that keeps the first occurrence of each token, as the
    scanners of [ocr_processor.py] build their lists. *)
Fixpoint union_first_occurrence (seen : list str) (xs : list str)
  : list str :=
  match xs with
  | [] => List.rev seen
  | x :: xs' =>
      if List.existsb (eqb x) seen then union_first_occurrence seen xs'
      else union_first_occurrence (x :: seen) xs'
  end.

Definition nip_page (nip : str) : DocumentOCRResult :=
  {| full_text := nip; detected_nips := [nip]; detected_amounts := [];
     detected_dates := []; detected_invoice_numbers := [] |}.

Definition two_pages : list DocumentOCRResult :=
  [nip_page (lit "5213017228"); nip_page (lit "1234563218")].

(** Two processes whose hash seeds order the two tax numbers oppositely. *)
Definition slot_run1 (s : str) : N :=
  if eqb s (lit "5213017228") then 2 else 5.

Definition slot_run2 (s : str) : N :=
  if eqb s (lit "5213017228") then 6 else 3.

Definition merged_id (slot : str -> N) : option str :=
  match combine_pages slot two_pages with
  | Some ocr =>
      option_map fst
        (_generate_id (init (lit "DOC")) true (unknown_extraction ocr)
           DocumentType.OTHER ocr)
  | None => None
  end.

End PageTerms.

Section CharTerms.
Import PyStr.

(** The characters of a number as [Decimal] prints it. *)
Definition number_char (c : N) : bool :=
  isdigit c || (c =? 45) || (c =? 43) || (c =? 46) || (c =? 69).

End CharTerms.

Section DecimalTerms.
Import PyStr PyDecimal.

Definition all_digits (s : str) : Prop :=
  Forall (fun c => isdigit c = true) s.

Definition sign_text (neg : bool) : str := if neg then [45] else [].

Definition frac_text (fp : option str) : str :=
  match fp with Some d => 46 :: d | None => [] end.

Definition exp_text (x : option Z) : str :=
  match x with
  | Some x =>
      69 :: (if (x <? 0)%Z then 45 else 43) :: digits_of_N (Z.abs_N x)
  | None => []
  end.

(** A number in the syntax [Decimal] prints: sign, integer digits,
    fraction, exponent. *)
Definition number_text (neg : bool) (ip : str) (fp : option str)
    (x : option Z) : str :=
  sign_text neg ++ ip ++ frac_text fp ++ exp_text x.

Definition frac_digits (fp : option str) : str :=
  match fp with Some d => d | None => [] end.

Definition exp_value (x : option Z) : Z :=
  match x with Some x => x | None => 0%Z end.

End DecimalTerms.

Section AmountTerms.
Import PyStr PyDecimal AmountNormalizer.

(** What the string branch does once the text is cleaned. *)
Definition finish (o : option decimal) : str :=
  match o with
  | Some d =>
      match quantize_cents d with
      | Some q => to_str q
      | None => lit "0.00"
      end
  | None => lit "0.00"
  end.

(** The cleaning steps of the string branch. *)
Definition cleaned (text : str) : str :=
  let c := replace_char 44 46 (remove_class is_currency (upper text)) in
  match rsplit1 46 c with
  | Some (integer_part, decimal_part) =>
      remove_class is_dot_space integer_part ++ 46 :: decimal_part
  | None => remove_class is_dot_space c
  end.

End AmountTerms.

Section RoundingTerms.
Import PyStr PyDecimal AmountNormalizer.

(** The hundredths of [c * 10^e] rounded half up: the floor of the
    hundredths plus one half. *)
Definition cents_half_up (c : N) (e : Z) : N :=
  if (-2 <=? e)%Z then c * 10 ^ Z.to_N (e + 2)
  else (2 * c + 10 ^ Z.to_N (-2 - e)) / (2 * 10 ^ Z.to_N (-2 - e)).

(** The hundredths of [c * 10^e] rounded half to even (banker's
    rounding), as the specification words it. *)
Definition cents_half_even (c : N) (e : Z) : N :=
  if (-2 <=? e)%Z then c * 10 ^ Z.to_N (e + 2)
  else
    let t := 10 ^ Z.to_N (-2 - e) in
    let q := c / t in
    let r := c mod t in
    if 2 * r <? t then q
    else if t <? 2 * r then q + 1
    else if N.even q then q else q + 1.

(** The value [Decimal(str(x))] of a numeric argument [x]. *)
Definition numeric_value (a : amount) : option decimal :=
  match a with
  | AInt z => Some (Finite (z <? 0)%Z (Z.abs_N z) 0)
  | AFloat repr => of_str repr
  | ADecimal d => Some d
  | AStr _ => None
  end.

(** The form [D...D.DD], after the sign. *)
Definition two_decimals (neg : bool) (text : str) : Prop :=
  exists ip fp,
    text = sign_text neg ++ ip ++ 46 :: fp
    /\ ip <> [] /\ all_digits ip /\ all_digits fp
    /\ List.length fp = 2%nat.

End RoundingTerms.

Section RunTerms.
Import PyStr.

(** No two neighbours are both the character [r]. *)
Fixpoint no_double (r : N) (s : str) : bool :=
  match s with
  | a :: t =>
      match t with
      | b :: _ => negb ((a =? r) && (b =? r))
      | [] => true
      end && no_double r t
  | [] => true
  end.

End RunTerms.

Section CountryTerms.
Import PyStr.
Import InvoiceNumberNormalizer.
Import NIPValidator.

(** The result starts with two letters [A-Z]: a second pass would take
    them for a country code. *)
Definition starts_with_country (s : str) : bool :=
  match s with
  | a :: b :: _ => is_AZ a && is_AZ b
  | _ => false
  end.

End CountryTerms.

Section DateTerms.
Import PyStr PyDecimal DateNormalizer.

(** The normalizer after the [strip]. *)
Definition core (pads_year : bool) (cleaned : str) : str :=
  match first_match (strptime cleaned) FORMATS with
  | Some (y, m, d) => strftime pads_year y m d
  | None => guess_from_digits cleaned
  end.

(** The year as [strftime('%Y')] prints it. *)
Definition year_text (pads_year : bool) (y : N) : str :=
  if pads_year then pad_to 4 (digits_of_N y) else digits_of_N y.

(** Three runs of digits joined with dashes. *)
Definition date_text (r0 r1 r2 : str) : str := r0 ++ 45 :: r1 ++ 45 :: r2.

Definition digit_chars : list N := List.map N.of_nat (List.seq 48 10).

End DateTerms.

Section NanTerms.
Import PyStr PyDecimal.

(** A numeric argument that is not a float NaN. *)
Definition not_nan (a : AmountNormalizer.amount) : Prop :=
  match a with
  | AmountNormalizer.AFloat repr =>
      exists neg c e, of_str repr = Some (Finite neg c e)
  | _ => True
  end.

End NanTerms.

Section ChecksumTerms.
Import PyStr.

(** The superscript digits: [str.isdigit] accepts them, [int] does not. *)
Definition is_superscript (c : N) : bool :=
  (c =? 178) || (c =? 179) || (c =? 185).

(** Every code point is below U+0180, the range in which the tables of
    [upper] and [isdigit] are exact. *)
Definition basic (s : str) : Prop := Forall (fun c => c < 384) s.

(** The same for the text of an amount argument; an [int] and a
    [Decimal] hold no text. *)
Definition basic_amount (a : AmountNormalizer.amount) : Prop :=
  match a with
  | AmountNormalizer.AStr s | AmountNormalizer.AFloat s => basic s
  | _ => True
  end.

End ChecksumTerms.

Section BatchTerms.
Import PyStr.

(** The calls of [process] that a batch makes: one for each file whose
    text and extraction are delivered, in the order of the files. *)
Definition delivered
    (file_paths : list (option (ExtractionResult * DocumentOCRResult)))
  : list request :=
  List.flat_map
    (fun f =>
       match f with
       | Some (ex, ocr) =>
           [{| req_force_type := None; req_extraction := ex;
               req_ocr_result := ocr |}]
       | None => []
       end)
    file_paths.

End BatchTerms.

Section IdentifierTerms.
Import PyStr.

(** How many times a character occurs in a text. *)
Definition count_char (c : N) (s : str) : nat :=
  List.length (List.filter (N.eqb c) s).

Definition is_lower_hex (c : N) : bool :=
  ((48 <=? c) && (c <=? 57)) || ((97 <=? c) && (c <=? 102)).

End IdentifierTerms.

Section LayoutTerms.
Import PyStr PyDecimal DateNormalizer.

(** A date written in the seven layouts of [FORMATS], with a year of
    four digits and a month and a day of two. *)
Definition layouts (y m d : N) : list str :=
  let Y := pad_to 4 (digits_of_N y) in
  let M := pad_to 2 (digits_of_N m) in
  let D := pad_to 2 (digits_of_N d) in
  [ Y ++ 45 :: M ++ 45 :: D;
    D ++ 45 :: M ++ 45 :: Y;
    D ++ 46 :: M ++ 46 :: Y;
    D ++ 47 :: M ++ 47 :: Y;
    Y ++ 47 :: M ++ 47 :: D;
    D ++ 32 :: M ++ 32 :: Y;
    Y ++ M ++ D ].

End LayoutTerms.

Section MergeTerms.
Import PyStr.

(** The order in which [list(set(...))] walks two strings. *)
Definition by_slot (slot : str -> N) (a b : str) : Prop := slot a <= slot b.

End MergeTerms.

(** * The model on the examples of the source *)

Example sha256_abc :
  SHA256.hexdigest (PyStr.lit "abc")
  = PyStr.lit "ba7816bf8f01cfea414140de5dae2223b00361a396177a9cb410ff61f20015ad".
Proof. vm_compute. reflexivity. Qed.

Example sha256_empty :
  SHA256.hexdigest []
  = PyStr.lit "e3b0c44298fc1c149afbf4c8996fb92427ae41e4649b934ca495991b7852b855".
Proof. vm_compute. reflexivity. Qed.

Example sha256_two_blocks :
  SHA256.hexdigest
    (PyStr.lit "abcdbcdecdefdefgefghfghighijhijkijkljklmklmnlmnomnopnopq")
  = PyStr.lit "248d6a61d20638b8e5c026930c3e6039a33ce45964ff2167f6ecedd419db06c1".
Proof. vm_compute. reflexivity. Qed.

Example nip_doc1 :
  NIPValidator.normalize (PyStr.lit "521-301-72-28") = PyStr.lit "5213017228".
Proof. vm_compute. reflexivity. Qed.

Example nip_doc2 :
  NIPValidator.normalize (PyStr.lit "PL 521 301 72 28") = PyStr.lit "5213017228".
Proof. vm_compute. reflexivity. Qed.

Example amount_doc1 :
  AmountNormalizer.normalize
    (AmountNormalizer.AStr (PyStr.lit "1 230,50 z" ++ [322]))
  = Some (PyStr.lit "1230.50").
Proof. vm_compute. reflexivity. Qed.

Example amount_doc2 :
  AmountNormalizer.normalize (AmountNormalizer.AFloat (PyStr.lit "1230.5"))
  = Some (PyStr.lit "1230.50").
Proof. vm_compute. reflexivity. Qed.

Example amount_tests :
  List.map AmountNormalizer.normalize
    [AmountNormalizer.AFloat (PyStr.lit "1230.555");
     AmountNormalizer.AFloat (PyStr.lit "1230.554");
     AmountNormalizer.AFloat (PyStr.lit "0.99");
     AmountNormalizer.AStr (PyStr.lit "1 230 500,00");
     AmountNormalizer.AStr (PyStr.lit "1230.50 PLN");
     AmountNormalizer.AFloat (PyStr.lit "nan");
     AmountNormalizer.AFloat (PyStr.lit "inf");
     AmountNormalizer.AFloat (PyStr.lit "1e+30");
     AmountNormalizer.AFloat (PyStr.lit "1.5e-07");
     AmountNormalizer.AInt (-5);
     AmountNormalizer.AStr (PyStr.lit "abc");
     AmountNormalizer.AStr (PyStr.lit "-0.001");
     AmountNormalizer.ADecimal (PyDecimal.Finite false 15 (-8));
     AmountNormalizer.ADecimal (PyDecimal.Finite false 1 3)]
  = [Some (PyStr.lit "1230.56"); Some (PyStr.lit "1230.55");
     Some (PyStr.lit "0.99"); Some (PyStr.lit "1230500.00");
     Some (PyStr.lit "1230.50"); Some (PyStr.lit "NaN"); None; None;
     Some (PyStr.lit "0.00"); Some (PyStr.lit "-5.00");
     Some (PyStr.lit "0.00"); Some (PyStr.lit "-0.00");
     Some (PyStr.lit "0.00"); Some (PyStr.lit "1000.00")].
Proof. vm_compute. reflexivity. Qed.

Example invoice_number_doc :
  List.map InvoiceNumberNormalizer.normalize
    [PyStr.lit "fv/2025/00142"; PyStr.lit "FV 2025 142";
     PyStr.lit "fv_2025-00142"; PyStr.lit " /a- -b/ "]
  = [PyStr.lit "FV/2025/00142"; PyStr.lit "FV/2025/142";
     PyStr.lit "FV/2025/00142"; PyStr.lit "A/B"].
Proof. vm_compute. reflexivity. Qed.

Example date_doc :
  List.map (DateNormalizer.normalize true)
    [DateNormalizer.DStr (PyStr.lit "15.01.2025");
     DateNormalizer.DStr (PyStr.lit "2025-01-15");
     DateNormalizer.DStr (PyStr.lit "15-01-2025");
     DateNormalizer.DStr (PyStr.lit "15/01/2025");
     DateNormalizer.DStr (PyStr.lit "20250115");
     DateNormalizer.DDate 2025 1 15;
     DateNormalizer.DStr (PyStr.lit "2025115");
     DateNormalizer.DStr (PyStr.lit "20251155");
     DateNormalizer.DStr (PyStr.lit " 15  01 2025 ");
     DateNormalizer.DStr (PyStr.lit "2025-02-30");
     DateNormalizer.DStr (PyStr.lit "2024-2-29");
     DateNormalizer.DStr (PyStr.lit "dnia 5.1.2025 r.");
     DateNormalizer.DStr (PyStr.lit "brak")]
  = List.map PyStr.lit
      ["2025-01-15"; "2025-01-15"; "2025-01-15"; "2025-01-15"; "2025-01-15";
       "2025-01-15"; "2025-11-05"; "20251155"; "2025-01-15"; "2025-02-30";
       "2024-02-29"; "2025-01-05"; "brak"]%string.
Proof. vm_compute. reflexivity. Qed.

Example date_year_below_1000 :
  DateNormalizer.normalize false (DateNormalizer.DStr (PyStr.lit "0005-01-01"))
  = PyStr.lit "5-01-01".
Proof. vm_compute. reflexivity. Qed.

Example md5_empty :
  MD5.hexdigest [] = PyStr.lit "d41d8cd98f00b204e9800998ecf8427e".
Proof. vm_compute. reflexivity. Qed.

Example md5_abc :
  MD5.hexdigest (PyStr.lit "abc")
  = PyStr.lit "900150983cd24fb0d6963f7d28e17f72".
Proof. vm_compute. reflexivity. Qed.

Example md5_two_blocks :
  MD5.hexdigest
    (PyStr.lit "12345678901234567890123456789012345678901234567890123456789012345678901234567890")
  = PyStr.lit "57edf4a22be3c955ac49da2e2107b67a".
Proof. vm_compute. reflexivity. Qed.

Example validate_doc :
  List.map NIPValidator.validate
    [PyStr.lit "5213017228"; PyStr.lit "521-301-72-28";
     PyStr.lit "1234567890"; PyStr.lit "123456789";
     PyStr.lit "12345678901"; []]
  = [Some true; Some true; Some false; Some false; Some false; Some false].
Proof. vm_compute. reflexivity. Qed.

Example parse_id_doc :
  DocumentIDGenerator.parse_id (PyStr.lit "DOC-FV-A7B3C9D2E1F04856")
  = Some {| DocumentIDGenerator.parsed_prefix := PyStr.lit "DOC";
            DocumentIDGenerator.parsed_type := PyStr.lit "FV";
            DocumentIDGenerator.parsed_hash := PyStr.lit "A7B3C9D2E1F04856";
            DocumentIDGenerator.parsed_document_type :=
              Some DocumentType.INVOICE |}
  /\ DocumentIDGenerator.parse_id (PyStr.lit "invalid-id") = None.
Proof. split; vm_compute; reflexivity. Qed.

(** The calls of [TestDocumentTypes]. *)
Example bank_statement_test :
  DocumentIDGenerator.generate_bank_statement_id DocumentIDGenerator.default
    true (PyStr.lit "PL61 1090 1014 0000 0712 1981 2874")
    (DateNormalizer.DStr (PyStr.lit "2025-01-31"))
    (Some (PyStr.lit "001/2025"))
  = PyStr.lit "DOC-WB-5B777A8ED5B75B65".
Proof. vm_compute. reflexivity. Qed.

Example correction_test :
  DocumentIDGenerator.generate_correction_id DocumentIDGenerator.default
    true (PyStr.lit "5213017228") (PyStr.lit "KOR/2025/001")
    (DateNormalizer.DStr (PyStr.lit "2025-01-20"))
    (PyStr.lit "FV/2025/00142")
    (AmountNormalizer.AFloat (PyStr.lit "-100.0"))
  = Some (PyStr.lit "DOC-KOR-0ECFD1BEF00E0928").
Proof. vm_compute. reflexivity. Qed.

Example cash_receipt_with_payer :
  DocumentIDGenerator.generate_cash_receipt_id DocumentIDGenerator.default
    true (PyStr.lit "kp/1/2025")
    (DateNormalizer.DStr (PyStr.lit "15.01.2025"))
    (AmountNormalizer.AInt 100) (Some (PyStr.lit "521-301-72-28"))
    (Some (PyStr.lit " Jan Kowalski "))
  = Some (PyStr.lit "DOC-KP-1F9D395293E51C16").
Proof. vm_compute. reflexivity. Qed.

(** * Properties *)

(** [lia] reads division and remainder by a constant. *)
Ltac Zify.zify_post_hook ::= Z.to_euclidean_division_equations.

(** ** Strings *)

Section StrFacts.
Import PyStr.

Lemma eqb_eq (a b : str) : eqb a b = true <-> a = b.
Proof.
  revert b; induction a as [|x a IH]; intros [|y b]; simpl;
    try (split; [discriminate | congruence]); [tauto|].
  rewrite andb_true_iff, N.eqb_eq, IH. split.
  - intros [-> ->]; reflexivity.
  - intros E; injection E; auto.
Qed.

Lemma eqb_refl (a : str) : eqb a a = true.
Proof. apply eqb_eq; reflexivity. Qed.

Lemma eqb_neq (a b : str) : eqb a b = false <-> a <> b.
Proof.
  rewrite <- eqb_eq. destruct (eqb a b); split; congruence.
Qed.

Lemma ltb_irrefl (a : str) : ltb a a = false.
Proof.
  induction a as [|x a IH]; simpl; [reflexivity|].
  rewrite N.ltb_irrefl; exact IH.
Qed.

Lemma ltb_asym (a b : str) : ltb a b = true -> ltb b a = false.
Proof.
  revert b; induction a as [|x a IH]; intros [|y b]; simpl; try congruence.
  destruct (N.ltb_spec x y) as [Hxy|Hxy], (N.ltb_spec y x) as [Hyx|Hyx];
    try congruence; try lia.
  apply IH.
Qed.

(** [<] on strings is total: two strings that are not ordered are equal. *)
Lemma ltb_total (a b : str) : ltb a b = false -> ltb b a = false -> a = b.
Proof.
  revert b; induction a as [|x a IH]; intros [|y b]; simpl; try congruence.
  destruct (N.ltb_spec x y) as [Hxy|Hxy], (N.ltb_spec y x) as [Hyx|Hyx];
    try congruence.
  intros H1 H2. f_equal; [lia | auto].
Qed.

Lemma split_nonempty (sep : N) (s : str) : split sep s <> [].
Proof.
  induction s as [|c s IH]; simpl; [discriminate|].
  destruct (c =? sep); [discriminate|].
  destruct (split sep s); [contradiction | discriminate].
Qed.

(** A string without the separator is one piece. *)
Lemma split_no_sep (sep : N) (s : str) : ~ In sep s -> split sep s = [s].
Proof.
  induction s as [|c s IH]; simpl; intros H; [reflexivity|].
  destruct (N.eqb_spec c sep) as [->|Hc]; [tauto|].
  rewrite IH by tauto. reflexivity.
Qed.

Lemma split_app (sep : N) (p rest : str) :
  ~ In sep p -> split sep (p ++ sep :: rest) = p :: split sep rest.
Proof.
  induction p as [|c p IH]; simpl; intros H.
  - rewrite N.eqb_refl. reflexivity.
  - destruct (N.eqb_spec c sep) as [->|Hc]; [tauto|].
    rewrite IH by tauto. reflexivity.
Qed.

(** Joining the pieces gives the string back, and no piece holds the
    separator. *)
Lemma join_split (sep : N) (s : str) : join [sep] (split sep s) = s.
Proof.
  induction s as [|c s IH]; simpl; [reflexivity|].
  destruct (c =? sep) eqn:E.
  - apply N.eqb_eq in E; subst c.
    destruct (split sep s) eqn:Es; [now apply split_nonempty in Es|].
    simpl in *. rewrite IH. reflexivity.
  - destruct (split sep s) as [|p ps] eqn:Es;
      [now apply split_nonempty in Es|].
    simpl in *. destruct ps; simpl in *; rewrite <- IH; reflexivity.
Qed.

Lemma split_pieces (sep : N) (s : str) :
  Forall (fun p => ~ In sep p) (split sep s).
Proof.
  induction s as [|c s IH]; simpl; [repeat constructor; auto|].
  destruct (N.eqb_spec c sep) as [->|Hc].
  - constructor; auto.
  - destruct (split sep s) as [|p ps]; [repeat constructor; simpl; tauto|].
    inversion IH; subst. constructor; auto. simpl. intros [?|?]; auto.
Qed.

(** The three-piece case, as [verify_id] and [parse_id] test it. *)
Lemma split_three (sep : N) (s p k h : str) :
  split sep s = [p; k; h] <->
  s = p ++ sep :: k ++ sep :: h
  /\ ~ In sep p /\ ~ In sep k /\ ~ In sep h.
Proof.
  split.
  - intros E. pose proof (join_split sep s) as J.
    pose proof (split_pieces sep s) as F. rewrite E in J, F. simpl in J.
    repeat rewrite Forall_cons_iff in F.
    destruct F as (Hp & Hk & Hh & _). auto.
  - intros (-> & Hp & Hk & Hh).
    rewrite split_app by assumption. rewrite split_app by assumption.
    rewrite split_no_sep by assumption. reflexivity.
Qed.

End StrFacts.

(** ** The hash part of an identifier *)

Section HashFacts.
Import PyStr.

Lemma digest_bytes (msg : list N) :
  Forall (fun b => b < 256) (SHA256.digest msg).
Proof.
  unfold SHA256.digest. apply Forall_flat_map, Forall_forall.
  intros w _. unfold SHA256.be_bytes. apply Forall_map, Forall_forall.
  intros i _. apply N.mod_lt. discriminate.
Qed.

Lemma upper_hex_digit (d : N) :
  d < 16 -> Forall (fun c => is_upper_hex c = true)
                   (upper_cp (SHA256.hex_digit d)).
Proof.
  intros H. unfold SHA256.hex_digit.
  assert (d = 0 \/ d = 1 \/ d = 2 \/ d = 3 \/ d = 4 \/ d = 5 \/ d = 6
          \/ d = 7 \/ d = 8 \/ d = 9 \/ d = 10 \/ d = 11 \/ d = 12
          \/ d = 13 \/ d = 14 \/ d = 15) as C by lia.
  repeat (destruct C as [->|C]; [repeat constructor|]).
  subst d; repeat constructor.
Qed.

Lemma flat_map_firstn_Forall {A} (P : A -> Prop) (f : N -> list A)
    (l : list N) (k : nat) :
  Forall (fun c => Forall P (f c)) l ->
  Forall P (List.flat_map f (List.firstn k l)).
Proof.
  intros H. apply Forall_flat_map. apply Forall_take. exact H.
Qed.

(** The hash part is made of the characters [0-9A-F]. *)
Lemma hash16_upper_hex (s : str) :
  Forall (fun c => is_upper_hex c = true) (DocumentIDGenerator.hash16 s).
Proof.
  unfold DocumentIDGenerator.hash16, upper.
  apply flat_map_firstn_Forall. unfold SHA256.hex.
  apply Forall_flat_map.
  eapply List.Forall_impl; [|apply digest_bytes].
  intros b Hb. simpl.
  assert (b / 16 < 16).
  { apply N.Div0.div_lt_upper_bound. change (16 * 16) with 256. exact Hb. }
  assert (b mod 16 < 16) by (apply N.mod_lt; discriminate).
  repeat constructor; apply upper_hex_digit; assumption.
Qed.

Lemma hash16_no_dash (s : str) : ~ In 45 (DocumentIDGenerator.hash16 s).
Proof.
  intros H. pose proof (hash16_upper_hex s) as F.
  rewrite List.Forall_forall in F. apply F in H. discriminate.
Qed.

End HashFacts.

(** ** C10: what [verify_id] accepts *)



(** A wrong prefix and an unknown kind code still verify. *)
Example verify_id_ignores_prefix_and_kind :
  DocumentIDGenerator.verify_id DocumentIDGenerator.default
    (PyStr.lit "XYZ-??-550FEA2C3827AC6F")
    (PyStr.lit "5213017228|2025-01-15|45.99") = true.
Proof. vm_compute. reflexivity. Qed.

(** ** C3 and C7: the invoice and receipt scenarios *)

Section Scenarios.
Import PyStr DocumentIDGenerator.
Import AmountNormalizer DateNormalizer.

(** C3. The invoice of scenario 1 has the canonical string
    [5213017228|FV/2025/00142|2025-01-15|1230.50] and the identifier
    [DOC-FV-] followed by the hash of that string; the differently
    written inputs of scenario 2 give the same identifier. The float
    [1230.50] is given by its [str], [1230.5]. *)
Theorem invoice_scenario_same_id :
  forall pads_year : bool,
    invoice_canonical pads_year (lit "5213017228") (lit "FV/2025/00142")
      (DStr (lit "2025-01-15")) (AFloat (lit "1230.5"))
    = Some {| document_type := DocumentType.INVOICE;
              canonical_string :=
                lit "5213017228|FV/2025/00142|2025-01-15|1230.50" |}
    /\ generate_invoice_id default pads_year (lit "5213017228")
         (lit "FV/2025/00142") (DStr (lit "2025-01-15"))
         (AFloat (lit "1230.5"))
       = Some (lit "DOC-FV-"
               ++ hash16 (lit "5213017228|FV/2025/00142|2025-01-15|1230.50"))
    /\ generate_invoice_id default pads_year (lit "521-301-72-28")
         (lit "fv/2025/00142") (DStr (lit "15.01.2025"))
         (AStr (lit "1 230,50 z" ++ [322]))
       = generate_invoice_id default pads_year (lit "5213017228")
           (lit "FV/2025/00142") (DStr (lit "2025-01-15"))
           (AFloat (lit "1230.5")).
Proof.
  intros [|]; repeat split; vm_compute; reflexivity.
Qed.

Example invoice_scenario_id :
  generate_invoice_id default true (lit "521-301-72-28")
    (lit "fv/2025/00142") (DStr (lit "15.01.2025"))
    (AStr (lit "1 230,50 z" ++ [322]))
  = Some (lit "DOC-FV-F0BE35240C77B2DB").
Proof. vm_compute. reflexivity. Qed.

Lemma append_if_segment (o : option str) (parts : list str) :
  append_if o strip_upper parts = parts ++ optional_segment o.
Proof.
  destruct o as [[|c x]|]; simpl; rewrite ?app_nil_r; reflexivity.
Qed.

Lemma lstrip_by_all (p : N -> bool) (s : str) :
  Forall (fun c => p c = true) s -> lstrip_by p s = [].
Proof.
  induction 1 as [|c s Hc _ IH]; simpl; [reflexivity|].
  rewrite Hc. exact IH.
Qed.

(** C7. The receipt of scenario 3 has the canonical string
    [5213017228|2025-01-15|45.99], without a trailing separator, and the
    identifier [DOC-PAR-] followed by its hash, as claimed. The general
    sentence fails: the argument is tested before it is stripped, so a
    receipt number of white space only appends an empty segment. With the
    receipt number of two blanks the canonical string of scenario 3 ends
    in a separator and the identifier is not the one of scenario 3; and
    for every receipt, a receipt number that is not empty and all white
    space gives the three leading segments followed by an empty one. *)
Theorem receipt_blank_number_empty_segment :
  forall pads_year : bool,
    (receipt_canonical pads_year (lit "5213017228")
       (DStr (lit "2025-01-15")) (AFloat (lit "45.99")) None None
     = Some {| document_type := DocumentType.RECEIPT;
               canonical_string := lit "5213017228|2025-01-15|45.99" |}
     /\ generate_receipt_id default pads_year (lit "5213017228")
          (DStr (lit "2025-01-15")) (AFloat (lit "45.99")) None None
        = Some (lit "DOC-PAR-" ++ hash16 (lit "5213017228|2025-01-15|45.99")))
    /\ receipt_canonical pads_year (lit "5213017228")
         (DStr (lit "2025-01-15")) (AFloat (lit "45.99"))
         (Some (lit "  ")) None
       = Some {| document_type := DocumentType.RECEIPT;
                 canonical_string := lit "5213017228|2025-01-15|45.99|" |}
    /\ generate_receipt_id default pads_year (lit "5213017228")
         (DStr (lit "2025-01-15")) (AFloat (lit "45.99"))
         (Some (lit "  ")) None
       <> generate_receipt_id default pads_year (lit "5213017228")
            (DStr (lit "2025-01-15")) (AFloat (lit "45.99")) None None
    /\ forall (seller_nip : str) (receipt_date : date_arg)
              (amount : AmountNormalizer.amount) (a receipt_number : str),
         AmountNormalizer.normalize amount = Some a ->
         receipt_number <> [] ->
         Forall (fun c => isspace c = true) receipt_number ->
         receipt_canonical pads_year seller_nip receipt_date amount
           (Some receipt_number) None
         = Some {| document_type := DocumentType.RECEIPT;
                   canonical_string :=
                     join [124]
                       [ NIPValidator.normalize seller_nip;
                         DateNormalizer.normalize pads_year receipt_date;
                         a; [] ] |}.
Proof.
  intros pads_year. split; [|split; [|split]].
  - destruct pads_year; split; vm_compute; reflexivity.
  - destruct pads_year; vm_compute; reflexivity.
  - destruct pads_year; vm_compute; discriminate.
  - intros seller_nip receipt_date amount a receipt_number Ha Hne Hsp.
    unfold receipt_canonical. rewrite Ha.
    destruct receipt_number as [|c x]; [contradiction|].
    cbn [append_if app]. unfold strip_upper, strip, strip_by.
    rewrite (lstrip_by_all isspace (c :: x) Hsp). reflexivity.
Qed.

(** An argument of blanks only is present and not empty: its segment is
    appended, and is the empty text that [strip] leaves. *)
Example receipt_blank_number :
  receipt_canonical true (lit "5213017228") (DStr (lit "2025-01-15"))
    (AFloat (lit "45.99")) (Some (lit "  ")) None
  = Some {| document_type := DocumentType.RECEIPT;
            canonical_string := lit "5213017228|2025-01-15|45.99|" |}.
Proof. vm_compute. reflexivity. Qed.

Example receipt_scenario_id :
  generate_receipt_id default true (lit "5213017228")
    (DStr (lit "2025-01-15")) (AFloat (lit "45.99")) None None
  = Some (lit "DOC-PAR-550FEA2C3827AC6F").
Proof. vm_compute. reflexivity. Qed.

End Scenarios.

(** ** C8: the order of the parties of a contract *)

Section Contract.
Import PyStr DocumentIDGenerator.

Lemma sorted_pair_comm (a b : str) : sorted [a; b] = sorted [b; a].
Proof.
  unfold sorted; simpl.
  destruct (ltb b a) eqn:Hba, (ltb a b) eqn:Hab; try reflexivity.
  - apply ltb_asym in Hba. congruence.
  - rewrite (ltb_total a b Hab Hba). reflexivity.
Qed.

(** C8. Swapping the two parties of a contract changes neither the
    canonical string nor the identifier. *)
Theorem contract_party_order :
  forall (self : DocumentIDGenerator.t) (pads_year : bool)
         (party1_nip party2_nip : str)
         (contract_date : DateNormalizer.date_arg)
         (contract_number contract_type : option str),
    contract_canonical pads_year party1_nip party2_nip contract_date
      contract_number contract_type
    = contract_canonical pads_year party2_nip party1_nip contract_date
        contract_number contract_type
    /\ generate_contract_id self pads_year party1_nip party2_nip
         contract_date contract_number contract_type
       = generate_contract_id self pads_year party2_nip party1_nip
           contract_date contract_number contract_type.
Proof.
  intros. unfold generate_contract_id, contract_canonical.
  rewrite (sorted_pair_comm (NIPValidator.normalize party1_nip)).
  split; reflexivity.
Qed.

(** Scenario 4 of the specification. *)
Example contract_scenario :
  generate_contract_id default true (lit "5213017228") (lit "9876543210")
    (DateNormalizer.DStr (lit "2025-01-15")) None None
  = generate_contract_id default true (lit "9876543210") (lit "5213017228")
      (DateNormalizer.DStr (lit "2025-01-15")) None None
  /\ canonical_string
       (contract_canonical true (lit "9876543210") (lit "5213017228")
          (DateNormalizer.DStr (lit "2025-01-15")) None None)
     = lit "5213017228|9876543210|2025-01-15".
Proof. split; vm_compute; reflexivity. Qed.

End Contract.

(** ** C9: the duplicate cache *)

Section DuplicateCache.
Import PyStr DocumentPipeline.

(** The amount of a pipeline document is a [str], so nothing raises. *)
Lemma normalize_AStr (s : str) :
  AmountNormalizer.normalize (AmountNormalizer.AStr s)
  = Some (AmountNormalizer.normalize_str s).
Proof. reflexivity. Qed.

Lemma _generate_id_total self pads_year ex ty ocr :
  exists r, _generate_id self pads_year ex ty ocr = Some r.
Proof.
  unfold _generate_id, DocumentIDGenerator.generate_invoice_id,
    DocumentIDGenerator.generate_receipt_id,
    DocumentIDGenerator.invoice_canonical,
    DocumentIDGenerator.receipt_canonical.
  destruct ty; rewrite ?normalize_AStr; simpl; eauto.
Qed.

(** The identifier and the canonical string do not depend on the cache. *)
Lemma _generate_id_cache self pads_year ex ty ocr cache :
  _generate_id {| id_generator := id_generator self;
                  _processed_ids := cache |} pads_year ex ty ocr
  = _generate_id self pads_year ex ty ocr.
Proof. reflexivity. Qed.

Lemma process_total self pads_year force ex ocr :
  exists r, process self pads_year force ex ocr = Some r.
Proof.
  unfold process.
  destruct (_generate_id_total self pads_year ex
              match force with
              | Some ty => ty
              | None => _map_category_to_type (category ex)
              end ocr) as [[i c] ->].
  destruct (_processed_ids self !! c); eauto.
Qed.

(** What one call does to the cache and to the flags. *)
Lemma process_step self pads_year force ex ocr self' doc :
  process self pads_year force ex ocr = Some (self', doc) ->
  id_generator self' = id_generator self
  /\ match _processed_ids self !! doc_canonical_string doc with
     | Some existing =>
         is_duplicate doc = true /\ duplicate_of doc = Some existing
         /\ _processed_ids self' = _processed_ids self
     | None =>
         is_duplicate doc = false /\ duplicate_of doc = None
         /\ _processed_ids self'
            = <[doc_canonical_string doc := document_id doc]>
                (_processed_ids self)
     end.
Proof.
  unfold process.
  destruct (_generate_id self pads_year ex _ ocr) as [[i c]|];
    [|discriminate].
  destruct (_processed_ids self !! c) eqn:E; intros [= <- <-]; simpl;
    rewrite E; auto.
Qed.

Lemma process_keeps_entries self pads_year force ex ocr self' doc k v :
  process self pads_year force ex ocr = Some (self', doc) ->
  _processed_ids self !! k = Some v -> _processed_ids self' !! k = Some v.
Proof.
  intros H Hk. apply process_step in H. destruct H as [_ H].
  destruct (_processed_ids self !! doc_canonical_string doc) eqn:E.
  - destruct H as (_ & _ & ->). exact Hk.
  - destruct H as (_ & _ & ->).
    rewrite lookup_insert_ne; [exact Hk|]. congruence.
Qed.

(** After any number of calls the cache holds, for every canonical
    string, the entry it had before or else the identifier of the first
    document processed with that string. *)
Lemma process_all_cache pads_year rs :
  forall self self' docs k,
    process_all self pads_year rs = Some (self', docs) ->
    _processed_ids self' !! k
    = match _processed_ids self !! k with
      | Some v => Some v
      | None => first_id k docs
      end.
Proof.
  induction rs as [|r rs IH]; simpl; intros self self' docs k H.
  - injection H as <- <-. destruct (_processed_ids self !! k); reflexivity.
  - unfold process_request in H.
    destruct (process self pads_year _ _ _) as [[s1 doc]|] eqn:P;
      [|discriminate].
    destruct (process_all s1 pads_year rs) as [[s2 ds]|] eqn:A;
      [|discriminate].
    injection H as <- <-. rewrite (IH _ _ _ k A).
    apply process_step in P. destruct P as [_ P].
    unfold first_id; simpl.
    destruct (eqb (doc_canonical_string doc) k) eqn:Ek.
    + apply eqb_eq in Ek. subst k.
      destruct (_processed_ids self !! doc_canonical_string doc) eqn:E.
      * destruct P as (_ & _ & ->). rewrite E. reflexivity.
      * destruct P as (_ & _ & ->). rewrite lookup_insert_eq. reflexivity.
    + apply eqb_neq in Ek.
      destruct (_processed_ids self !! doc_canonical_string doc) eqn:E.
      * destruct P as (_ & _ & ->). reflexivity.
      * destruct P as (_ & _ & ->).
        rewrite lookup_insert_ne by exact Ek. reflexivity.
Qed.

Lemma process_all_total pads_year rs :
  forall self, exists r, process_all self pads_year rs = Some r.
Proof.
  induction rs as [|r rs IH]; simpl; intros self; [eauto|].
  unfold process_request.
  destruct (process_total self pads_year (req_force_type r)
              (req_extraction r) (req_ocr_result r)) as [[s1 d] ->].
  destruct (IH s1) as [[s2 ds] ->]. eauto.
Qed.

(** C9. Every call of [process] returns; a call whose canonical string is
    in the cache is flagged as a duplicate of the cached identifier and
    leaves the cache alone, any other call inserts its pair; no entry is
    ever changed; the identifier and the canonical string returned are
    those of [_generate_id], whatever the cache holds; and after any
    sequence of calls on a fresh pipeline the cache maps each canonical
    string to the identifier of the first document that had it. *)
Theorem duplicate_cache_first_id :
  forall (self : t) (pads_year : bool) (force : option DocumentType.t)
         (ex : ExtractionResult) (ocr : DocumentOCRResult),
    (exists self' doc,
       process self pads_year force ex ocr = Some (self', doc)
       /\ match _processed_ids self !! doc_canonical_string doc with
          | Some existing =>
              is_duplicate doc = true /\ duplicate_of doc = Some existing
              /\ _processed_ids self' = _processed_ids self
          | None =>
              is_duplicate doc = false /\ duplicate_of doc = None
              /\ _processed_ids self'
                 = <[doc_canonical_string doc := document_id doc]>
                     (_processed_ids self)
          end
       /\ (forall k v, _processed_ids self !! k = Some v ->
                       _processed_ids self' !! k = Some v)
       /\ forall cache : gmap str str,
            exists other doc',
              process {| id_generator := id_generator self;
                         _processed_ids := cache |} pads_year force ex ocr
              = Some (other, doc')
              /\ document_id doc' = document_id doc
              /\ doc_canonical_string doc' = doc_canonical_string doc)
    /\ forall (id_prefix : str) (rs : list request),
         exists final docs,
           process_all (init id_prefix) pads_year rs = Some (final, docs)
           /\ forall k, _processed_ids final !! k = first_id k docs.
Proof.
  intros self pads_year force ex ocr. split.
  - destruct (process_total self pads_year force ex ocr) as [[self' doc] P].
    exists self', doc. split; [exact P|].
    split; [exact (proj2 (process_step _ _ _ _ _ _ _ P))|].
    split; [intros k v; exact (process_keeps_entries _ _ _ _ _ _ _ k v P)|].
    intros cache.
    destruct (process_total {| id_generator := id_generator self;
                               _processed_ids := cache |}
                pads_year force ex ocr) as [[other doc'] P'].
    exists other, doc'. split; [exact P'|].
    revert P P'. unfold process. rewrite _generate_id_cache.
    destruct (_generate_id self pads_year ex _ ocr) as [[i c]|];
      [|discriminate].
    simpl.
    destruct (_processed_ids self !! c), (cache !! c);
      intros [= <- <-] [= <- <-]; auto.
  - intros id_prefix rs.
    destruct (process_all_total pads_year rs (init id_prefix))
      as [[final docs] A].
    exists final, docs. split; [exact A|].
    intros k. rewrite (process_all_cache _ _ _ _ _ k A).
    unfold init; simpl. rewrite lookup_empty. reflexivity.
Qed.

End DuplicateCache.

(** ** C1 and C6: the canonical string the pipeline returns *)

Section PipelineCanonical.
Import PyStr DocumentPipeline.

(** The result of [process] when the canonical string is new. *)
Lemma process_fresh self pads_year force ex ocr i c :
  _generate_id self pads_year ex
    match force with
    | Some ty => ty
    | None => _map_category_to_type (category ex)
    end ocr = Some (i, c) ->
  _processed_ids self !! c = None ->
  exists self' doc,
    process self pads_year force ex ocr = Some (self', doc)
    /\ document_id doc = i /\ doc_canonical_string doc = c
    /\ id_generator self' = id_generator self.
Proof.
  intros G E. unfold process. rewrite G, E. eauto 10.
Qed.

Lemma hello_generate_id (pads_year : bool) :
  _generate_id (init (lit "DOC")) pads_year
    (unknown_extraction (text_only (lit "hello"))) DocumentType.OTHER
    (text_only (lit "hello"))
  = Some (lit "DOC-DOC-D7914FE546B68468",
          lit "2cf24dba5fb0a30e26e83b2ac5b9e29e||").
Proof. destruct pads_year; vm_compute; reflexivity. Qed.

(** C1, at a text file that reads [hello] and that no extractor accepts:
    the identifier the pipeline returns does not verify against the
    canonical string it returns with it. *)
Theorem pipeline_canonical_not_verified :
  forall pads_year : bool,
    exists self' doc,
      process (init (lit "DOC")) pads_year None
        (unknown_extraction (text_only (lit "hello")))
        (text_only (lit "hello")) = Some (self', doc)
      /\ document_id doc = lit "DOC-DOC-D7914FE546B68468"
      /\ DocumentIDGenerator.hash16 (doc_canonical_string doc)
         = lit "0AFA19A5B75E844C"
      /\ DocumentIDGenerator.verify_id (id_generator self')
           (document_id doc) (doc_canonical_string doc) = false.
Proof.
  intros pads_year.
  destruct (process_fresh (init (lit "DOC")) pads_year None
              (unknown_extraction (text_only (lit "hello")))
              (text_only (lit "hello")) _ _ (hello_generate_id pads_year))
    as (self' & doc & P & Hi & Hc & _).
  { apply lookup_empty. }
  exists self', doc. split; [exact P|]. rewrite Hi, Hc.
  repeat split; vm_compute; reflexivity.
Qed.

(** The same happens for an invoice whose number needs more than
    upper-casing: the pipeline's own canonical string keeps the blanks. *)
Example invoice_canonical_not_verified :
  let ex := {| category := DocumentCategory.INVOICE;
               document_date := Some (lit "2025-01-15");
               issuer_nip := Some (lit "5213017228");
               invoice_number := Some (lit "FV 2025 142");
               gross_amount := Some (lit "1230.50");
               receipt_number := None; cash_register_number := None;
               contract_number := None; party2_nip := None |} in
  option_map
    (fun r => (snd r,
               DocumentIDGenerator.verify_id DocumentIDGenerator.default
                 (fst r) (snd r)))
    (_generate_id (init (lit "DOC")) true ex DocumentType.INVOICE
       (text_only (lit "Faktura FV 2025 142")))
  = Some (lit "5213017228|FV 2025 142|2025-01-15|1230.50", false).
Proof. vm_compute. reflexivity. Qed.

(** C6, at the same text file: the first segment of the canonical string
    the pipeline returns is the first 32 hexadecimal characters of the
    digest of the text, it is followed by two empty segments, and the
    identifier is computed from another string, the 64 characters that
    [generate_generic_id] keeps. *)
Theorem pipeline_other_canonical_32 :
  forall pads_year : bool,
    exists self' doc,
      process (init (lit "DOC")) pads_year None
        (unknown_extraction (text_only (lit "hello")))
        (text_only (lit "hello")) = Some (self', doc)
      /\ split 124 (doc_canonical_string doc)
         = [List.firstn 32 (SHA256.hexdigest (lit "hello")); []; []]
      /\ canonical_string
           (DocumentIDGenerator.generic_canonical pads_year
              DocumentType.OTHER (SHA256.hexdigest (lit "hello")) None None)
         = lit "2cf24dba5fb0a30e26e83b2ac5b9e29e1b161e5c1fa7425e73043362938b9824"
      /\ document_id doc
         = DocumentIDGenerator._generate_id (id_generator self')
             (DocumentIDGenerator.generic_canonical pads_year
                DocumentType.OTHER (SHA256.hexdigest (lit "hello"))
                None None).
Proof.
  intros pads_year.
  destruct (process_fresh (init (lit "DOC")) pads_year None
              (unknown_extraction (text_only (lit "hello")))
              (text_only (lit "hello")) _ _ (hello_generate_id pads_year))
    as (self' & doc & P & Hi & Hc & Hg).
  { apply lookup_empty. }
  exists self', doc. split; [exact P|]. rewrite Hi, Hc, Hg.
  repeat split; destruct pads_year; vm_compute; reflexivity.
Qed.

End PipelineCanonical.

(** ** C4: the pages of a PDF *)

Section Pages.
Import PyStr DocumentPipeline.

(** C4, at a two-page PDF with one tax number on each page: the texts
    are joined with a blank line, but the merged list of tax numbers
    follows the hash order of the running process, so one run keeps the
    first-occurrence order and another does not, and the two runs return
    different identifiers. *)
Theorem pages_merge_depends_on_hash_order :
  option_map full_text (combine_pages slot_run1 two_pages)
  = Some (lit "5213017228" ++ [10; 10] ++ lit "1234563218")
  /\ option_map detected_nips (combine_pages slot_run1 two_pages)
     = Some (union_first_occurrence []
               (List.concat (List.map detected_nips two_pages)))
  /\ option_map detected_nips (combine_pages slot_run2 two_pages)
     = Some [lit "1234563218"; lit "5213017228"]
  /\ union_first_occurrence []
       (List.concat (List.map detected_nips two_pages))
     = [lit "5213017228"; lit "1234563218"]
  /\ merged_id slot_run1 = Some (lit "DOC-DOC-E3C0070C9E3CE97F")
  /\ merged_id slot_run2 = Some (lit "DOC-DOC-B8758AD24C544CE8").
Proof. repeat split; vm_compute; reflexivity. Qed.

End Pages.

(** ** Decimal digits *)

Section DigitFacts.
Import PyStr PyDecimal.

Lemma digits_rev_fuel (f f' : nat) :
  forall n, n < 2 ^ N.of_nat f -> n < 2 ^ N.of_nat f' ->
            digits_rev (S f) n = digits_rev (S f') n.
Proof.
  revert f'. induction f as [|f IH]; intros f' n Hf Hf'.
  - assert (n = 0) as -> by (simpl in Hf; lia).
    reflexivity.
  - cbn [digits_rev]. destruct (N.ltb_spec n 10) as [Hn|Hn]; [reflexivity|].
    destruct f' as [|f'].
    { simpl in Hf'. lia. }
    f_equal. apply IH.
    + rewrite Nat2N.inj_succ, N.pow_succ_r' in Hf.
      apply N.Div0.div_lt_upper_bound. lia.
    + rewrite Nat2N.inj_succ, N.pow_succ_r' in Hf'.
      apply N.Div0.div_lt_upper_bound. lia.
Qed.

Lemma size_bound (n : N) : n < 2 ^ N.of_nat (N.to_nat (N.size n)).
Proof. rewrite N2Nat.id. apply N.size_gt. Qed.

(** The recursive equation of [str(n)]. *)
Lemma digits_of_N_eq (n : N) :
  digits_of_N n
  = if n <? 10 then [48 + n]
    else digits_of_N (n / 10) ++ [48 + n mod 10].
Proof.
  unfold digits_of_N at 1.
  change (digits_rev (S (N.to_nat (N.size n))) n)
    with ((48 + n mod 10)
          :: (if n <? 10 then []
              else digits_rev (N.to_nat (N.size n)) (n / 10))).
  destruct (N.ltb_spec n 10) as [Hn|Hn].
  - rewrite N.mod_small by assumption. reflexivity.
  - cbn [List.rev]. f_equal. unfold digits_of_N. f_equal.
    pose proof (size_bound n) as B.
    destruct (N.to_nat (N.size n)) as [|f] eqn:E.
    { simpl in B. lia. }
    apply digits_rev_fuel.
    + rewrite Nat2N.inj_succ, N.pow_succ_r' in B.
      apply N.Div0.div_lt_upper_bound. lia.
    + apply size_bound.
Qed.

Lemma digits_small (n : N) : n < 10 -> digits_of_N n = [48 + n].
Proof.
  intros H. rewrite digits_of_N_eq.
  destruct (N.ltb_spec n 10); [reflexivity | lia].
Qed.

Lemma digits_large (n : N) :
  10 <= n -> digits_of_N n = digits_of_N (n / 10) ++ [48 + n mod 10].
Proof.
  intros H. rewrite digits_of_N_eq.
  destruct (N.ltb_spec n 10); [lia | reflexivity].
Qed.

(** Induction along [n / 10]. *)
Lemma digits_ind (P : N -> Prop) :
  (forall n, n < 10 -> P n) ->
  (forall n, 10 <= n -> P (n / 10) -> P n) ->
  forall n, P n.
Proof.
  intros H0 H1 n.
  induction n as [n IH] using (well_founded_induction N.lt_wf_0).
  destruct (N.lt_ge_cases n 10) as [Hn|Hn]; [auto|].
  apply H1; [assumption|]. apply IH. apply N.div_lt; lia.
Qed.

Lemma digits_are_digits (n : N) :
  Forall (fun c => isdigit c = true) (digits_of_N n).
Proof.
  induction n as [n Hn|n Hn IH] using digits_ind.
  - rewrite digits_small by assumption. constructor; [|constructor].
    unfold isdigit. apply andb_true_iff. split; apply N.leb_le; lia.
  - rewrite digits_large by assumption. apply Forall_app. split; [exact IH|].
    constructor; [|constructor].
    pose proof (N.mod_lt n 10 ltac:(discriminate)). unfold isdigit.
    apply andb_true_iff. split; apply N.leb_le; lia.
Qed.

Lemma digits_nonempty (n : N) : digits_of_N n <> [].
Proof.
  rewrite digits_of_N_eq. destruct (n <? 10); [discriminate|].
  destruct (digits_of_N (n / 10)); discriminate.
Qed.

Lemma int_of_digits_snoc (l : str) (c : N) :
  int_of_digits (l ++ [c]) = 10 * int_of_digits l + (c - 48).
Proof. unfold int_of_digits. rewrite fold_left_app. reflexivity. Qed.

(** [int(str(n)) == n] *)
Lemma int_of_digits_of_N (n : N) : int_of_digits (digits_of_N n) = n.
Proof.
  induction n as [n Hn|n Hn IH] using digits_ind.
  - rewrite digits_small by assumption. unfold int_of_digits; simpl. lia.
  - rewrite digits_large by assumption. rewrite int_of_digits_snoc, IH.
    pose proof (N.div_mod n 10). lia.
Qed.

Lemma int_of_digits_zeros (k : nat) (l : str) :
  int_of_digits (List.repeat 48 k ++ l) = int_of_digits l.
Proof.
  unfold int_of_digits. rewrite fold_left_app.
  replace (List.fold_left (fun acc c => 10 * acc + (c - 48))
             (List.repeat 48 k) 0) with 0; [reflexivity|].
  induction k as [|k IH]; simpl; [reflexivity | exact IH].
Qed.

(** A number has at most [k] digits exactly when it is below [10^k]. *)
Lemma digits_length (n : N) :
  forall k : nat, (1 <= k)%nat ->
    ((List.length (digits_of_N n) <= k)%nat <-> n < 10 ^ N.of_nat k).
Proof.
  induction n as [n Hn|n Hn IH] using digits_ind; intros k Hk.
  - rewrite digits_small by assumption. simpl. split; [|lia].
    intros _. apply N.lt_le_trans with (10 ^ 1); [simpl; lia|].
    apply N.pow_le_mono_r; lia.
  - rewrite digits_large by assumption. rewrite length_app. simpl.
    destruct k as [|k]; [lia|].
    destruct k as [|k].
    + split.
      * pose proof (digits_nonempty (n / 10)).
        destruct (digits_of_N (n / 10)); simpl; [contradiction | lia].
      * simpl. lia.
    + specialize (IH (S k) ltac:(lia)).
      rewrite (Nat2N.inj_succ (S k)), N.pow_succ_r'.
      split; intros H.
      * assert (n / 10 < 10 ^ N.of_nat (S k)) as B by (apply IH; lia).
        pose proof (N.div_mod n 10). pose proof (N.mod_lt n 10 ltac:(discriminate)). lia.
      * assert (n / 10 < 10 ^ N.of_nat (S k)) as B.
        { apply N.Div0.div_lt_upper_bound. lia. }
        apply IH in B. lia.
Qed.

End DigitFacts.

(** ** Character classes *)

(** Boolean comparisons in hypotheses become propositions. *)
Ltac bool_hyps :=
  repeat match goal with
  | H : (_ && _) = true |- _ => apply andb_true_iff in H; destruct H
  | H : (_ || _) = false |- _ => apply orb_false_iff in H; destruct H
  | H : (_ || _) = true |- _ => apply orb_true_iff in H; destruct H
  | H : (_ && _) = false |- _ => apply andb_false_iff in H; destruct H
  | H : negb _ = true |- _ => apply negb_true_iff in H
  | H : negb _ = false |- _ => apply negb_false_iff in H
  | H : (_ <? _) = true |- _ => apply N.ltb_lt in H
  | H : (_ <? _) = false |- _ => apply N.ltb_ge in H
  | H : (_ <=? _) = true |- _ => apply N.leb_le in H
  | H : (_ <=? _) = false |- _ => apply N.leb_gt in H
  | H : (_ =? _) = true |- _ => apply N.eqb_eq in H
  | H : (_ =? _) = false |- _ => apply N.eqb_neq in H
  end.

(** A boolean combination of comparisons, decided by [lia]. *)
Ltac bool_goal :=
  lazymatch goal with
  | |- ?b = ?b => reflexivity
  | |- (_ <? _) = true => apply N.ltb_lt; lia
  | |- (_ <? _) = false => apply N.ltb_ge; lia
  | |- (_ <=? _) = true => apply N.leb_le; lia
  | |- (_ <=? _) = false => apply N.leb_gt; lia
  | |- (_ =? _) = true => apply N.eqb_eq; lia
  | |- (_ =? _) = false => apply N.eqb_neq; lia
  | |- (_ && _) = true => apply andb_true_iff; split; bool_goal
  | |- (_ || _) = false => apply orb_false_iff; split; bool_goal
  | |- (_ && _) = false =>
      apply andb_false_iff; solve [left; bool_goal | right; bool_goal]
  | |- (_ || _) = true =>
      apply orb_true_iff; solve [left; bool_goal | right; bool_goal]
  | |- negb _ = true => apply negb_true_iff; bool_goal
  | |- negb _ = false => apply negb_false_iff; bool_goal
  end.

Section CharFacts.
Import PyStr.

Lemma number_char_range (c : N) :
  number_char c = true ->
  c = 43 \/ c = 45 \/ c = 46 \/ c = 69 \/ (48 <= c /\ c <= 57).
Proof. unfold number_char, isdigit. intros H. bool_hyps; lia. Qed.

Lemma digit_number_char (c : N) : isdigit c = true -> number_char c = true.
Proof. unfold number_char. intros ->. reflexivity. Qed.

Lemma number_char_not_space (c : N) :
  number_char c = true -> isspace c = false.
Proof.
  intros H. apply number_char_range in H. unfold isspace.
  bool_goal.
Qed.

Lemma number_char_upper (c : N) :
  number_char c = true -> upper_cp c = [c].
Proof.
  intros H. apply number_char_range in H. unfold upper_cp.
  assert (in_az c = false) as -> by (unfold in_az; bool_goal).
  assert ((c <? 181) = true) as -> by bool_goal. reflexivity.
Qed.

Lemma remove_class_id (p : N -> bool) (s : str) :
  Forall (fun c => p c = false) s -> remove_class p s = s.
Proof.
  unfold remove_class. induction 1 as [|c s Hc _ IH]; simpl;
    [reflexivity|]. rewrite Hc, IH. reflexivity.
Qed.

Lemma lstrip_by_id (p : N -> bool) (s : str) :
  Forall (fun c => p c = false) s -> lstrip_by p s = s.
Proof. destruct 1 as [|c s Hc _]; simpl; [|rewrite Hc]; reflexivity. Qed.

Lemma strip_by_id (p : N -> bool) (s : str) :
  Forall (fun c => p c = false) s -> strip_by p s = s.
Proof.
  intros H. unfold strip_by. rewrite (lstrip_by_id p s H).
  rewrite lstrip_by_id; [apply rev_involutive|].
  apply Forall_rev, H.
Qed.

Lemma upper_id (s : str) :
  Forall (fun c => upper_cp c = [c]) s -> upper s = s.
Proof.
  unfold upper. induction 1 as [|c s Hc _ IH]; simpl; [reflexivity|].
  rewrite Hc, IH. reflexivity.
Qed.

Lemma replace_char_id (a b : N) (s : str) :
  ~ In a s -> replace_char a b s = s.
Proof.
  unfold replace_char. induction s as [|c s IH]; simpl; intros H;
    [reflexivity|].
  destruct (N.eqb_spec c a) as [->|_]; [tauto|].
  rewrite IH by tauto. reflexivity.
Qed.

Lemma rsplit1_none (sep : N) (s : str) :
  ~ In sep s -> rsplit1 sep s = None.
Proof.
  induction s as [|c s IH]; simpl; intros H; [reflexivity|].
  rewrite IH by tauto.
  destruct (N.eqb_spec c sep) as [->|_]; [tauto | reflexivity].
Qed.

Lemma rsplit1_last (sep : N) (a b : str) :
  ~ In sep b -> rsplit1 sep (a ++ sep :: b) = Some (a, b).
Proof.
  intros H. induction a as [|c a IH]; simpl.
  - rewrite rsplit1_none by assumption. rewrite N.eqb_refl. reflexivity.
  - rewrite IH. reflexivity.
Qed.

End CharFacts.

(** ** Printing and reading a [Decimal] *)

Section DecimalText.
Import PyStr PyDecimal.

Lemma span_digits_app (d rest : str) :
  all_digits d ->
  match rest with c :: _ => isdigit c = false | [] => True end ->
  span_digits (d ++ rest) = (d, rest).
Proof.
  intros Hd Hr. induction Hd as [|c d Hc _ IH]; simpl.
  - destruct rest as [|c r]; [reflexivity|]. simpl. rewrite Hr. reflexivity.
  - rewrite Hc, IH. reflexivity.
Qed.

Lemma span_digits_all (d : str) : all_digits d -> span_digits d = (d, []).
Proof.
  intros H. rewrite <- (app_nil_r d) at 1. apply span_digits_app; auto.
Qed.

Lemma parse_exponent_digits (x : Z) :
  parse_exponent ((if (x <? 0)%Z then 45 else 43) :: digits_of_N (Z.abs_N x))
  = Some x.
Proof.
  unfold parse_exponent.
  assert (split_sign ((if (x <? 0)%Z then 45 else 43)
                        :: digits_of_N (Z.abs_N x))
          = ((x <? 0)%Z, digits_of_N (Z.abs_N x))) as ->.
  { destruct (x <? 0)%Z; reflexivity. }
  rewrite span_digits_all by apply digits_are_digits.
  pose proof (digits_nonempty (Z.abs_N x)) as Hne.
  pose proof (int_of_digits_of_N (Z.abs_N x)) as Hv.
  destruct (digits_of_N (Z.abs_N x)) as [|c d]; [contradiction|].
  rewrite Hv. f_equal.
  destruct (Z.ltb_spec x 0); lia.
Qed.

Lemma frac_exp_head (fp : option str) (x : option Z) :
  match frac_text fp ++ exp_text x with
  | c :: _ => isdigit c = false
  | [] => True
  end.
Proof. destruct fp, x; simpl; auto. Qed.

Lemma parse_number_text (neg : bool) (ip : str) (fp : option str)
    (x : option Z) :
  ip <> [] -> all_digits ip -> all_digits (frac_digits fp) ->
  parse_number neg (ip ++ frac_text fp ++ exp_text x)
  = Some (Finite neg (int_of_digits (ip ++ frac_digits fp))
                 (exp_value x - Z.of_nat (List.length (frac_digits fp)))).
Proof.
  intros Hne Hip Hfp. unfold parse_number.
  rewrite (span_digits_app ip _ Hip (frac_exp_head fp x)). cbv beta iota.
  assert (forall r2 : str,
            (let '(fp0, r2') := (frac_digits fp, r2) in
             match ip ++ fp0 with
             | [] => None
             | n :: l =>
                 match r2' with
                 | [] => Some (Finite neg (int_of_digits (n :: l))
                                      (0 - Z.of_nat (List.length fp0)))
                 | c :: t =>
                     if (c =? 69) || (c =? 101) then
                       match parse_exponent t with
                       | Some e =>
                           Some (Finite neg (int_of_digits (n :: l))
                                        (e - Z.of_nat (List.length fp0)))
                       | None => None
                       end
                     else None
                 end
             end)
            = match r2 with
              | [] => Some (Finite neg (int_of_digits (ip ++ frac_digits fp))
                              (0 - Z.of_nat (List.length (frac_digits fp))))
              | c :: t =>
                  if (c =? 69) || (c =? 101) then
                    match parse_exponent t with
                    | Some e =>
                        Some (Finite neg
                                (int_of_digits (ip ++ frac_digits fp))
                                (e - Z.of_nat (List.length (frac_digits fp))))
                    | None => None
                    end
                  else None
              end) as K.
  { intros r2. cbv beta iota.
    destruct (ip ++ frac_digits fp) as [|c ds] eqn:E; [|reflexivity].
    destruct ip; [contradiction | discriminate]. }
  destruct fp as [d|]; cbn [frac_text frac_digits app] in *.
  - rewrite N.eqb_refl.
    rewrite (span_digits_app d (exp_text x) Hfp)
      by (destruct x; simpl; auto).
    rewrite K. destruct x as [x|]; simpl; [|reflexivity].
    rewrite parse_exponent_digits. reflexivity.
  - destruct x as [x|]; cbn [exp_text].
    + change (69 =? 46) with false. cbv iota. rewrite (K (69 :: _)).
      simpl. rewrite parse_exponent_digits. reflexivity.
    + rewrite (K []). reflexivity.
Qed.

Lemma number_text_chars (neg : bool) (ip : str) (fp : option str)
    (x : option Z) :
  all_digits ip -> all_digits (frac_digits fp) ->
  Forall (fun c => number_char c = true) (number_text neg ip fp x).
Proof.
  intros Hip Hfp. unfold number_text.
  assert (forall d, all_digits d -> Forall (fun c => number_char c = true) d)
    as D.
  { intros d Hd. eapply List.Forall_impl; [|exact Hd].
    apply digit_number_char. }
  repeat apply Forall_app_2.
  - destruct neg; repeat constructor.
  - auto.
  - destruct fp; simpl in *; [constructor|]; auto.
  - destruct x as [x|]; simpl; [|constructor].
    constructor; [reflexivity|]. constructor.
    + destruct (x <? 0)%Z; reflexivity.
    + apply D, digits_are_digits.
Qed.

(** [Decimal] reads a printed number as its digits and exponent. *)
Lemma of_str_number_text (neg : bool) (ip : str) (fp : option str)
    (x : option Z) :
  ip <> [] -> all_digits ip -> all_digits (frac_digits fp) ->
  of_str (number_text neg ip fp x)
  = Some (Finite neg (int_of_digits (ip ++ frac_digits fp))
                 (exp_value x - Z.of_nat (List.length (frac_digits fp)))).
Proof.
  intros Hne Hip Hfp. unfold of_str, strip.
  pose proof (number_text_chars neg ip fp x Hip Hfp) as C.
  rewrite strip_by_id.
  2:{ eapply List.Forall_impl; [|exact C]. apply number_char_not_space. }
  rewrite remove_class_id.
  2:{ eapply List.Forall_impl; [|exact C]. intros c Hc.
      apply number_char_range in Hc. bool_goal. }
  destruct ip as [|c ip]; [contradiction|].
  assert (isdigit c = true) as Hc by (inversion Hip; assumption).
  assert (split_sign (number_text neg (c :: ip) fp x)
          = (neg, (c :: ip) ++ frac_text fp ++ exp_text x)) as ->.
  { unfold number_text. destruct neg; simpl; [reflexivity|].
    unfold isdigit in Hc. bool_hyps.
    assert ((c =? 45) = false) as -> by bool_goal.
    assert ((c =? 43) = false) as -> by bool_goal. reflexivity. }
  change ((c :: ip) ++ frac_text fp ++ exp_text x)
    with (c :: (ip ++ frac_text fp ++ exp_text x)) at 1.
  cbv iota beta. rewrite Hc. cbn [orb].
  apply parse_number_text; assumption.
Qed.

(** How [str] lays a finite number out. *)
Lemma to_str_number_text (neg : bool) (c : N) (e : Z) :
  exists ip fp x,
    to_str (Finite neg c e) = number_text neg ip fp x
    /\ ip <> [] /\ all_digits ip /\ all_digits (frac_digits fp)
    /\ int_of_digits (ip ++ frac_digits fp) = c
    /\ (exp_value x - Z.of_nat (List.length (frac_digits fp)))%Z = e
    /\ (e = (-2)%Z -> x = None).
Proof.
  unfold to_str, number_text.
  pose proof (digits_are_digits c) as Hd. fold (all_digits (digits_of_N c)) in Hd.
  pose proof (digits_nonempty c) as Hne.
  pose proof (int_of_digits_of_N c) as Hv.
  remember (digits_of_N c) as ds eqn:Eds. clear Eds.
  assert (1 <= Z.of_nat (List.length ds))%Z as Hlen.
  { destruct ds; [contradiction | simpl; lia]. }
  remember (Z.of_nat (List.length ds)) as len eqn:Elen.
  destruct ((e <=? 0)%Z && (-6 <? e + len)%Z) eqn:A.
  - apply andb_true_iff in A. destruct A as [A1 A2].
    apply Z.leb_le in A1. apply Z.ltb_lt in A2.
    rewrite Z.eqb_refl.
    destruct (Z.leb_spec (e + len) 0) as [B|B].
    + exists [48], (Some (List.repeat 48 (Z.to_nat (- (e + len))) ++ ds)),
        None.
      cbn [frac_text frac_digits exp_text exp_value].
      split; [rewrite app_nil_r; reflexivity|].
      split; [discriminate|].
      split; [repeat constructor|].
      split.
      { apply Forall_app_2; [|exact Hd].
        apply Forall_forall. intros x Hx.
        apply list_elem_of_In, repeat_spec in Hx. subst x. reflexivity. }
      split.
      { change ([48] ++ List.repeat 48 (Z.to_nat (- (e + len))) ++ ds)
          with (List.repeat 48 (S (Z.to_nat (- (e + len)))) ++ ds).
        rewrite int_of_digits_zeros. exact Hv. }
      split; [|reflexivity].
      rewrite length_app, repeat_length. lia.
    + destruct (Z.leb_spec len (e + len)) as [D|D].
      * assert (e = 0%Z) as -> by lia.
        exists ds, None, None.
        cbn [frac_text frac_digits exp_text exp_value].
        replace (0 + len - len)%Z with 0%Z by lia.
        cbn [Z.to_nat List.repeat]. rewrite !app_nil_r.
        split; [reflexivity|]. split; [exact Hne|]. split; [exact Hd|].
        split; [constructor|]. split; [exact Hv|].
        split; reflexivity.
      * exists (List.firstn (Z.to_nat (e + len)) ds),
          (Some (List.skipn (Z.to_nat (e + len)) ds)), None.
        cbn [frac_text frac_digits exp_text exp_value].
        split; [rewrite app_nil_r; reflexivity|].
        split.
        { destruct ds; [contradiction|].
          destruct (Z.to_nat (e + len)) eqn:Z0; [lia | discriminate]. }
        split; [apply Forall_take, Hd|].
        split; [apply Forall_drop, Hd|].
        split; [rewrite take_drop; exact Hv|].
        split; [|reflexivity].
        rewrite length_drop. lia.
  - assert (e <> (-2)%Z) as Hne2.
    { intros ->. apply andb_false_iff in A.
      destruct A as [A|A]; [discriminate|]. apply Z.ltb_ge in A. lia. }
    change (1 <=? 0)%Z with false. cbv iota.
    set (x := if (e + len =? 1)%Z then None else Some (e + len - 1)%Z).
    assert ((if (e + len =? 1)%Z then []
             else 69 :: (if (e + len - 1 <? 0)%Z then 45 else 43)
                     :: digits_of_N (Z.abs_N (e + len - 1)))
            = exp_text x) as ->.
    { unfold x. destruct (e + len =? 1)%Z; reflexivity. }
    assert (exp_value x = (e + len - 1)%Z) as Hx.
    { unfold x. destruct (Z.eqb_spec (e + len) 1); simpl; lia. }
    destruct (Z.leb_spec len 1) as [D|D].
    + exists ds, None, x. assert (len = 1%Z) as E1 by lia.
      rewrite E1 in *. cbn [Z.sub Z.to_nat List.repeat Z.pos_sub].
      cbn [frac_text frac_digits]. rewrite !app_nil_r.
      split; [reflexivity|]. split; [exact Hne|]. split; [exact Hd|].
      split; [constructor|]. split; [exact Hv|].
      split; [simpl; lia | intros; contradiction].
    + exists (List.firstn 1 ds), (Some (List.skipn 1 ds)), x.
      cbn [frac_text frac_digits]. change (Z.to_nat 1) with 1%nat.
      split; [reflexivity|].
      split; [destruct ds; [contradiction | discriminate]|].
      split; [apply Forall_take, Hd|].
      split; [apply Forall_drop, Hd|].
      split; [rewrite take_drop; exact Hv|].
      split; [|intros; contradiction].
      rewrite length_drop. lia.
Qed.

(** [Decimal(str(d)) == d] for a finite [d]. *)
Lemma of_str_to_str (neg : bool) (c : N) (e : Z) :
  of_str (to_str (Finite neg c e)) = Some (Finite neg c e).
Proof.
  destruct (to_str_number_text neg c e)
    as (ip & fp & x & -> & Hne & Hip & Hfp & Hv & He & _).
  rewrite of_str_number_text by assumption. rewrite Hv, He. reflexivity.
Qed.

End DecimalText.

(** ** The amount normalizer on a printed number *)

Section AmountFacts.
Import PyStr PyDecimal AmountNormalizer.

Lemma normalize_str_finish (text : str) :
  normalize_str text = finish (of_str (cleaned text)).
Proof.
  unfold normalize_str, finish, cleaned.
  destruct (rsplit1 46 _) as [[a b]|]; reflexivity.
Qed.

Lemma number_char_not_currency (c : N) :
  number_char c = true -> is_currency c = false.
Proof.
  intros H. pose proof (number_char_not_space c H) as S.
  apply number_char_range in H. unfold is_currency. rewrite S.
  bool_goal.
Qed.

(** A printed number goes through the cleaning unchanged. *)
Lemma cleaned_number_text (neg : bool) (ip : str) (fp : option str)
    (x : option Z) :
  all_digits ip -> all_digits (frac_digits fp) ->
  cleaned (number_text neg ip fp x) = number_text neg ip fp x.
Proof.
  intros Hip Hfp. unfold cleaned.
  pose proof (number_text_chars neg ip fp x Hip Hfp) as C.
  rewrite upper_id
    by (eapply List.Forall_impl; [|exact C]; apply number_char_upper).
  rewrite remove_class_id
    by (eapply List.Forall_impl; [|exact C];
        apply number_char_not_currency).
  rewrite replace_char_id.
  2:{ intros H. rewrite List.Forall_forall in C. apply C in H.
      discriminate. }
  assert (forall d, all_digits d -> ~ In 46 d) as ND.
  { intros d Hd H. unfold all_digits in Hd.
    rewrite List.Forall_forall in Hd. apply Hd in H. discriminate. }
  assert (~ In 46 (exp_text x)) as NX.
  { destruct x as [x|]; simpl; [|tauto].
    intros [H|[H|H]]; [discriminate| |].
    - destruct (x <? 0)%Z; discriminate.
    - exact (ND _ (digits_are_digits _) H). }
  assert (remove_class is_dot_space (sign_text neg ++ ip)
          = sign_text neg ++ ip) as R.
  { apply remove_class_id. apply Forall_app_2.
    - destruct neg; repeat constructor.
    - eapply List.Forall_impl; [|exact Hip]. intros c Hc.
      unfold is_dot_space.
      rewrite (number_char_not_space c (digit_number_char c Hc)).
      unfold isdigit in Hc. bool_hyps. bool_goal. }
  unfold number_text in *. destruct fp as [d|]; cbn [frac_text] in *.
  - replace (sign_text neg ++ ip ++ (46 :: d) ++ exp_text x)
      with ((sign_text neg ++ ip) ++ 46 :: (d ++ exp_text x))
      by (rewrite <- !app_assoc; reflexivity).
    rewrite rsplit1_last.
    + rewrite R. reflexivity.
    + intros H. apply in_app_or in H. destruct H as [H|H]; [|tauto].
      exact (ND _ Hfp H).
  - cbn [app] in *. rewrite rsplit1_none.
    + rewrite app_assoc. rewrite remove_class_id; [reflexivity|].
      apply Forall_app_2.
      * apply Forall_app_2.
        -- destruct neg; repeat constructor.
        -- eapply List.Forall_impl; [|exact Hip]. intros c Hc.
           unfold is_dot_space.
           rewrite (number_char_not_space c (digit_number_char c Hc)).
           unfold isdigit in Hc. bool_hyps. bool_goal.
      * destruct x as [x|]; simpl; [|constructor].
        constructor; [reflexivity|]. constructor.
        -- destruct (x <? 0)%Z; reflexivity.
        -- eapply List.Forall_impl; [|apply digits_are_digits].
           intros c Hc. unfold is_dot_space.
           rewrite (number_char_not_space c (digit_number_char c Hc)).
           unfold isdigit in Hc. bool_hyps. bool_goal.
    + intros H. apply in_app_or in H. destruct H as [H|H].
      * destruct neg; simpl in H; [destruct H as [H|[]]; discriminate|tauto].
      * apply in_app_or in H. destruct H as [H|H]; [|tauto].
        exact (ND _ Hip H).
Qed.

(** The string branch on [str(d)] quantizes [d]. *)
Lemma normalize_str_to_str (neg : bool) (c : N) (e : Z) :
  normalize_str (to_str (Finite neg c e))
  = finish (Some (Finite neg c e)).
Proof.
  rewrite normalize_str_finish.
  destruct (to_str_number_text neg c e)
    as (ip & fp & x & E & Hne & Hip & Hfp & Hv & He & _).
  rewrite E, cleaned_number_text by assumption.
  rewrite of_str_number_text by assumption. rewrite Hv, He. reflexivity.
Qed.

(** A quantized number is finite with exponent -2 and quantizes to
    itself. *)
Lemma quantize_cents_fixed (neg : bool) (c : N) (e : Z) (q : decimal) :
  quantize_cents (Finite neg c e) = Some q ->
  exists c', q = Finite neg c' (-2) /\ quantize_cents q = Some q.
Proof.
  unfold quantize_cents.
  destruct (N.eqb_spec c 0) as [->|Hc].
  - intros [= <-]. exists 0. split; reflexivity.
  - destruct (Emax <? adjusted c e)%Z; [discriminate|].
    destruct (prec <? adjusted c e - -2 + 1)%Z; [discriminate|].
    destruct (Emax <? adjusted (rescale_half_up c e (-2)) (-2))%Z eqn:A;
      [discriminate|].
    destruct (prec <? ndigits (rescale_half_up c e (-2)))%Z eqn:B;
      [discriminate|].
    intros [= <-]. exists (rescale_half_up c e (-2)). split; [reflexivity|].
    remember (rescale_half_up c e (-2)) as c' eqn:E. clear E.
    destruct (c' =? 0) eqn:Z0.
    + apply N.eqb_eq in Z0. subst c'. reflexivity.
    + rewrite A.
      assert ((prec <? adjusted c' (-2) - -2 + 1)%Z = false) as ->.
      { apply Z.ltb_ge. apply Z.ltb_ge in B. unfold adjusted. lia. }
      assert (rescale_half_up c' (-2) (-2) = c') as ->.
      { unfold rescale_half_up. simpl. lia. }
      rewrite A, B. reflexivity.
Qed.

Lemma finish_fixed (neg : bool) (c : N) (e : Z) :
  normalize_str (finish (Some (Finite neg c e)))
  = finish (Some (Finite neg c e)).
Proof.
  unfold finish at 2. unfold finish at 1.
  destruct (quantize_cents (Finite neg c e)) as [q|] eqn:Q.
  - destruct (quantize_cents_fixed _ _ _ _ Q) as (c' & -> & Q').
    rewrite normalize_str_to_str. unfold finish. rewrite Q'. reflexivity.
  - vm_compute. reflexivity.
Qed.

End AmountFacts.

(** ** The string branch never reads a NaN or an infinity *)

Section NoSpecials.
Import PyStr PyDecimal AmountNormalizer.

Lemma in_remove_class (p : N -> bool) (c : N) (s : str) :
  In c (remove_class p s) -> In c s /\ p c = false.
Proof.
  unfold remove_class. rewrite filter_In, negb_true_iff. tauto.
Qed.

Lemma in_lstrip_by (p : N -> bool) (c : N) (s : str) :
  In c (lstrip_by p s) -> In c s.
Proof.
  induction s as [|x s IH]; simpl; [tauto|].
  destruct (p x); simpl; tauto.
Qed.

Lemma in_strip_by (p : N -> bool) (c : N) (s : str) :
  In c (strip_by p s) -> In c s.
Proof.
  unfold strip_by. intros H. apply in_rev, in_lstrip_by in H.
  apply in_rev in H. apply in_lstrip_by in H. exact H.
Qed.

Lemma in_split_sign (s body : str) (neg : bool) (c : N) :
  split_sign s = (neg, body) -> In c body -> In c s.
Proof.
  unfold split_sign. destruct s as [|x s]; [intros [= <- <-]; tauto|].
  destruct (x =? 45); [intros [= <- <-]; simpl; tauto|].
  destruct (x =? 43); intros [= <- <-]; simpl; tauto.
Qed.

Lemma strip_prefix_app (p u t : str) :
  strip_prefix p u = Some t -> u = p ++ t.
Proof.
  revert u. induction p as [|a p IH]; intros u; simpl.
  - intros [= ->]. reflexivity.
  - destruct u as [|b u]; [discriminate|].
    destruct (N.eqb_spec a b) as [->|_]; [|discriminate].
    intros H. rewrite (IH _ H). reflexivity.
Qed.

Lemma parse_special_has_N (neg : bool) (body : str) (d : decimal) :
  parse_special neg body = Some d -> In 78 (ascii_upper body).
Proof.
  unfold parse_special.
  destruct (eqb (ascii_upper body) (lit "INF")) eqn:E1.
  { apply eqb_eq in E1. rewrite E1. intros _. vm_compute. tauto. }
  destruct (eqb (ascii_upper body) (lit "INFINITY")) eqn:E2.
  { apply eqb_eq in E2. rewrite E2. intros _. vm_compute. tauto. }
  cbn [orb].
  destruct (strip_prefix (lit "NAN") (ascii_upper body)) as [t|] eqn:P1.
  { apply strip_prefix_app in P1. rewrite P1. intros _.
    apply in_or_app. left. vm_compute. tauto. }
  destruct (strip_prefix (lit "SNAN") (ascii_upper body)) as [t|] eqn:P2;
    [|discriminate].
  apply strip_prefix_app in P2. rewrite P2. intros _.
  apply in_or_app. left. vm_compute. tauto.
Qed.

Lemma in_ascii_upper_N (s : str) :
  In 78 (ascii_upper s) -> In 78 s \/ In 110 s.
Proof.
  unfold ascii_upper. rewrite in_map_iff. intros (c & E & H).
  destruct (in_az c) eqn:A.
  - right. replace 110 with c; [exact H|].
    unfold in_az in A. bool_hyps. lia.
  - left. subst c. exact H.
Qed.

Lemma parse_number_finite (neg : bool) (s : str) (d : decimal) :
  parse_number neg s = Some d -> exists c e, d = Finite neg c e.
Proof.
  unfold parse_number. destruct (span_digits s) as [ip r1].
  destruct (match r1 with
            | [] => ([], [])
            | c :: t => if c =? 46 then span_digits t else ([], r1)
            end) as [fp r2].
  destruct (ip ++ fp) as [|n l]; [discriminate|].
  destruct r2 as [|c t]; [intros [= <-]; eauto|].
  destruct ((c =? 69) || (c =? 101)); [|discriminate].
  destruct (parse_exponent t); [intros [= <-]; eauto | discriminate].
Qed.

(** A text without the letter N, in either case, is read as a finite
    number or rejected. *)
Lemma of_str_finite (s : str) (d : decimal) :
  ~ In 78 s -> ~ In 110 s -> of_str s = Some d ->
  exists neg c e, d = Finite neg c e.
Proof.
  intros H1 H2. unfold of_str.
  destruct (split_sign (remove_class (N.eqb 95) (strip s)))
    as [neg body] eqn:S.
  destruct body as [|c b]; [discriminate|].
  destruct (isdigit c || (c =? 46)).
  - intros P. apply parse_number_finite in P. destruct P as (n & e & ->).
    eauto.
  - intros P. apply parse_special_has_N, in_ascii_upper_N in P.
    assert (forall x, In x (c :: b) -> In x s) as Sub.
    { intros x Hx. apply (in_split_sign _ _ _ _ S) in Hx.
      apply in_remove_class in Hx. destruct Hx as [Hx _].
      apply in_strip_by in Hx. exact Hx. }
    destruct P as [P|P]; apply Sub in P; contradiction.
Qed.

Lemma upper_cp_no_n (c : N) : ~ In 110 (upper_cp c).
Proof.
  unfold upper_cp, in_az.
  repeat match goal with
         | |- context [if ?b then _ else _] => destruct b eqn:?
         end;
    bool_hyps; simpl; intros Hin;
    repeat (destruct Hin as [Hin|Hin]; [lia|]); try contradiction; lia.
Qed.

Lemma in_replace_char (a b c : N) (s : str) :
  In c (replace_char a b s) -> c = b \/ In c s.
Proof.
  unfold replace_char. rewrite in_map_iff. intros (x & E & H).
  destruct (x =? a); subst; auto.
Qed.

Lemma rsplit1_app (sep : N) (s a b : str) :
  rsplit1 sep s = Some (a, b) -> s = a ++ sep :: b.
Proof.
  revert a b. induction s as [|c s IH]; simpl; intros a b; [discriminate|].
  destruct (rsplit1 sep s) as [[a' b']|].
  - intros [= <- <-]. rewrite (IH a' b' eq_refl). reflexivity.
  - destruct (N.eqb_spec c sep) as [->|_]; [|discriminate].
    intros [= <- <-]. reflexivity.
Qed.

Lemma cleaned_no_N (text : str) (c : N) :
  In c (cleaned text) -> c <> 78 /\ c <> 110.
Proof.
  unfold cleaned.
  set (c3 := replace_char 44 46 (remove_class is_currency (upper text))).
  assert (forall x, In x c3 -> x <> 78 /\ x <> 110) as K.
  { intros x Hx. apply in_replace_char in Hx.
    destruct Hx as [->|Hx]; [split; discriminate|].
    apply in_remove_class in Hx. destruct Hx as [Hx Hc]. split.
    - intros ->. discriminate.
    - intros ->. unfold upper in Hx. apply in_flat_map in Hx.
      destruct Hx as (y & _ & Hy). exact (upper_cp_no_n y Hy). }
  destruct (rsplit1 46 c3) as [[a b]|] eqn:R.
  - apply rsplit1_app in R. intros H. apply in_app_or in H.
    destruct H as [H|[<-|H]].
    + apply in_remove_class in H. apply K. rewrite R.
      apply in_or_app. tauto.
    + split; discriminate.
    + apply K. rewrite R. apply in_or_app. simpl. tauto.
  - intros H. apply in_remove_class in H. apply K. tauto.
Qed.

Lemma of_str_cleaned_finite (text : str) (d : decimal) :
  of_str (cleaned text) = Some d -> exists neg c e, d = Finite neg c e.
Proof.
  apply of_str_finite; intros H; apply cleaned_no_N in H; tauto.
Qed.

(** The string branch returns a fixed point of itself. *)
Lemma normalize_str_idempotent (text : str) :
  normalize_str (normalize_str text) = normalize_str text.
Proof.
  rewrite (normalize_str_finish text).
  destruct (of_str (cleaned text)) as [d|] eqn:E.
  - destruct (of_str_cleaned_finite _ _ E) as (neg & c & e & ->).
    apply finish_fixed.
  - vm_compute. reflexivity.
Qed.

End NoSpecials.

(** ** C5: the rounding of a numeric amount *)

Section AmountRounding.
Import PyStr PyDecimal AmountNormalizer.

Lemma pow10_pos (k : N) : 0 < 10 ^ k.
Proof. apply N.neq_0_lt_0, N.pow_nonzero. discriminate. Qed.

(** Looking at the first dropped digit is rounding half up. *)
Lemma drop_half_up_floor (c k : N) :
  0 < k -> drop_half_up c k = (2 * c + 10 ^ k) / (2 * 10 ^ k).
Proof.
  intros Hk. unfold drop_half_up.
  assert (10 ^ k = 10 * 10 ^ (k - 1)) as T.
  { rewrite <- N.pow_succ_r'. f_equal. lia. }
  pose proof (pow10_pos (k - 1)) as Pp.
  remember (10 ^ (k - 1)) as P eqn:EP. rewrite T. clear T EP Hk k.
  pose proof (N.div_mod c (10 * P) ltac:(lia)) as Dm.
  pose proof (N.mod_lt c (10 * P) ltac:(lia)) as Rl.
  remember (c / (10 * P)) as q eqn:Eq. remember (c mod (10 * P)) as r eqn:Er.
  clear Eq Er.
  assert (c / P = 10 * q + r / P) as D1.
  { subst c. replace (10 * P * q + r) with (r + (10 * q) * P) by lia.
    rewrite N.div_add by lia. lia. }
  assert (r / P < 10) as D2 by (apply N.Div0.div_lt_upper_bound; lia).
  rewrite D1.
  replace ((10 * q + r / P) mod 10) with (r / P).
  2:{ symmetry. replace (10 * q + r / P) with (r / P + q * 10) by lia.
      rewrite N.Div0.mod_add. apply N.mod_small. exact D2. }
  pose proof (N.div_mod r P ltac:(lia)) as Dr.
  pose proof (N.mod_lt r P ltac:(lia)) as Rr.
  remember (r / P) as d eqn:Ed. remember (r mod P) as r' eqn:Er'.
  clear Ed Er'.
  destruct (N.leb_spec 5 d) as [H5|H5].
  - apply (N.div_unique _ _ _ (2 * r - 10 * P)); nia.
  - apply (N.div_unique _ _ _ (2 * r + 10 * P)); nia.
Qed.

Lemma rescale_is_half_up (c : N) (e : Z) :
  rescale_half_up c e (-2) = cents_half_up c e.
Proof.
  unfold rescale_half_up, cents_half_up.
  destruct (Z.leb_spec (-2) e) as [H|H].
  - replace (e - -2)%Z with (e + 2)%Z by lia. reflexivity.
  - apply drop_half_up_floor. lia.
Qed.

(** A number with [n] digits is at least [10^(n-1)]. *)
Lemma digits_lower_bound (c : N) :
  c <> 0 -> 10 ^ (Z.to_N (ndigits c) - 1) <= c.
Proof.
  intros Hc. unfold ndigits. rewrite <- nat_N_Z, N2Z.id.
  pose proof (digits_nonempty c) as Hne.
  destruct (List.length (digits_of_N c)) as [|[|n]] eqn:L.
  - destruct (digits_of_N c); [contradiction | discriminate].
  - change (N.of_nat 1 - 1) with 0. rewrite N.pow_0_r. lia.
  - apply N.le_ngt. intros B.
    replace (N.of_nat (S (S n)) - 1) with (N.of_nat (S n)) in B by lia.
    apply (digits_length c (S n)) in B; lia.
Qed.

(** When the rounded hundredths fit the precision, [quantize] returns
    them. *)
Lemma quantize_cents_half_up (neg : bool) (c : N) (e : Z) :
  cents_half_up c e < 10 ^ 28 ->
  quantize_cents (Finite neg c e)
  = Some (Finite neg (cents_half_up c e) (-2)).
Proof.
  intros B. unfold quantize_cents.
  destruct (N.eqb_spec c 0) as [->|Hc].
  - f_equal. f_equal. unfold cents_half_up.
    destruct (-2 <=? e)%Z; [reflexivity|].
    symmetry. apply N.div_small. pose proof (pow10_pos (Z.to_N (-2 - e))).
    lia.
  - rewrite rescale_is_half_up.
    assert (ndigits (cents_half_up c e) <= 28)%Z as D.
    { unfold ndigits.
      apply (digits_length (cents_half_up c e) 28) in B; lia. }
    assert (e + ndigits c <= 26)%Z as A.
    { apply Z.le_ngt. intros A.
      pose proof (digits_lower_bound c Hc) as L.
      assert (1 <= ndigits c)%Z as N1.
      { unfold ndigits. pose proof (digits_nonempty c).
        destruct (digits_of_N c); [contradiction | simpl; lia]. }
      revert B. apply N.le_ngt. unfold cents_half_up.
      destruct (Z.leb_spec (-2) e) as [H|H].
      - apply N.le_trans
          with (10 ^ (Z.to_N (ndigits c) - 1) * 10 ^ Z.to_N (e + 2)).
        + rewrite <- N.pow_add_r. apply N.pow_le_mono_r; lia.
        + apply N.mul_le_mono_r. exact L.
      - remember (Z.to_N (-2 - e)) as k eqn:Ek.
        pose proof (pow10_pos k) as Tp.
        apply N.div_le_lower_bound; [lia|].
        assert (10 ^ 28 * 10 ^ k <= c) as L2.
        { apply N.le_trans with (10 ^ (Z.to_N (ndigits c) - 1)); [|exact L].
          rewrite <- N.pow_add_r. apply N.pow_le_mono_r; lia. }
        nia. }
    unfold adjusted.
    assert ((Emax <? e + ndigits c - 1)%Z = false) as ->
        by (apply Z.ltb_ge; unfold Emax; lia).
    assert ((prec <? e + ndigits c - 1 - -2 + 1)%Z = false) as ->
        by (apply Z.ltb_ge; unfold prec; lia).
    assert ((Emax <? -2 + ndigits (cents_half_up c e) - 1)%Z = false) as ->
        by (apply Z.ltb_ge; unfold Emax; lia).
    assert ((prec <? ndigits (cents_half_up c e))%Z = false) as ->
        by (apply Z.ltb_ge; unfold prec; lia).
    reflexivity.
Qed.

(** The text of a number with exponent -2. *)
Lemma to_str_two_decimals (neg : bool) (c : N) :
  two_decimals neg (to_str (Finite neg c (-2))).
Proof.
  destruct (to_str_number_text neg c (-2))
    as (ip & fp & x & E & Hne & Hip & Hfp & _ & He & Hx).
  rewrite (Hx eq_refl) in *. cbn [exp_value exp_text] in *.
  destruct fp as [d|]; cbn [frac_digits] in *; [|simpl in He; lia].
  exists ip, d. unfold number_text in E. cbn [frac_text exp_text] in E.
  rewrite app_nil_r in E. repeat split; auto. lia.
Qed.

Lemma str_of_int_text (z : Z) :
  str_of_int z
  = number_text (z <? 0)%Z (digits_of_N (Z.abs_N z)) None None.
Proof.
  unfold str_of_int, number_text. cbn [frac_text exp_text].
  rewrite !app_nil_r. destruct (z <? 0)%Z; reflexivity.
Qed.

(** [Decimal(str(z))] for an [int]. *)
Lemma of_str_int (z : Z) :
  of_str (str_of_int z) = Some (Finite (z <? 0)%Z (Z.abs_N z) 0).
Proof.
  rewrite str_of_int_text.
  rewrite of_str_number_text;
    [| apply digits_nonempty | apply digits_are_digits | constructor].
  cbn [frac_digits exp_value]. rewrite app_nil_r, int_of_digits_of_N.
  reflexivity.
Qed.

(** Every numeric branch quantizes the value of its argument. *)
Lemma normalize_numeric (a : amount) (neg : bool) (c : N) (e : Z) :
  numeric_value a = Some (Finite neg c e) ->
  normalize a
  = match a with
    | ADecimal _ => Some (finish (Some (Finite neg c e)))
    | _ => option_map to_str (quantize_cents (Finite neg c e))
    end.
Proof.
  destruct a as [z|repr|d|s]; simpl; intros H.
  - injection H as <- <- <-. unfold normalize_number. rewrite of_str_int.
    reflexivity.
  - unfold normalize_number. rewrite H. reflexivity.
  - injection H as ->. rewrite normalize_str_to_str. reflexivity.
  - discriminate.
Qed.

End AmountRounding.

(** C5, as the code has it. For every [int], [float] or [Decimal] whose
    value is finite and whose hundredths, rounded, stay below [10^28] (the
    28 digits of the context), [AmountNormalizer.normalize] returns the
    value rounded to two decimals with ties away from zero
    ([ROUND_HALF_UP]), written as an optional minus sign, integer digits, a
    point and two digits. *)
Theorem amount_rounds_half_up :
  forall (a : AmountNormalizer.amount) (neg : bool) (c : N) (e : Z),
    numeric_value a = Some (PyDecimal.Finite neg c e) ->
    cents_half_up c e < 10 ^ 28 ->
    exists text,
      AmountNormalizer.normalize a = Some text
      /\ two_decimals neg text
      /\ PyDecimal.of_str text
         = Some (PyDecimal.Finite neg (cents_half_up c e) (-2)).
Proof.
  intros a neg c e Hv Hb.
  exists (PyDecimal.to_str (PyDecimal.Finite neg (cents_half_up c e) (-2))).
  split.
  - rewrite (normalize_numeric a neg c e Hv).
    unfold finish. rewrite (quantize_cents_half_up neg c e Hb).
    destruct a; reflexivity.
  - split; [apply to_str_two_decimals | apply of_str_to_str].
Qed.

Lemma amount_rounds_half_up_witness :
  exists text,
    AmountNormalizer.normalize (AmountNormalizer.AFloat (PyStr.lit "0.125"))
    = Some text
    /\ two_decimals false text
    /\ PyDecimal.of_str text = Some (PyDecimal.Finite false 13 (-2)).
Proof.
  apply (amount_rounds_half_up (AmountNormalizer.AFloat (PyStr.lit "0.125"))
           false 125 (-3)).
  - vm_compute. reflexivity.
  - vm_compute. reflexivity.
Defined.

(** C5 as stated fails at the float [0.125], a tie: banker's rounding
    gives [0.12], the code returns [0.13]. *)
Lemma amount_not_half_even :
  AmountNormalizer.normalize (AmountNormalizer.AFloat (PyStr.lit "0.125"))
  <> Some (PyDecimal.to_str
             (PyDecimal.Finite false (cents_half_even 125 (-3)) (-2))).
Proof. vm_compute. discriminate. Qed.

Example amount_tie_values :
  AmountNormalizer.normalize (AmountNormalizer.AFloat (PyStr.lit "0.125"))
  = Some (PyStr.lit "0.13")
  /\ PyDecimal.to_str (PyDecimal.Finite false (cents_half_even 125 (-3)) (-2))
     = PyStr.lit "0.12"
  /\ AmountNormalizer.normalize
       (AmountNormalizer.ADecimal (PyDecimal.Finite true 2345 (-3)))
     = Some (PyStr.lit "-2.35").
Proof. repeat split; vm_compute; reflexivity. Qed.

(** ** Upper-casing and stripping twice *)

Section Twice.
Import PyStr.

(** A check on every code point below a bound, run once. *)
Lemma below_forallb (P : N -> bool) (k : nat) :
  List.forallb P (List.map N.of_nat (List.seq 0 k)) = true ->
  forall c, c < N.of_nat k -> P c = true.
Proof.
  intros H c Hc. rewrite forallb_forall in H. apply H.
  apply in_map_iff. exists (N.to_nat c). split; [apply N2Nat.id|].
  apply in_seq. lia.
Qed.

(** Above the tabulated blocks [upper_cp] is the identity. *)
Lemma upper_cp_high (c : N) : 384 <= c -> upper_cp c = [c].
Proof.
  intros H. unfold upper_cp, in_az.
  repeat match goal with
         | |- context [if ?b then _ else _] =>
             let E := fresh "E" in
             assert (b = false) as E by bool_goal; rewrite E; clear E
         end.
  reflexivity.
Qed.

(** A code point that [upper] produced is left alone by [upper]. *)
Lemma upper_cp_fixed (c x : N) : In x (upper_cp c) -> upper_cp x = [x].
Proof.
  destruct (N.lt_ge_cases c 384) as [Hc|Hc].
  - pose proof (below_forallb
                  (fun c => List.forallb (fun x => eqb (upper_cp x) [x])
                                         (upper_cp c)) 384) as B.
    specialize (B ltac:(vm_compute; reflexivity) c Hc). cbv beta in B.
    rewrite forallb_forall in B. intros Hx. apply B in Hx.
    apply eqb_eq in Hx. exact Hx.
  - rewrite (upper_cp_high c Hc). intros [<-|[]]. apply upper_cp_high, Hc.
Qed.

Lemma upper_fixed (s : str) :
  Forall (fun x => upper_cp x = [x]) (upper s).
Proof.
  unfold upper. apply List.Forall_forall. intros x Hx.
  apply in_flat_map in Hx. destruct Hx as (c & _ & Hx).
  exact (upper_cp_fixed c x Hx).
Qed.

(** [s.upper().upper() == s.upper()] *)
Lemma upper_idempotent (s : str) : upper (upper s) = upper s.
Proof. apply upper_id, upper_fixed. Qed.

(** [lstrip] cuts a prefix made of the class. *)
Lemma lstrip_by_suffix (p : N -> bool) (s : str) :
  exists pre, s = pre ++ lstrip_by p s.
Proof.
  induction s as [|c s [pre IH]]; simpl; [exists []; reflexivity|].
  destruct (p c).
  - exists (c :: pre). simpl. rewrite <- IH. reflexivity.
  - exists []. reflexivity.
Qed.

Lemma lstrip_by_head (p : N -> bool) (s : str) :
  match lstrip_by p s with c :: _ => p c = false | [] => True end.
Proof.
  induction s as [|c s IH]; simpl; [exact I|].
  destruct (p c) eqn:E; [exact IH | exact E].
Qed.

Lemma lstrip_by_fixed (p : N -> bool) (s : str) :
  match s with c :: _ => p c = false | [] => True end -> lstrip_by p s = s.
Proof. destruct s as [|c s]; simpl; [reflexivity|]. intros ->. reflexivity. Qed.

(** The stripped string is a piece of the string. *)
Lemma strip_by_infix (p : N -> bool) (s : str) :
  exists a b, s = a ++ strip_by p s ++ b.
Proof.
  unfold strip_by. destruct (lstrip_by_suffix p s) as [a Ha].
  destruct (lstrip_by_suffix p (List.rev (lstrip_by p s))) as [b Hb].
  exists a, (List.rev b). rewrite <- rev_app_distr, <- Hb, rev_involutive.
  exact Ha.
Qed.

(** [s.strip().strip() == s.strip()] *)
Lemma strip_by_idempotent (p : N -> bool) (s : str) :
  strip_by p (strip_by p s) = strip_by p s.
Proof.
  unfold strip_by at 1.
  set (u := lstrip_by p s). set (v := lstrip_by p (List.rev u)).
  assert (strip_by p s = List.rev v) as -> by reflexivity.
  assert (lstrip_by p (List.rev v) = List.rev v) as ->.
  { apply lstrip_by_fixed.
    destruct (lstrip_by_suffix p (List.rev u)) as [pre Hpre]. fold v in Hpre.
    assert (u = List.rev v ++ List.rev pre) as Hu.
    { rewrite <- rev_app_distr, <- Hpre, rev_involutive. reflexivity. }
    pose proof (lstrip_by_head p s) as Hh. fold u in Hh. rewrite Hu in Hh.
    destruct (List.rev v); [exact I | exact Hh]. }
  rewrite rev_involutive. f_equal. apply lstrip_by_fixed.
  apply lstrip_by_head.
Qed.

End Twice.

(** ** C2: the invoice-number and tax-number normalizers, twice *)

Section NumberNormalizers.
Import PyStr.

Lemma no_double_suffix (r : N) (a s : str) :
  no_double r (a ++ s) = true -> no_double r s = true.
Proof.
  induction a as [|x a IH]; simpl; [auto|].
  intros H. apply andb_true_iff in H. apply IH, H.
Qed.

Lemma no_double_prefix (r : N) (s b : str) :
  no_double r (s ++ b) = true -> no_double r s = true.
Proof.
  induction s as [|x s IH]; simpl; [auto|].
  intros H. apply andb_true_iff in H. destruct H as [H1 H2].
  rewrite (IH H2), andb_true_r.
  destruct s as [|y s]; [reflexivity | exact H1].
Qed.

Lemma no_double_infix (r : N) (a s b : str) :
  no_double r (a ++ s ++ b) = true -> no_double r s = true.
Proof.
  intros H. apply no_double_suffix in H. apply no_double_prefix in H.
  exact H.
Qed.

(** A string without the class is left alone by [sub_runs]. *)
Lemma sub_runs_from_id (p : N -> bool) (r : N) (b : bool) (s : str) :
  Forall (fun c => p c = false) s -> sub_runs_from p r b s = s.
Proof.
  intros H. revert b. induction H as [|c s Hc _ IH]; intros b; simpl;
    [reflexivity|]. rewrite Hc, IH. reflexivity.
Qed.

(** What [sub_runs] returns holds the replacement and characters outside
    the class. *)
Lemma sub_runs_from_chars (p : N -> bool) (r : N) (b : bool) (s : str)
    (x : N) :
  In x (sub_runs_from p r b s) -> x = r \/ (In x s /\ p x = false).
Proof.
  revert b. induction s as [|c s IH]; intros b; simpl; [tauto|].
  destruct (p c) eqn:E.
  - destruct b; simpl; intros H.
    + apply IH in H. tauto.
    + destruct H as [<-|H]; [tauto|]. apply IH in H. tauto.
  - simpl. intros [<-|H]; [tauto|]. apply IH in H. tauto.
Qed.

(** Collapsing the runs of [r] leaves no two neighbours [r], and inside a
    run nothing starts with [r]. *)
Lemma collapse_no_double (r : N) (b : bool) (s : str) :
  no_double r (sub_runs_from (N.eqb r) r b s) = true
  /\ (b = true ->
      match sub_runs_from (N.eqb r) r b s with
      | c :: _ => (c =? r) = false
      | [] => True
      end).
Proof.
  revert b. induction s as [|c s IH]; intros b; simpl; [auto|].
  destruct (N.eqb_spec r c) as [<-|Hc].
  - destruct b.
    + apply IH.
    + destruct (IH true) as [H1 H2]. specialize (H2 eq_refl). split;
        [|discriminate].
      simpl. rewrite H1, andb_true_r.
      destruct (sub_runs_from (N.eqb r) r true s); [reflexivity|].
      rewrite H2, andb_false_r. reflexivity.
  - destruct (IH false) as [H1 _]. split.
    + simpl. rewrite H1, andb_true_r.
      assert ((c =? r) = false) as -> by (apply N.eqb_neq; congruence).
      destruct (sub_runs_from (N.eqb r) r false s); reflexivity.
    + intros _. apply N.eqb_neq. congruence.
Qed.

(** A string without doubled [r] is left alone by the collapse. *)
Lemma collapse_id (r : N) (s : str) :
  no_double r s = true ->
  forall b, match s with c :: _ => b = false \/ (c =? r) = false | [] => True end ->
            sub_runs_from (N.eqb r) r b s = s.
Proof.
  induction s as [|c s IH]; simpl; intros H b Hb; [reflexivity|].
  apply andb_true_iff in H. destruct H as [H1 H2].
  destruct (N.eqb_spec r c) as [<-|Hc].
  - rewrite N.eqb_refl in Hb. destruct Hb as [->|Hb]; [|discriminate].
    f_equal. apply IH; [exact H2|].
    destruct s as [|d s]; [exact I|]. right.
    rewrite N.eqb_refl in H1. simpl in H1. apply negb_true_iff in H1.
    exact H1.
  - f_equal. apply IH; [exact H2|]. destruct s; auto.
Qed.

Import InvoiceNumberNormalizer.

Lemma is_sep_slash : is_sep 47 = false.
Proof. reflexivity. Qed.

(** [InvoiceNumberNormalizer.normalize] returns a fixed point of itself. *)
Lemma invoice_number_idempotent (number : str) :
  normalize (normalize number) = normalize number.
Proof.
  destruct number as [|c0 n0]; [reflexivity|].
  unfold normalize at 2 3. cbv iota.
  set (u := strip (upper (c0 :: n0))).
  set (v := sub_runs is_sep 47 u).
  set (w := sub_runs (N.eqb 47) 47 v).
  set (r := strip_char 47 w).
  assert (forall x, In x u -> upper_cp x = [x]) as Uu.
  { intros x Hx. apply in_strip_by in Hx.
    pose proof (upper_fixed (c0 :: n0)) as F.
    rewrite List.Forall_forall in F. exact (F x Hx). }
  assert (forall x, In x v -> upper_cp x = [x] /\ is_sep x = false) as Vv.
  { intros x Hx. apply sub_runs_from_chars in Hx.
    destruct Hx as [->|[Hx Hs]]; [split; reflexivity | auto]. }
  assert (forall x, In x w -> upper_cp x = [x] /\ is_sep x = false) as Ww.
  { intros x Hx. apply sub_runs_from_chars in Hx.
    destruct Hx as [->|[Hx _]]; [split; reflexivity | auto]. }
  assert (forall x, In x r -> upper_cp x = [x] /\ is_sep x = false) as Rr.
  { intros x Hx. apply in_strip_by in Hx. auto. }
  assert (no_double 47 r = true) as Nd.
  { destruct (strip_by_infix (N.eqb 47) w) as (a & b & E).
    apply (no_double_infix 47 a r b). fold (strip_char 47 w) in E. fold r in E.
    rewrite <- E. apply (collapse_no_double 47 false v). }
  unfold normalize. destruct r as [|c1 r1] eqn:Er; [reflexivity|].
  rewrite <- Er in *.
  assert (upper r = r) as ->.
  { apply upper_id, List.Forall_forall. intros x Hx. apply Rr, Hx. }
  assert (strip r = r) as ->.
  { apply strip_by_id, List.Forall_forall. intros x Hx.
    destruct (Rr x Hx) as [_ Hs]. unfold is_sep in Hs.
    apply orb_false_iff in Hs. destruct Hs as [Hs _].
    apply orb_false_iff in Hs. tauto. }
  assert (sub_runs is_sep 47 r = r) as ->.
  { apply sub_runs_from_id, List.Forall_forall. intros x Hx. apply Rr, Hx. }
  assert (sub_runs (N.eqb 47) 47 r = r) as ->.
  { apply collapse_id; [exact Nd|]. destruct r; auto. }
  unfold r. apply strip_by_idempotent.
Qed.

Import NIPValidator.

Lemma strip_country_fixed (s : str) :
  starts_with_country s = false -> strip_country s = s.
Proof.
  destruct s as [|a [|b s]]; simpl; try reflexivity. intros ->. reflexivity.
Qed.

Lemma strip_country_shorter (s : str) :
  starts_with_country s = true ->
  S (S (List.length (strip_country s))) = List.length s.
Proof.
  destruct s as [|a [|b s]]; simpl; try discriminate. intros ->. reflexivity.
Qed.

Lemma strip_country_chars (s : str) (x : N) :
  In x (strip_country s) -> In x s.
Proof.
  destruct s as [|a [|b s]]; simpl; auto.
  destruct (is_AZ a && is_AZ b); simpl; tauto.
Qed.

Lemma remove_class_length (p : N -> bool) (s : str) :
  (List.length (remove_class p s) <= List.length s)%nat.
Proof. apply filter_length_le. Qed.

(** The result of [NIPValidator.normalize] is upper-cased and free of
    separators. *)
Lemma nip_normalize_clean (nip : str) (x : N) :
  In x (NIPValidator.normalize nip) ->
  upper_cp x = [x] /\ NIPValidator.is_sep x = false.
Proof.
  destruct nip as [|c n]; [intros []|]. unfold NIPValidator.normalize.
  intros H. apply in_remove_class in H. destruct H as [H Hs].
  split; [|exact Hs]. apply strip_country_chars in H.
  pose proof (upper_fixed (c :: n)) as F. rewrite List.Forall_forall in F.
  exact (F x H).
Qed.

(** [NIPValidator.normalize] is idempotent exactly on the inputs whose
    result does not start with two letters. *)
Lemma nip_idempotent_iff (nip : str) :
  NIPValidator.normalize (NIPValidator.normalize nip)
  = NIPValidator.normalize nip
  <-> starts_with_country (NIPValidator.normalize nip) = false.
Proof.
  pose proof (nip_normalize_clean nip) as C.
  remember (NIPValidator.normalize nip) as r eqn:Er. clear Er.
  assert (upper r = r) as U.
  { apply upper_id, List.Forall_forall. intros x Hx. apply C, Hx. }
  assert (forall t, (forall x, In x t -> In x r) -> remove_class NIPValidator.is_sep t = t)
    as R.
  { intros t Ht. apply remove_class_id, List.Forall_forall.
    intros x Hx. apply C, Ht, Hx. }
  destruct r as [|c r'] eqn:E; [simpl; tauto|]. rewrite <- E in *.
  assert (NIPValidator.normalize r = strip_country r) as ->.
  { rewrite E at 1. unfold NIPValidator.normalize. rewrite <- E, U.
    apply R. apply strip_country_chars. }
  split.
  - intros H. destruct (starts_with_country r) eqn:S; [|reflexivity].
    apply strip_country_shorter in S. rewrite H in S. lia.
  - apply strip_country_fixed.
Qed.

End NumberNormalizers.

(** ** C2: the date normalizer, twice *)

Section DateFacts.
Import PyStr PyDecimal DateNormalizer.

Lemma normalize_str_core (pads_year : bool) (s : str) :
  normalize_str pads_year s = core pads_year (strip s).
Proof. reflexivity. Qed.

Lemma strftime_date_text (pads_year : bool) (y m d : N) :
  strftime pads_year y m d
  = date_text (year_text pads_year y) (pad_to 2 (digits_of_N m))
      (pad_to 2 (digits_of_N d)).
Proof. reflexivity. Qed.

Lemma isdigit_in (c : N) : isdigit c = true -> In c digit_chars.
Proof.
  unfold isdigit. intros H. bool_hyps. unfold digit_chars.
  apply in_map_iff. exists (N.to_nat c). split; [apply N2Nat.id|].
  apply in_seq. lia.
Qed.

Lemma digit_not_space (c : N) : isdigit c = true -> isspace c = false.
Proof. intros H. apply number_char_not_space, digit_number_char, H. Qed.

(** Two digits print back as themselves. *)
Lemma pad2_of_two_digits (a b : N) :
  isdigit a = true -> isdigit b = true ->
  pad_to 2 (digits_of_N (int_of_digits [a; b])) = [a; b].
Proof.
  intros Ha Hb. apply isdigit_in in Ha, Hb.
  assert (List.forallb
            (fun a => List.forallb
               (fun b => eqb (pad_to 2 (digits_of_N (int_of_digits [a; b])))
                             [a; b]) digit_chars) digit_chars = true) as K
      by (vm_compute; reflexivity).
  rewrite forallb_forall in K. specialize (K a Ha).
  rewrite forallb_forall in K. apply eqb_eq, K, Hb.
Qed.

(** Four digits print back as themselves when the year is padded, or when
    the first digit is not zero. *)
Lemma year_text_of_four_digits (pads_year : bool) (a b c d : N) :
  isdigit a = true -> isdigit b = true -> isdigit c = true ->
  isdigit d = true -> pads_year = true \/ a <> 48 ->
  year_text pads_year (int_of_digits [a; b; c; d]) = [a; b; c; d].
Proof.
  intros Ha Hb Hc Hd Hp. apply isdigit_in in Ha, Hb, Hc, Hd.
  assert (List.forallb
            (fun a => List.forallb
               (fun b => List.forallb
                  (fun c => List.forallb
                     (fun d =>
                        eqb (year_text true (int_of_digits [a; b; c; d]))
                            [a; b; c; d]
                        && ((a =? 48)
                            || eqb (year_text false
                                      (int_of_digits [a; b; c; d]))
                                   [a; b; c; d]))
                     digit_chars) digit_chars) digit_chars) digit_chars
          = true) as K by (vm_compute; reflexivity).
  rewrite forallb_forall in K. specialize (K a Ha).
  rewrite forallb_forall in K. specialize (K b Hb).
  rewrite forallb_forall in K. specialize (K c Hc).
  rewrite forallb_forall in K. specialize (K d Hd).
  apply andb_true_iff in K. destruct K as [K1 K2].
  destruct pads_year; [apply eqb_eq, K1|].
  destruct Hp as [Hp|Hp]; [discriminate|].
  apply orb_true_iff in K2. destruct K2 as [K2|K2].
  - apply N.eqb_eq in K2. contradiction.
  - apply eqb_eq, K2.
Qed.

(** *** How a format matches, directive by directive *)

Lemma first_match_some {A B : Type} (f : A -> option B) (l : list A) (y : B) :
  first_match f l = Some y -> exists x, In x l /\ f x = Some y.
Proof.
  induction l as [|x l IH]; simpl; [discriminate|].
  destruct (f x) as [z|] eqn:E.
  - intros [= <-]. exists x. auto.
  - intros H. destruct (IH H) as (x' & Hx & Hf). exists x'. auto.
Qed.

Lemma two_chars_in (p1 p2 : N -> bool) (s : str) (v : N) (t : str) :
  In (v, t) (two_chars p1 p2 s) ->
  exists a b, s = a :: b :: t /\ p1 a = true /\ p2 b = true
              /\ v = int_of_digits (lstrip_by isspace [a; b]).
Proof.
  unfold two_chars. destruct s as [|a [|b s]]; try (intros []).
  destruct (p1 a) eqn:E1; [|intros []].
  destruct (p2 b) eqn:E2; [|intros []].
  simpl. intros [[= <- <-]|[]]. exists a, b. auto.
Qed.

Lemma one_char_in (p : N -> bool) (s : str) (v : N) (t : str) :
  In (v, t) (one_char p s) ->
  exists a, s = a :: t /\ p a = true /\ v = int_of_digits [a].
Proof.
  unfold one_char. destruct s as [|a s]; [intros []|].
  destruct (p a) eqn:E; [|intros []].
  simpl. intros [[= <- <-]|[]]. exists a. auto.
Qed.

(** An alternative of [%m] takes one digit, or two. *)
Lemma month_alts_in (s : str) (v : N) (t : str) :
  In (v, t) (month_alts s) ->
  (exists a, s = a :: t /\ isdigit a = true)
  \/ (exists a b, s = a :: b :: t /\ isdigit a = true /\ isdigit b = true
                  /\ v = int_of_digits [a; b]).
Proof.
  unfold month_alts. rewrite !in_app_iff.
  intros [H|[H|H]].
  - apply two_chars_in in H. destruct H as (a & b & -> & Ha & Hb & ->).
    right. exists a, b. unfold in_range, isdigit in *. bool_hyps.
    subst a. repeat split; bool_goal.
  - apply two_chars_in in H. destruct H as (a & b & -> & Ha & Hb & ->).
    right. exists a, b. unfold in_range, isdigit in *. bool_hyps.
    subst a. repeat split; bool_goal.
  - apply one_char_in in H. destruct H as (a & -> & Ha & _).
    left. exists a. unfold in_range, isdigit in *. bool_hyps.
    split; [reflexivity | bool_goal].
Qed.

(** An alternative of [%d] takes one digit, or two digits, or a blank and
    a digit. *)
Lemma day_alts_in (s : str) (v : N) (t : str) :
  In (v, t) (day_alts s) ->
  (exists a, s = a :: t /\ isdigit a = true)
  \/ (exists a b, s = a :: b :: t /\ isdigit a = true /\ isdigit b = true
                  /\ v = int_of_digits [a; b])
  \/ (exists b, s = 32 :: b :: t).
Proof.
  unfold day_alts. rewrite !in_app_iff.
  intros [H|[H|[H|[H|H]]]].
  - apply two_chars_in in H. destruct H as (a & b & -> & Ha & Hb & ->).
    right. left. exists a, b. unfold in_range, isdigit in *. bool_hyps.
    subst a. repeat split; bool_goal.
  - apply two_chars_in in H. destruct H as (a & b & -> & Ha & Hb & ->).
    right. left. exists a, b. unfold in_range in *.
    assert (isdigit a = true) as Da by (unfold isdigit; bool_hyps; bool_goal).
    repeat split; auto. simpl. rewrite (digit_not_space a Da). reflexivity.
  - apply two_chars_in in H. destruct H as (a & b & -> & Ha & Hb & ->).
    right. left. exists a, b. unfold in_range, isdigit in *. bool_hyps.
    subst a. repeat split; bool_goal.
  - apply one_char_in in H. destruct H as (a & -> & Ha & _).
    left. exists a. unfold in_range, isdigit in *. bool_hyps.
    split; [reflexivity | bool_goal].
  - apply two_chars_in in H. destruct H as (a & b & -> & Ha & _ & _).
    right. right. exists b. apply N.eqb_eq in Ha. subst a. reflexivity.
Qed.

Lemma space_alts_in (s t : str) :
  In t (space_alts s) -> exists c s', s = c :: s' /\ isspace c = true.
Proof.
  destruct s as [|c s]; simpl; [intros []|].
  destruct (isspace c) eqn:E; [|intros []]. eauto.
Qed.

Lemma match_lit (c : N) (f : list directive) (ymd : N * N * N) (s : str)
    (r : N * N * N * str) :
  match_format (DirLit c :: f) ymd s = Some r ->
  exists t, s = c :: t /\ match_format f ymd t = Some r.
Proof.
  simpl. destruct s as [|x t]; [discriminate|].
  destruct (N.eqb_spec x c) as [->|_]; [|discriminate]. eauto.
Qed.

Lemma match_year (f : list directive) (ymd : N * N * N) (s : str)
    (r : N * N * N * str) :
  match_format (DirY :: f) ymd s = Some r ->
  exists a b c d t,
    s = a :: b :: c :: d :: t
    /\ isdigit a = true /\ isdigit b = true /\ isdigit c = true
    /\ isdigit d = true
    /\ match_format f (int_of_digits [a; b; c; d], snd (fst ymd), snd ymd) t
       = Some r.
Proof.
  simpl. destruct s as [|a [|b [|c [|d t]]]]; try discriminate.
  destruct (isdigit a) eqn:Ea; [|discriminate].
  destruct (isdigit b) eqn:Eb; [|discriminate].
  destruct (isdigit c) eqn:Ec; [|discriminate].
  destruct (isdigit d) eqn:Ed; [|discriminate].
  simpl. intros H. exists a, b, c, d, t. auto 10.
Qed.

Lemma match_month (f : list directive) (ymd : N * N * N) (s : str)
    (r : N * N * N * str) :
  match_format (DirM :: f) ymd s = Some r ->
  exists v t, In (v, t) (month_alts s)
              /\ match_format f (fst (fst ymd), v, snd ymd) t = Some r.
Proof.
  simpl. intros H. apply first_match_some in H.
  destruct H as ([v t] & Hin & H). exists v, t. auto.
Qed.

Lemma match_day (f : list directive) (ymd : N * N * N) (s : str)
    (r : N * N * N * str) :
  match_format (DirD :: f) ymd s = Some r ->
  exists v t, In (v, t) (day_alts s)
              /\ match_format f (fst ymd, v) t = Some r.
Proof.
  simpl. intros H. apply first_match_some in H.
  destruct H as ([v t] & Hin & H). exists v, t. auto.
Qed.

Lemma match_space (f : list directive) (ymd : N * N * N) (s : str)
    (r : N * N * N * str) :
  match_format (DirSpace :: f) ymd s = Some r ->
  exists c s', s = c :: s' /\ isspace c = true.
Proof.
  simpl. intros H. apply first_match_some in H.
  destruct H as (t & Hin & _). exact (space_alts_in s t Hin).
Qed.

(** *** Which formats read a text of dashed digit runs *)

Ltac absurd_char :=
  match goal with
  | H : isdigit ?c = true |- _ => solve [vm_compute in H; discriminate H]
  | H : isspace ?c = true, D : isdigit ?c = true |- _ =>
      rewrite (digit_not_space c D) in H; discriminate H
  end.

Ltac list_eqs :=
  repeat match goal with
         | E : [] = _ :: _ |- _ => discriminate E
         | E : _ :: _ = [] |- _ => discriminate E
         | E : ?x = _ |- _ => is_var x; subst x
         | E : _ = ?x |- _ => is_var x; subst x
         | E : _ :: _ = _ :: _ |- _ => injection E; clear E; intros
         end.

(** One directive of a successful match, inverted. *)
Ltac match_step :=
  match goal with
  | H : match_format (DirLit _ :: _) _ _ = Some _ |- _ =>
      apply match_lit in H; destruct H as (? & ? & H)
  | H : match_format (DirY :: _) _ _ = Some _ |- _ =>
      apply match_year in H;
      destruct H as (? & ? & ? & ? & ? & ? & ? & ? & ? & ? & H)
  | H : match_format (DirM :: _) _ _ = Some _ |- _ =>
      let Hin := fresh "Hin" in
      apply match_month in H; destruct H as (? & ? & Hin & H);
      apply month_alts_in in Hin;
      destruct Hin as [(? & ? & ?)|(? & ? & ? & ? & ? & ?)]
  | H : match_format (DirD :: _) _ _ = Some _ |- _ =>
      let Hin := fresh "Hin" in
      apply match_day in H; destruct H as (? & ? & Hin & H);
      apply day_alts_in in Hin;
      destruct Hin as [(? & ? & ?)|[(? & ? & ? & ? & ? & ?)|(? & ?)]]
  | H : match_format (DirSpace :: _) _ _ = Some _ |- _ =>
      apply match_space in H; destruct H as (? & ? & ? & ?)
  end; list_eqs; try absurd_char; try discriminate.

Ltac no_match :=
  match goal with
  | |- match_format ?f ?i ?o = None =>
      let M := fresh "M" in
      destruct (match_format f i o) as [?|] eqn:M;
      [exfalso; repeat match_step | reflexivity]
  end.

Lemma strptime_no_match (s : str) (fmt : list directive) :
  match_format fmt (1900, 1, 1) s = None -> strptime s fmt = None.
Proof. unfold strptime. intros ->. reflexivity. Qed.

(** After four digits and a dash only [%Y-%m-%d] can match. *)
Lemma four_digits_other_formats (a b c d : N) (rest : str) :
  isdigit a = true -> isdigit b = true -> isdigit c = true ->
  isdigit d = true ->
  first_match (strptime (a :: b :: c :: d :: 45 :: rest)) (List.tl FORMATS)
  = None.
Proof.
  intros Ha Hb Hc Hd. unfold FORMATS. cbn [List.tl first_match].
  repeat (rewrite strptime_no_match; [|no_match]). reflexivity.
Qed.

(** After one, two or three digits and a dash, with two runs of two digits,
    no format matches. *)
Lemma short_year_no_format (r0 : str) (e f g h : N) :
  all_digits r0 -> (1 <= List.length r0 <= 3)%nat ->
  isdigit e = true -> isdigit f = true -> isdigit g = true ->
  isdigit h = true ->
  first_match (strptime (date_text r0 [e; f] [g; h])) FORMATS = None.
Proof.
  intros H0 L He Hf Hg Hh. unfold date_text. unfold all_digits in H0.
  destruct r0 as [|a [|b [|c [|d r0]]]]; simpl in L; try lia;
    repeat match goal with
           | H : Forall _ (_ :: _) |- _ => inversion H; subst; clear H
           end;
    unfold FORMATS; cbn [first_match app];
    repeat (rewrite strptime_no_match; [|no_match]); reflexivity.
Qed.

Ltac forall_cons :=
  repeat match goal with
         | H : all_digits (_ :: _) |- _ => unfold all_digits in H
         | H : Forall _ (_ :: _) |- _ => inversion H; subst; clear H
         end.

(** [%Y-%m-%d] reads four digits, two digits and two digits. *)
Lemma iso_format_reads (a b c d : N) (r1 r2 : str) (y m dd : N) :
  isdigit a = true -> isdigit b = true -> isdigit c = true ->
  isdigit d = true -> all_digits r1 -> all_digits r2 ->
  (2 <= List.length r1)%nat -> (2 <= List.length r2)%nat ->
  strptime (a :: b :: c :: d :: 45 :: r1 ++ 45 :: r2)
    [DirY; DirLit 45; DirM; DirLit 45; DirD] = Some (y, m, dd) ->
  exists e f g h,
    r1 = [e; f] /\ r2 = [g; h]
    /\ isdigit e = true /\ isdigit f = true /\ isdigit g = true
    /\ isdigit h = true
    /\ y = int_of_digits [a; b; c; d] /\ m = int_of_digits [e; f]
    /\ dd = int_of_digits [g; h].
Proof.
  intros Ha Hb Hc Hd H1 H2 L1 L2. unfold strptime.
  destruct (match_format _ _ _) as [[[[y' m'] d'] rest]|] eqn:M;
    [|discriminate].
  destruct rest as [|? ?]; [|discriminate].
  destruct (valid_date y' m' d'); [|discriminate]. intros [= <- <- <-].
  destruct r1 as [|e [|f r1]]; simpl in L1; try lia.
  destruct r2 as [|g [|h r2]]; simpl in L2; try lia.
  forall_cons. exists e, f, g, h.
  destruct r1 as [|x r1]; cbn [app] in M.
  - do 4 match_step; match_step; simpl in M; list_eqs;
      injection M as <- <- <- E; list_eqs; subst; auto 10.
  - forall_cons. exfalso. repeat match_step.
Qed.

(** *** The digit runs of a text *)

Lemma digit_runs_from_digits (cur d rest : str) :
  all_digits d ->
  digit_runs_from cur (d ++ rest) = digit_runs_from (List.rev d ++ cur) rest.
Proof.
  intros H. revert cur. induction H as [|c d Hc _ IH]; intros cur; simpl;
    [reflexivity|]. rewrite Hc, IH, <- app_assoc. reflexivity.
Qed.

Lemma digit_runs_date_text (r0 r1 r2 : str) :
  all_digits r0 -> all_digits r1 -> all_digits r2 ->
  r0 <> [] -> r1 <> [] -> r2 <> [] ->
  digit_runs (date_text r0 r1 r2) = [r0; r1; r2].
Proof.
  intros H0 H1 H2 N0 N1 N2. unfold digit_runs, date_text.
  assert (forall r : str, r <> [] -> List.rev r <> []) as Nr.
  { intros r Hr E. apply Hr. rewrite <- (rev_involutive r), E. reflexivity. }
  rewrite (digit_runs_from_digits [] r0), app_nil_r by assumption.
  cbn [digit_runs_from isdigit N.leb N.compare Pos.compare Pos.compare_cont
         andb].
  change (isdigit 45) with false. cbv iota.
  destruct (List.rev r0) as [|x0 l0] eqn:E0; [exfalso; exact (Nr r0 N0 E0)|].
  rewrite <- E0, rev_involutive. f_equal.
  rewrite (digit_runs_from_digits [] r1), app_nil_r by assumption.
  cbn [digit_runs_from]. change (isdigit 45) with false. cbv iota.
  destruct (List.rev r1) as [|x1 l1] eqn:E1; [exfalso; exact (Nr r1 N1 E1)|].
  rewrite <- E1, rev_involutive. f_equal.
  rewrite <- (app_nil_r r2) at 1.
  rewrite (digit_runs_from_digits [] r2), app_nil_r by assumption.
  cbn [digit_runs_from].
  destruct (List.rev r2) as [|x2 l2] eqn:E2; [exfalso; exact (Nr r2 N2 E2)|].
  rewrite <- E2, rev_involutive. reflexivity.
Qed.

(** Every run that [findall] returns is a non-empty run of digits. *)
Lemma digit_runs_from_runs (s cur : str) :
  all_digits cur ->
  Forall (fun r => r <> [] /\ all_digits r) (digit_runs_from cur s).
Proof.
  revert cur. induction s as [|c s IH]; intros cur Hc; simpl.
  - destruct cur as [|x cur]; [constructor|].
    constructor; [|constructor]. split.
    + intros E. apply (f_equal (@List.length N)) in E.
      rewrite length_rev in E. discriminate.
    + apply Forall_rev, Hc.
  - destruct (isdigit c) eqn:D.
    + apply IH. constructor; assumption.
    + destruct cur as [|x cur]; [apply IH; constructor|].
      constructor; [|apply IH; constructor]. split.
      * intros E. apply (f_equal (@List.length N)) in E.
        rewrite length_rev in E. discriminate.
      * apply Forall_rev, Hc.
Qed.

(** *** Texts the normalizer leaves alone *)

Lemma zfill2_long (r : str) : (2 <= List.length r)%nat -> zfill2 r = r.
Proof. destruct r as [|a [|b r]]; simpl; try lia. reflexivity. Qed.

Lemma zfill2_digits (r : str) :
  all_digits r -> all_digits (zfill2 r) /\ (2 <= List.length (zfill2 r))%nat.
Proof.
  unfold all_digits. intros H.
  destruct r as [|a [|b r]]; simpl; (split; [|lia]).
  - repeat apply List.Forall_cons; try reflexivity. apply List.Forall_nil.
  - apply List.Forall_cons; [reflexivity | exact H].
  - exact H.
Qed.

Lemma date_text_strip (r0 r1 r2 : str) :
  all_digits r0 -> all_digits r1 -> all_digits r2 ->
  strip (date_text r0 r1 r2) = date_text r0 r1 r2.
Proof.
  intros H0 H1 H2. apply strip_by_id. unfold date_text.
  assert (forall r, all_digits r -> Forall (fun c => isspace c = false) r)
    as D.
  { intros r Hr. eapply List.Forall_impl; [|exact Hr]. apply digit_not_space. }
  apply Forall_app_2; [auto|]. constructor; [reflexivity|].
  apply Forall_app_2; [auto|]. constructor; [reflexivity | auto].
Qed.

(** Four digits, and two runs of two digits or more. *)
Lemma core_date_text (pads_year : bool) (r0 r1 r2 : str) :
  all_digits r0 -> all_digits r1 -> all_digits r2 ->
  List.length r0 = 4%nat -> (2 <= List.length r1)%nat ->
  (2 <= List.length r2)%nat ->
  year_text pads_year (int_of_digits r0) = r0 ->
  core pads_year (date_text r0 r1 r2) = date_text r0 r1 r2.
Proof.
  intros H0 H1 H2 L0 L1 L2 Hy.
  destruct r0 as [|a [|b [|c [|d [|? ?]]]]]; try discriminate.
  unfold all_digits in H0. inversion H0 as [|? ? Ha H0a]; subst.
  inversion H0a as [|? ? Hb H0b]; subst.
  inversion H0b as [|? ? Hc H0c]; subst.
  inversion H0c as [|? ? Hd _]; subst.
  unfold core.
  change (first_match (strptime (date_text [a; b; c; d] r1 r2)) FORMATS)
    with (match strptime (date_text [a; b; c; d] r1 r2)
                  [DirY; DirLit 45; DirM; DirLit 45; DirD] with
          | Some r => Some r
          | None => first_match (strptime (date_text [a; b; c; d] r1 r2))
                      (List.tl FORMATS)
          end).
  destruct (strptime (date_text [a; b; c; d] r1 r2)
              [DirY; DirLit 45; DirM; DirLit 45; DirD])
    as [[[y m] dd]|] eqn:S.
  - apply iso_format_reads in S; try assumption.
    destruct S as (e & f & g & h & -> & -> & He & Hf & Hg & Hh & -> & -> & ->).
    rewrite strftime_date_text, Hy.
    rewrite !pad2_of_two_digits by assumption. reflexivity.
  - unfold date_text at 1. cbn [app].
    rewrite four_digits_other_formats by assumption.
    unfold guess_from_digits.
    rewrite digit_runs_date_text; try assumption; try discriminate.
    + cbn [List.length Nat.eqb]. rewrite !zfill2_long by assumption.
      reflexivity.
    + intros ->. simpl in L1. lia.
    + intros ->. simpl in L2. lia.
Qed.

Lemma pad_to_digits (k : nat) (ds : str) :
  all_digits ds -> all_digits (pad_to k ds).
Proof.
  intros H. unfold pad_to. apply Forall_app_2; [|exact H].
  apply List.Forall_forall. intros x Hx. apply repeat_spec in Hx. subst x.
  reflexivity.
Qed.

Lemma pad_to_length (k : nat) (ds : str) :
  (List.length ds <= k)%nat -> List.length (pad_to k ds) = k.
Proof. intros H. unfold pad_to. rewrite length_app, repeat_length. lia. Qed.

Lemma pad_to_value (k : nat) (n : N) :
  int_of_digits (pad_to k (digits_of_N n)) = n.
Proof.
  unfold pad_to. rewrite int_of_digits_zeros. apply int_of_digits_of_N.
Qed.

Lemma digits_length_lt (n : N) (k : nat) :
  (1 <= k)%nat -> n < 10 ^ N.of_nat k ->
  (List.length (digits_of_N n) <= k)%nat.
Proof. intros Hk H. apply digits_length; assumption. Qed.

(** What [strftime] prints for a valid date is read again as the same
    date, or, for an unpadded year below 1000, is read by no format. *)
Lemma strftime_fixed (pads_year : bool) (y m d : N) :
  valid_date y m d = true ->
  core pads_year (strip (strftime pads_year y m d))
  = strftime pads_year y m d.
Proof.
  intros V. unfold valid_date in V. bool_hyps.
  assert (d <= 31) as Hd31.
  { pose proof (N.le_trans _ _ _ H0 (N.le_refl _)) as T.
    unfold days_in_month in T.
    repeat match type of T with
           | context [if ?b then _ else _] => destruct b
           end; lia. }
  assert (forall n, n < 100 ->
            (List.length (pad_to 2 (digits_of_N n)) = 2)%nat) as P2.
  { intros n Hn. apply pad_to_length.
    apply digits_length_lt; [lia | exact Hn]. }
  rewrite strftime_date_text.
  rewrite date_text_strip;
    try (apply pad_to_digits, digits_are_digits);
    try (unfold year_text; destruct pads_year;
         [apply pad_to_digits|]; apply digits_are_digits).
  destruct (orb pads_year (1000 <=? y)) eqn:Long.
  - apply core_date_text;
      try (apply pad_to_digits, digits_are_digits);
      try (rewrite P2; lia).
    + unfold year_text; destruct pads_year;
        [apply pad_to_digits|]; apply digits_are_digits.
    + unfold year_text.
      assert ((List.length (digits_of_N y) <= 4)%nat) as L4.
      { apply digits_length_lt; [lia|]. change (10 ^ N.of_nat 4) with 10000.
        lia. }
      destruct pads_year; [apply pad_to_length, L4|].
      simpl in Long. apply N.leb_le in Long.
      assert (~ (List.length (digits_of_N y) <= 3)%nat).
      { intros L3. apply (digits_length y 3) in L3; [|lia].
        change (10 ^ N.of_nat 3) with 1000 in L3. lia. }
      lia.
    + unfold year_text. destruct pads_year.
      * rewrite pad_to_value. reflexivity.
      * rewrite int_of_digits_of_N. reflexivity.
  - apply orb_false_iff in Long. destruct Long as [-> Ly].
    apply N.leb_gt in Ly. unfold year_text.
    pose proof (P2 m ltac:(lia)) as Lm. pose proof (P2 d ltac:(lia)) as Ld.
    pose proof (pad_to_digits 2 _ (digits_are_digits m)) as Dm.
    pose proof (pad_to_digits 2 _ (digits_are_digits d)) as Dd.
    destruct (pad_to 2 (digits_of_N m)) as [|e [|f [|? ?]]];
      try discriminate.
    destruct (pad_to 2 (digits_of_N d)) as [|g [|h [|? ?]]];
      try discriminate.
    forall_cons.
    assert ((1 <= List.length (digits_of_N y) <= 3)%nat) as Ly3.
    { split.
      - pose proof (digits_nonempty y).
        destruct (digits_of_N y); [contradiction | simpl; lia].
      - apply digits_length_lt; [lia|]. change (10 ^ N.of_nat 3) with 1000.
        lia. }
    unfold core.
    rewrite short_year_no_format;
      try assumption; try apply digits_are_digits.
    unfold guess_from_digits.
    rewrite digit_runs_date_text;
      try apply digits_are_digits; try apply digits_nonempty;
      try discriminate.
    + destruct (Nat.eqb_spec (List.length (digits_of_N y)) 4); [lia|].
      reflexivity.
    + repeat constructor; assumption.
    + repeat constructor; assumption.
Qed.

Lemma strptime_valid (s : str) (fmt : list directive) (y m d : N) :
  strptime s fmt = Some (y, m, d) -> valid_date y m d = true.
Proof.
  unfold strptime.
  destruct (match_format fmt (1900, 1, 1) s) as [[[[y' m'] d'] rest]|];
    [|discriminate].
  destruct rest; [|discriminate].
  destruct (valid_date y' m' d') eqn:V; [|discriminate].
  intros [= <- <- <-]. exact V.
Qed.

(** What the fallback builds from the digit runs is left alone, unless it
    starts with the digit 0 and the year is not padded. *)
Lemma guess_fixed (pads_year : bool) (c : str) :
  strip c = c ->
  first_match (strptime c) FORMATS = None ->
  pads_year = true \/ List.head (guess_from_digits c) <> Some 48 ->
  core pads_year (strip (guess_from_digits c)) = guess_from_digits c.
Proof.
  intros Hs F Hp.
  assert (guess_from_digits c = c ->
          core pads_year (strip (guess_from_digits c)) = guess_from_digits c)
    as Fall.
  { intros E. rewrite E, Hs. unfold core. rewrite F. exact E. }
  pose proof (digit_runs_from_runs c [] (List.Forall_nil _)) as R.
  fold (digit_runs c) in R. unfold guess_from_digits in *.
  destruct (digit_runs c) as [|d0 [|d1 [|d2 rest]]];
    try (apply Fall; reflexivity).
  inversion R as [|? ? [N0 D0] R1]; subst.
  inversion R1 as [|? ? [N1 D1] R2]; subst.
  inversion R2 as [|? ? [N2 D2] _]; subst.
  destruct (zfill2_digits d0 D0) as [Z0 L0].
  destruct (zfill2_digits d1 D1) as [Z1 L1].
  destruct (zfill2_digits d2 D2) as [Z2 L2].
  destruct (Nat.eqb_spec (List.length d0) 4) as [E0|E0].
  - fold (date_text d0 (zfill2 d1) (zfill2 d2)) in *.
    rewrite date_text_strip by assumption.
    apply core_date_text; try assumption.
    destruct d0 as [|a [|b [|x [|y [|? ?]]]]]; try discriminate.
    forall_cons. apply year_text_of_four_digits; try assumption.
    destruct Hp as [Hp|Hp]; [auto|]. right. intros ->. apply Hp. reflexivity.
  - destruct (Nat.eqb_spec (List.length d2) 4) as [E2|E2];
      [|apply Fall; reflexivity].
    fold (date_text d2 (zfill2 d1) (zfill2 d0)) in *.
    rewrite date_text_strip by assumption.
    apply core_date_text; try assumption.
    destruct d2 as [|a [|b [|x [|y [|? ?]]]]]; try discriminate.
    forall_cons. apply year_text_of_four_digits; try assumption.
    destruct Hp as [Hp|Hp]; [auto|]. right. intros ->. apply Hp. reflexivity.
Qed.

(** [DateNormalizer.normalize] returns a fixed point of itself when the
    C library pads the year, and on every platform when the result does
    not start with the digit 0. *)
Lemma date_idempotent (pads_year : bool) (s : str) :
  pads_year = true \/ List.head (normalize_str pads_year s) <> Some 48 ->
  normalize_str pads_year (normalize_str pads_year s)
  = normalize_str pads_year s.
Proof.
  rewrite !normalize_str_core.
  assert (strip (strip s) = strip s) as Hs by apply strip_by_idempotent.
  remember (strip s) as c eqn:Ec. clear Ec s.
  unfold core at 1 3 4.
  destruct (first_match (strptime c) FORMATS) as [[[y m] d]|] eqn:F.
  - intros _. apply first_match_some in F. destruct F as (fmt & _ & F).
    apply strptime_valid in F. apply strftime_fixed, F.
  - apply guess_fixed; assumption.
Qed.

Lemma date_object_idempotent (pads_year : bool) (y m d : N) :
  valid_date y m d = true ->
  normalize pads_year (DStr (normalize pads_year (DDate y m d)))
  = normalize pads_year (DDate y m d).
Proof. intros V. simpl. rewrite normalize_str_core. apply strftime_fixed, V. Qed.

End DateFacts.

(** ** C2: the four normalizers, twice *)

Section Idempotence.
Import PyStr PyDecimal.

(** What the amount normalizer returns for a numeric argument other
    than a float NaN is a fixed point of the string branch. *)
Lemma amount_result_fixed (a : AmountNormalizer.amount) (y : str) :
  not_nan a -> AmountNormalizer.normalize a = Some y ->
  AmountNormalizer.normalize_str y = y.
Proof.
  assert (forall neg c e,
            option_map to_str (quantize_cents (Finite neg c e)) = Some y ->
            AmountNormalizer.normalize_str y = y) as K.
  { intros neg c e H.
    destruct (quantize_cents (Finite neg c e)) as [q|] eqn:Q; [|discriminate].
    injection H as <-.
    destruct (quantize_cents_fixed _ _ _ _ Q) as (c' & -> & Q').
    rewrite normalize_str_to_str. unfold finish. rewrite Q'. reflexivity. }
  destruct a as [z|repr|d|s]; simpl; intros Hn H.
  - unfold AmountNormalizer.normalize_number in H. rewrite of_str_int in H.
    exact (K _ _ _ H).
  - destruct Hn as (neg & c & e & Hr).
    unfold AmountNormalizer.normalize_number in H. rewrite Hr in H.
    exact (K _ _ _ H).
  - injection H as <-. apply normalize_str_idempotent.
  - injection H as <-. apply normalize_str_idempotent.
Qed.

End Idempotence.

(** C2, as the code has it, for inputs of code points below U+0180, the
    range in which the tables of [upper], of the digits and of [Decimal]
    are those of Python. Applying a normalizer to its own output returns
    that output: for [InvoiceNumberNormalizer.normalize] on every such
    input; for [AmountNormalizer.normalize] on every such string, and on
    every [int], [Decimal] and float other than NaN for which it returns;
    for [DateNormalizer.normalize] on every such string whose result does
    not start with the digit 0 (on every such string where [strftime]
    pads the year to four digits) and on every date object; for
    [NIPValidator.normalize] exactly on the inputs whose result does not
    start with two letters [A-Z]. *)
Theorem normalizers_idempotent_where :
  (forall number : PyStr.str,
     basic number ->
     InvoiceNumberNormalizer.normalize
       (InvoiceNumberNormalizer.normalize number)
     = InvoiceNumberNormalizer.normalize number)
  /\ (forall text : PyStr.str,
        basic text ->
        AmountNormalizer.normalize_str (AmountNormalizer.normalize_str text)
        = AmountNormalizer.normalize_str text)
  /\ (forall (a : AmountNormalizer.amount) (y : PyStr.str),
        basic_amount a -> not_nan a ->
        AmountNormalizer.normalize a = Some y ->
        AmountNormalizer.normalize (AmountNormalizer.AStr y) = Some y)
  /\ (forall (pads_year : bool) (s : PyStr.str),
        basic s ->
        pads_year = true
        \/ List.head (DateNormalizer.normalize_str pads_year s) <> Some 48 ->
        DateNormalizer.normalize_str pads_year
          (DateNormalizer.normalize_str pads_year s)
        = DateNormalizer.normalize_str pads_year s)
  /\ (forall (pads_year : bool) (y m d : N),
        DateNormalizer.valid_date y m d = true ->
        DateNormalizer.normalize pads_year
          (DateNormalizer.DStr
             (DateNormalizer.normalize pads_year (DateNormalizer.DDate y m d)))
        = DateNormalizer.normalize pads_year (DateNormalizer.DDate y m d))
  /\ (forall nip : PyStr.str,
        basic nip ->
        (NIPValidator.normalize (NIPValidator.normalize nip)
         = NIPValidator.normalize nip
         <-> starts_with_country (NIPValidator.normalize nip) = false)).
Proof.
  split; [intros number _; apply invoice_number_idempotent|].
  split; [intros text _; apply normalize_str_idempotent|].
  split.
  { intros a y _ Hn H. simpl. f_equal. exact (amount_result_fixed a y Hn H). }
  split; [intros pads_year s _; apply date_idempotent|].
  split; [exact date_object_idempotent|].
  intros nip _. apply nip_idempotent_iff.
Qed.

Lemma normalizers_idempotent_where_witness :
  DateNormalizer.normalize_str false
    (DateNormalizer.normalize_str false (PyStr.lit "15.01.2025"))
  = DateNormalizer.normalize_str false (PyStr.lit "15.01.2025")
  /\ NIPValidator.normalize
       (NIPValidator.normalize (PyStr.lit "PL 521-301-72-28"))
     = NIPValidator.normalize (PyStr.lit "PL 521-301-72-28")
  /\ AmountNormalizer.normalize (AmountNormalizer.AStr (PyStr.lit "45.99"))
     = Some (PyStr.lit "45.99").
Proof.
  destruct normalizers_idempotent_where as (_ & _ & A & D & _ & P).
  split; [|split].
  - apply (D false (PyStr.lit "15.01.2025")).
    + unfold basic. repeat constructor.
    + right. vm_compute. discriminate.
  - apply (proj2 (P (PyStr.lit "PL 521-301-72-28")
                    ltac:(unfold basic; repeat constructor))).
    vm_compute. reflexivity.
  - apply (A (AmountNormalizer.AFloat (PyStr.lit "45.99"))).
    + unfold basic_amount, basic. repeat constructor.
    + exists false, 4599, (-2)%Z. vm_compute. reflexivity.
    + vm_compute. reflexivity.
Defined.

(** C2 as stated fails for the tax-number normalizer: the second pass
    takes the [PL] that the first pass uncovered for a country code. *)
Lemma nip_not_idempotent :
  NIPValidator.normalize (NIPValidator.normalize (PyStr.lit "PLPL5213017228"))
  <> NIPValidator.normalize (PyStr.lit "PLPL5213017228").
Proof. vm_compute. discriminate. Qed.

Example nip_twice_values :
  NIPValidator.normalize (PyStr.lit "PLPL5213017228")
  = PyStr.lit "PL5213017228"
  /\ NIPValidator.normalize (PyStr.lit "PL5213017228")
     = PyStr.lit "5213017228".
Proof. split; vm_compute; reflexivity. Qed.

(** A float NaN prints as [NaN], which the string branch then reads as
    [0.00]. *)
Example amount_nan_twice :
  AmountNormalizer.normalize (AmountNormalizer.AFloat (PyStr.lit "nan"))
  = Some (PyStr.lit "NaN")
  /\ AmountNormalizer.normalize (AmountNormalizer.AStr (PyStr.lit "NaN"))
     = Some (PyStr.lit "0.00").
Proof. split; vm_compute; reflexivity. Qed.

(** Where [strftime] does not pad the year, a year written with a leading
    zero loses it on the second pass. *)
Example date_leading_zero_twice :
  DateNormalizer.normalize_str false (PyStr.lit "0123-1-1x")
  = PyStr.lit "0123-01-01"
  /\ DateNormalizer.normalize_str false (PyStr.lit "0123-01-01")
     = PyStr.lit "123-01-01"
  /\ DateNormalizer.normalize_str true (PyStr.lit "0123-01-01")
     = PyStr.lit "0123-01-01".
Proof. repeat split; vm_compute; reflexivity. Qed.
(** * Further properties of the code *)

(** ** The check digit of a tax number *)

Ltac ten_digit_cases E :=
  repeat match type of E with
         | ?p ++ _ = _ =>
             destruct p;
             [ cbn [app] in E; injection E; clear E; intros; subst;
               try match goal with
                   | H : _ :: _ = [] |- _ => discriminate H
                   end
             | cbn [app] in E; try discriminate E;
               injection E; clear E; intros E ? ]
         end;
  try match type of E with
      | ?p ++ _ = [] => destruct p; simpl in E; discriminate E
      end.

Ltac digits_known :=
  unfold all_digits in *;
  repeat match goal with
         | H : List.Forall _ (_ :: _) |- _ => inversion H; subst; clear H
         | H : List.Forall _ [] |- _ => clear H
         end.

Ltac digits_goal :=
  unfold all_digits;
  repeat (apply List.Forall_cons; [assumption|]); apply List.Forall_nil.

Section Checksum.
Import PyStr NIPValidator.

Lemma digit_upper_cp (c : N) : isdigit c = true -> upper_cp c = [c].
Proof.
  intros H. unfold isdigit in H. bool_hyps.
  unfold upper_cp, in_az.
  replace (97 <=? c) with false by (symmetry; apply N.leb_gt; lia).
  replace (c <? 181) with true by (symmetry; apply N.ltb_lt; lia).
  reflexivity.
Qed.

Lemma digit_not_sep (c : N) : isdigit c = true -> is_sep c = false.
Proof.
  intros H. unfold isdigit in H. bool_hyps.
  unfold is_sep, isspace. bool_goal; lia.
Qed.

Lemma digit_not_AZ (c : N) : isdigit c = true -> is_AZ c = false.
Proof.
  intros H. unfold isdigit in H. bool_hyps. unfold is_AZ. bool_goal; lia.
Qed.

(** A text of ASCII digits is its own normal form. *)
Lemma normalize_digits (s : str) : all_digits s -> normalize s = s.
Proof.
  intros H. unfold normalize. destruct s as [|c s]; [reflexivity|].
  rewrite upper_id.
  2:{ eapply List.Forall_impl; [|exact H]. apply digit_upper_cp. }
  rewrite strip_country_fixed.
  2:{ simpl. inversion H; subst. rewrite digit_not_AZ by assumption.
      destruct s; reflexivity. }
  apply remove_class_id. eapply List.Forall_impl; [|exact H].
  apply digit_not_sep.
Qed.

Lemma int_of_digit (c : N) : isdigit c = true -> int_of_char c = Some (c - 48).
Proof. unfold int_of_char. intros ->. reflexivity. Qed.

Lemma digit_isdigit_cp (c : N) : isdigit c = true -> isdigit_cp c = true.
Proof. unfold isdigit_cp. intros ->. reflexivity. Qed.

(** What [validate] computes on ten ASCII digits. *)
Lemma validate_ten_digits (c0 c1 c2 c3 c4 c5 c6 c7 c8 c9 : N) :
  all_digits [c0; c1; c2; c3; c4; c5; c6; c7; c8; c9] ->
  validate [c0; c1; c2; c3; c4; c5; c6; c7; c8; c9]
  = Some ((6 * (c0 - 48) + 5 * (c1 - 48) + 7 * (c2 - 48) + 2 * (c3 - 48)
           + 3 * (c4 - 48) + 4 * (c5 - 48) + 5 * (c6 - 48) + 6 * (c7 - 48)
           + 7 * (c8 - 48)) mod 11 =? c9 - 48).
Proof.
  intros H. unfold validate. rewrite (normalize_digits _ H).
  unfold all_digits in H.
  repeat match goal with
         | H : List.Forall _ (_ :: _) |- _ => inversion H; subst; clear H
         | H : List.Forall _ [] |- _ => clear H
         end.
  cbn [List.length Nat.eqb negb orb str_isdigit List.forallb].
  rewrite !digit_isdigit_cp by assumption.
  cbn [andb negb weighted_sum weights List.nth].
  rewrite !int_of_digit by assumption.
  do 3 f_equal. ring.
Qed.

(** The ten characters of a text of length ten. *)
Lemma ten_chars (s : str) :
  List.length s = 10%nat ->
  exists c0 c1 c2 c3 c4 c5 c6 c7 c8 c9,
    s = [c0; c1; c2; c3; c4; c5; c6; c7; c8; c9].
Proof.
  intros H.
  do 10 (destruct s as [|? s]; [discriminate|]).
  destruct s; [|discriminate]. eauto 12.
Qed.

(** Changing one term of a sum by a weight below 11 times a difference
    below 10 changes the sum modulo 11. *)
Lemma mod11_shift (w a b T T' v : N) :
  0 < w -> w < 11 -> a < 10 -> b < 10 -> a <> b ->
  T' + w * a = T + w * b -> T mod 11 = v -> T' mod 11 <> v.
Proof.
  intros Hw0 Hw Ha Hb Hab E Hv C. rewrite <- C in Hv. clear C.
  assert (w = 1 \/ w = 2 \/ w = 3 \/ w = 4 \/ w = 5 \/ w = 6 \/ w = 7
          \/ w = 8 \/ w = 9 \/ w = 10) as Hc by lia.
  repeat (destruct Hc as [-> | Hc]); try subst w; lia.
Qed.

Lemma digit_value_lt (c : N) : isdigit c = true -> c - 48 < 10.
Proof. unfold isdigit. intros H. bool_hyps. lia. Qed.

Lemma digit_value_inj (x y : N) :
  isdigit x = true -> isdigit y = true -> x <> y -> x - 48 <> y - 48.
Proof. unfold isdigit. intros Hx Hy. bool_hyps. lia. Qed.

(** Swapping the digit of weight 7 with the check digit. *)
Lemma mod11_swap_last (a b T T' : N) :
  a < 10 -> b < 10 -> a <> b ->
  T' + 7 * a = T + 7 * b -> T mod 11 = b -> T' mod 11 <> a.
Proof. intros Ha Hb Hab E Hv C. lia. Qed.

Lemma superscript_isdigit_cp (c : N) :
  isdigit_cp c = true -> isdigit c = false -> is_superscript c = true.
Proof.
  unfold isdigit_cp, is_superscript. intros H E. rewrite E in H. exact H.
Qed.

Lemma superscript_not_digit (c : N) :
  is_superscript c = true -> isdigit c = false /\ isdigit_cp c = true.
Proof.
  unfold is_superscript, isdigit_cp, isdigit. intros H. bool_hyps; subst;
    split; reflexivity.
Qed.

(** The sum raises exactly when one of the characters it reads is a
    superscript. *)
Lemma weighted_sum_raises (ws : list N) :
  forall s : str,
    (List.length ws <= List.length s)%nat ->
    Forall (fun c => isdigit_cp c = true) s ->
    (weighted_sum s ws = None
     <-> Exists (fun c => is_superscript c = true)
           (List.firstn (List.length ws) s)).
Proof.
  induction ws as [|w ws IH]; intros s Hl Hd.
  - destruct s; simpl; (split; [discriminate|]); intros H; inversion H.
  - destruct s as [|c s]; [simpl in Hl; lia|].
    simpl in Hl. inversion Hd as [|? ? Hc Hs]; subst.
    specialize (IH s ltac:(lia) Hs).
    cbn [weighted_sum List.length List.firstn]. unfold int_of_char.
    destruct (isdigit c) eqn:Ec.
    + destruct (weighted_sum s ws) as [t|] eqn:Ew.
      * split; [discriminate|]. intros H. inversion H as [? ? Hx|? ? Hx]; subst.
        -- apply superscript_not_digit in Hx. destruct Hx. congruence.
        -- apply IH in Hx. discriminate.
      * split; [|reflexivity]. intros _. apply List.Exists_cons_tl.
        apply IH. reflexivity.
    + split; [|reflexivity]. intros _. apply List.Exists_cons_hd.
      apply superscript_isdigit_cp; assumption.
Qed.

Lemma forallb_isdigit_cp (s : str) :
  List.forallb isdigit_cp s = true
  <-> Forall (fun c => isdigit_cp c = true) s.
Proof.
  rewrite List.forallb_forall, List.Forall_forall. reflexivity.
Qed.

End Checksum.

(** X1. The check digit catches every single wrong digit: when
    [validate] accepts a text of ten ASCII digits, it rejects the text in
    which any one of them is replaced by another digit. *)
Theorem validate_detects_one_wrong_digit :
  forall (p q : PyStr.str) (x y : N),
    List.length (p ++ x :: q) = 10%nat ->
    all_digits (p ++ x :: q) ->
    PyStr.isdigit y = true -> x <> y ->
    NIPValidator.validate (p ++ x :: q) = Some true ->
    NIPValidator.validate (p ++ y :: q) = Some false.
Proof.
  intros p q x y Hlen Hd Hy Hxy Hv.
  destruct (ten_chars _ Hlen) as (c0 & c1 & c2 & c3 & c4 & c5 & c6 & c7 & c8
                                  & c9 & E).
  clear Hlen. rewrite E in Hd, Hv.
  rewrite validate_ten_digits in Hv by exact Hd.
  injection Hv as Hv. apply N.eqb_eq in Hv.
  ten_digit_cases E.
  all: cbn [app]; digits_known;
    rewrite validate_ten_digits by digits_goal;
    f_equal; apply N.eqb_neq.
  all: match goal with
       | Hxy : ?x <> ?y |- _ =>
           assert (x - 48 < 10) by (apply digit_value_lt; assumption);
           assert (y - 48 < 10) by (apply digit_value_lt; assumption);
           assert (x - 48 <> y - 48)
             by (apply digit_value_inj; assumption);
           first
             [ rewrite Hv; assumption
             | apply (mod11_shift 6 (x - 48) (y - 48)) with (7 := Hv);
               [reflexivity | reflexivity | assumption.. | ring]
             | apply (mod11_shift 5 (x - 48) (y - 48)) with (7 := Hv);
               [reflexivity | reflexivity | assumption.. | ring]
             | apply (mod11_shift 7 (x - 48) (y - 48)) with (7 := Hv);
               [reflexivity | reflexivity | assumption.. | ring]
             | apply (mod11_shift 2 (x - 48) (y - 48)) with (7 := Hv);
               [reflexivity | reflexivity | assumption.. | ring]
             | apply (mod11_shift 3 (x - 48) (y - 48)) with (7 := Hv);
               [reflexivity | reflexivity | assumption.. | ring]
             | apply (mod11_shift 4 (x - 48) (y - 48)) with (7 := Hv);
               [reflexivity | reflexivity | assumption.. | ring] ]
       end.
Qed.

Lemma validate_detects_one_wrong_digit_witness :
  NIPValidator.validate (PyStr.lit "5213017229") = Some false.
Proof.
  apply (validate_detects_one_wrong_digit (PyStr.lit "521301722") [] 56 57).
  - reflexivity.
  - unfold all_digits. repeat constructor.
  - reflexivity.
  - discriminate.
  - vm_compute. reflexivity.
Defined.

(** X2. The check digit catches every swap of two neighbouring digits
    that differ, the ninth digit and the check digit included: when
    [validate] accepts a text of ten ASCII digits, it rejects the text
    with the two digits exchanged. *)
Theorem validate_detects_swapped_neighbours :
  forall (p q : PyStr.str) (x y : N),
    List.length (p ++ x :: y :: q) = 10%nat ->
    all_digits (p ++ x :: y :: q) ->
    x <> y ->
    NIPValidator.validate (p ++ x :: y :: q) = Some true ->
    NIPValidator.validate (p ++ y :: x :: q) = Some false.
Proof.
  intros p q x y Hlen Hd Hxy Hv.
  destruct (ten_chars _ Hlen) as (c0 & c1 & c2 & c3 & c4 & c5 & c6 & c7 & c8
                                  & c9 & E).
  clear Hlen. rewrite E in Hd, Hv.
  rewrite validate_ten_digits in Hv by exact Hd.
  injection Hv as Hv. apply N.eqb_eq in Hv.
  ten_digit_cases E.
  all: cbn [app]; digits_known;
    rewrite validate_ten_digits by digits_goal;
    f_equal; apply N.eqb_neq.
  all: match goal with
       | Hxy : ?x <> ?y |- _ =>
           assert (x - 48 < 10) by (apply digit_value_lt; assumption);
           assert (y - 48 < 10) by (apply digit_value_lt; assumption);
           assert (x - 48 <> y - 48)
             by (apply digit_value_inj; assumption);
           assert (y - 48 <> x - 48) by congruence;
           first
             [ apply (mod11_swap_last (x - 48) (y - 48)) with (5 := Hv);
               [assumption.. | ring]
             | apply (mod11_shift 1 (x - 48) (y - 48)) with (7 := Hv);
               [reflexivity | reflexivity | assumption.. | ring]
             | apply (mod11_shift 1 (y - 48) (x - 48)) with (7 := Hv);
               [reflexivity | reflexivity | assumption.. | ring]
             | apply (mod11_shift 2 (y - 48) (x - 48)) with (7 := Hv);
               [reflexivity | reflexivity | assumption.. | ring]
             | apply (mod11_shift 5 (x - 48) (y - 48)) with (7 := Hv);
               [reflexivity | reflexivity | assumption.. | ring] ]
       end.
Qed.

Lemma validate_detects_swapped_neighbours_witness :
  NIPValidator.validate (PyStr.lit "5213017282") = Some false.
Proof.
  apply (validate_detects_swapped_neighbours (PyStr.lit "52130172") []
           50 56).
  - reflexivity.
  - unfold all_digits. repeat constructor.
  - discriminate.
  - vm_compute. reflexivity.
Defined.

(** X3. On a text of code points below U+0180, [validate] raises (the
    [ValueError] of [int]) exactly when the normalized text is ten
    characters that [str.isdigit] accepts and one of them is a superscript
    digit; on every other text it returns a boolean. *)
Theorem validate_raises_on_superscripts :
  forall nip : PyStr.str,
    basic nip ->
    (NIPValidator.validate nip = None
     <-> List.length (NIPValidator.normalize nip) = 10%nat
         /\ Forall (fun c => PyStr.isdigit_cp c = true)
              (NIPValidator.normalize nip)
         /\ Exists (fun c => is_superscript c = true)
              (NIPValidator.normalize nip)).
Proof.
  intros nip _. unfold NIPValidator.validate.
  set (s := NIPValidator.normalize nip).
  destruct (Nat.eqb_spec (List.length s) 10) as [Hl|Hl]; cbn [negb orb].
  2:{ split; [discriminate|]. intros [? _]. contradiction. }
  destruct (PyStr.str_isdigit s) eqn:Hd; cbn [negb].
  2:{ split; [discriminate|]. intros (_ & H & _).
      apply forallb_isdigit_cp in H. destruct s; [discriminate|].
      simpl in Hd. simpl in H. congruence. }
  assert (Forall (fun c => PyStr.isdigit_cp c = true) s) as Hf.
  { apply forallb_isdigit_cp. destruct s; [discriminate|exact Hd]. }
  destruct (ten_chars _ Hl) as (c0 & c1 & c2 & c3 & c4 & c5 & c6 & c7 & c8
                                & c9 & E).
  pose proof (weighted_sum_raises NIPValidator.weights s) as W.
  rewrite E in *. specialize (W ltac:(simpl; lia) Hf).
  cbn [List.length NIPValidator.weights List.firstn] in W.
  cbn [List.nth].
  assert (List.In c9 [c0; c1; c2; c3; c4; c5; c6; c7; c8; c9]) as H9
    by (simpl; tauto).
  pose proof (proj1 (List.Forall_forall _ _) Hf c9 H9) as Hc9.
  destruct (NIPValidator.weighted_sum _ _) as [t|] eqn:Ew.
  - unfold PyStr.int_of_char. destruct (PyStr.isdigit c9) eqn:E9.
    + split; [discriminate|]. intros (_ & _ & Hx). exfalso.
      assert (~ Exists (fun c => is_superscript c = true)
                [c0; c1; c2; c3; c4; c5; c6; c7; c8]) as Hn.
      { intros C. apply W in C. discriminate. }
      apply Hn. apply List.Exists_exists in Hx.
      destruct Hx as (c & Hin & Hc). apply List.Exists_exists. exists c.
      split; [|exact Hc]. simpl in Hin |- *.
      assert (c <> c9) as Hne.
      { intros ->. apply superscript_not_digit in Hc. destruct Hc.
        congruence. }
      intuition congruence.
    + split; [|reflexivity]. intros _. repeat split; try assumption.
      apply List.Exists_exists. exists c9. split; [exact H9|].
      apply superscript_isdigit_cp; assumption.
  - split; [|reflexivity]. intros _. repeat split; try assumption.
    destruct W as [W _]. specialize (W eq_refl).
    apply List.Exists_exists in W. destruct W as (c & Hin & Hc).
    apply List.Exists_exists. exists c. split; [|exact Hc].
    simpl in Hin |- *. tauto.
Qed.

Lemma validate_raises_on_superscripts_witness :
  NIPValidator.validate (PyStr.lit "521301722" ++ [178]) = None.
Proof.
  apply (validate_raises_on_superscripts (PyStr.lit "521301722" ++ [178])).
  - unfold basic. repeat constructor.
  - split; [reflexivity|]. split; [repeat constructor|].
    apply List.Exists_exists. exists 178. split; [|reflexivity].
    simpl. tauto.
Defined.

(** X4. On a text of code points below U+0180: when the normalized tax
    number does not start with two letters [A-Z], validating it gives what
    validating the raw text gives; and a text that [validate] accepts is
    still accepted once normalized. *)
Theorem validate_after_normalize :
  forall nip : PyStr.str,
    basic nip ->
    (starts_with_country (NIPValidator.normalize nip) = false ->
     NIPValidator.validate (NIPValidator.normalize nip)
     = NIPValidator.validate nip)
    /\ (NIPValidator.validate nip = Some true ->
        NIPValidator.validate (NIPValidator.normalize nip) = Some true).
Proof.
  intros nip _.
  assert (starts_with_country (NIPValidator.normalize nip) = false ->
          NIPValidator.validate (NIPValidator.normalize nip)
          = NIPValidator.validate nip) as A.
  { intros H. unfold NIPValidator.validate.
    rewrite (proj2 (nip_idempotent_iff nip) H). reflexivity. }
  split; [exact A|]. intros H. rewrite A; [exact H|].
  unfold NIPValidator.validate in H.
  destruct (NIPValidator.normalize nip) as [|a [|b s]] eqn:E;
    try reflexivity.
  cbn [PyStr.str_isdigit List.forallb] in H.
  destruct (PyStr.isdigit_cp a) eqn:Ea.
  - unfold starts_with_country.
    replace (PyStr.is_AZ a) with false; [reflexivity|].
    unfold PyStr.isdigit_cp, PyStr.isdigit in Ea. unfold PyStr.is_AZ.
    symmetry. bool_hyps; bool_goal; lia.
  - cbn [andb negb orb] in H. rewrite orb_true_r in H. discriminate.
Qed.

Lemma validate_after_normalize_witness :
  NIPValidator.validate
    (NIPValidator.normalize (PyStr.lit "pl 521-301-72-28"))
  = Some true.
Proof.
  apply (validate_after_normalize (PyStr.lit "pl 521-301-72-28")).
  - unfold basic. repeat constructor.
  - vm_compute. reflexivity.
Defined.

(** ** The shape of an identifier *)

Section Shape.
Import PyStr.

Lemma flat_map_length_const {A B} (f : A -> list B) (k : nat) (l : list A) :
  (forall x, In x l -> List.length (f x) = k) ->
  List.length (List.flat_map f l) = (k * List.length l)%nat.
Proof.
  induction l as [|x l IH]; intros H; simpl; [lia|].
  rewrite List.length_app, (H x (or_introl eq_refl)), IH; [lia|].
  intros y Hy. apply H. right. exact Hy.
Qed.

Lemma round_length (st : list N) (kw : N * N) :
  List.length (SHA256.round st kw) = List.length st.
Proof.
  unfold SHA256.round.
  destruct st as [|a [|b [|c [|d [|e [|f [|g [|h [|? ?]]]]]]]]]; reflexivity.
Qed.

Lemma fold_left_length {A B} (f : list A -> B -> list A) (l : list B) :
  (forall st x, List.length (f st x) = List.length st) ->
  forall st, List.length (List.fold_left f l st) = List.length st.
Proof.
  intros H. induction l as [|x l IH]; intros st; simpl; [reflexivity|].
  rewrite IH. apply H.
Qed.

Lemma sha_compress_length (st block : list N) :
  List.length (SHA256.compress st block) = List.length st.
Proof.
  unfold SHA256.compress.
  rewrite List.length_map, List.length_combine,
    (fold_left_length SHA256.round) by apply round_length.
  lia.
Qed.

Lemma sha_digest_length (msg : list N) :
  List.length (SHA256.digest msg) = 32%nat.
Proof.
  unfold SHA256.digest.
  rewrite (flat_map_length_const _ 4).
  - rewrite (fold_left_length SHA256.compress) by apply sha_compress_length.
    reflexivity.
  - intros x _. unfold SHA256.be_bytes.
    rewrite List.length_map, List.length_rev, List.length_seq. reflexivity.
Qed.

Lemma hex_length (bs : list N) :
  List.length (SHA256.hex bs) = (2 * List.length bs)%nat.
Proof.
  unfold SHA256.hex. apply flat_map_length_const. reflexivity.
Qed.

Lemma sha_hexdigest_length (s : str) :
  List.length (SHA256.hexdigest s) = 64%nat.
Proof.
  unfold SHA256.hexdigest. rewrite hex_length, sha_digest_length.
  reflexivity.
Qed.

Lemma hex_digit_upper_length (d : N) :
  d < 16 -> List.length (upper_cp (SHA256.hex_digit d)) = 1%nat.
Proof.
  intros H.
  assert (List.forallb
            (fun d => (List.length (upper_cp (SHA256.hex_digit d)) =? 1)%nat)
            (List.map N.of_nat (List.seq 0 16)) = true) as K
    by (vm_compute; reflexivity).
  apply Nat.eqb_eq.
  exact (below_forallb
           (fun d => (List.length (upper_cp (SHA256.hex_digit d)) =? 1)%nat)
           16 K d H).
Qed.

Lemma hex_chars (bs : list N) (c : N) :
  Forall (fun b => b < 256) bs -> In c (SHA256.hex bs) ->
  exists d, d < 16 /\ c = SHA256.hex_digit d.
Proof.
  intros Hb Hin. unfold SHA256.hex in Hin. apply List.in_flat_map in Hin.
  destruct Hin as (b & Hbin & Hc).
  pose proof (proj1 (List.Forall_forall _ _) Hb b Hbin) as Hlt.
  cbv beta in Hlt.
  simpl in Hc. destruct Hc as [<-|[<-|[]]].
  - exists (b / 16). split; [|reflexivity].
    apply N.Div0.div_lt_upper_bound. lia.
  - exists (b mod 16). split; [|reflexivity]. apply N.mod_lt. discriminate.
Qed.

Lemma in_firstn {A} (n : nat) :
  forall (l : list A) (x : A), In x (List.firstn n l) -> In x l.
Proof.
  induction n as [|n IH]; intros [|y l] x; simpl; try tauto.
  intros [->|H]; [left; reflexivity | right; apply IH, H].
Qed.

Lemma hash16_length (s : str) :
  List.length (DocumentIDGenerator.hash16 s) = 16%nat.
Proof.
  unfold DocumentIDGenerator.hash16, upper.
  rewrite (flat_map_length_const _ 1).
  - rewrite List.length_firstn, hex_length, sha_digest_length. reflexivity.
  - intros c Hc. apply in_firstn in Hc.
    apply hex_chars in Hc; [|apply digest_bytes].
    destruct Hc as (d & Hd & ->). apply hex_digit_upper_length, Hd.
Qed.

End Shape.

Section ParseId.
Import PyStr DocumentIDGenerator.

Lemma value_no_dash (dt : DocumentType.t) : ~ In 45 (DocumentType.value dt).
Proof.
  destruct dt; vm_compute; intros H;
    repeat (destruct H as [H|H]; [discriminate H|]); exact H.
Qed.

Lemma value_inj (a b : DocumentType.t) :
  DocumentType.value a = DocumentType.value b -> a = b.
Proof. destruct a, b; intros H; try reflexivity; discriminate H. Qed.

Lemma find_member (dt : DocumentType.t) :
  List.find (fun d => eqb (DocumentType.value d) (DocumentType.value dt))
    DocumentType.members
  = Some dt.
Proof. destruct dt; vm_compute; reflexivity. Qed.

Lemma all_members (dt : DocumentType.t) : In dt DocumentType.members.
Proof. destruct dt; simpl; tauto. Qed.

(** The lookup of [parse_id] finds a type exactly by its code. *)
Lemma find_type_code (code : str) (dt : DocumentType.t) :
  List.find (fun d => eqb (DocumentType.value d) code) DocumentType.members
  = Some dt
  <-> DocumentType.value dt = code.
Proof.
  split.
  - intros H. apply List.find_some in H. apply eqb_eq, H.
  - intros <-. apply find_member.
Qed.

Lemma split_length (sep : N) (s : str) :
  List.length (split sep s) = S (count_char sep s).
Proof.
  unfold count_char. induction s as [|c s IH]; [reflexivity|].
  cbn [split List.filter]. rewrite (N.eqb_sym sep c).
  destruct (c =? sep).
  - cbn [List.length]. rewrite IH. reflexivity.
  - destruct (split sep s) as [|p ps] eqn:E; [discriminate IH|].
    exact IH.
Qed.

Lemma count_char_app (c : N) (a b : str) :
  count_char c (a ++ b) = (count_char c a + count_char c b)%nat.
Proof.
  unfold count_char. rewrite List.filter_app, List.length_app. reflexivity.
Qed.

Lemma count_char_zero (c : N) (s : str) :
  count_char c s = 0%nat <-> ~ In c s.
Proof.
  unfold count_char. induction s as [|x s IH]; simpl; [tauto|].
  destruct (N.eqb_spec c x) as [->|Hne]; simpl.
  - split; [discriminate|]. intros H. exfalso. apply H. left. reflexivity.
  - rewrite IH. split; [|tauto]. intros H [E|E]; [congruence|tauto].
Qed.

(** The dashes of a generated identifier: those of the prefix and two. *)
Lemma generated_id_dashes (self : t) (canonical : CanonicalData) :
  count_char 45 (_generate_id self canonical)
  = (count_char 45 (prefix self) + 2)%nat.
Proof.
  unfold _generate_id.
  change (prefix self ++ 45 :: ?v ++ 45 :: ?h)
    with (prefix self ++ [45] ++ v ++ [45] ++ h).
  rewrite !count_char_app.
  rewrite (proj2 (count_char_zero 45 (DocumentType.value _)))
    by apply value_no_dash.
  rewrite (proj2 (count_char_zero 45 (hash16 _))) by apply hash16_no_dash.
  reflexivity.
Qed.

Lemma generated_id_split (self : t) (canonical : CanonicalData) :
  ~ In 45 (prefix self) ->
  split 45 (_generate_id self canonical)
  = [ prefix self; DocumentType.value (document_type canonical);
      hash16 (canonical_string canonical) ].
Proof.
  intros H. apply split_three.
  split; [reflexivity|]. auto using value_no_dash, hash16_no_dash.
Qed.

End ParseId.

(** X5. Every identifier is the prefix, a dash, the code of the
    document type, a dash, and sixteen characters among [0-9] and
    [A-F]. *)
Theorem generated_id_shape :
  forall (self : DocumentIDGenerator.t) (canonical : CanonicalData),
    exists h : PyStr.str,
      DocumentIDGenerator._generate_id self canonical
      = DocumentIDGenerator.prefix self
        ++ 45 :: DocumentType.value (document_type canonical) ++ 45 :: h
      /\ List.length h = 16%nat
      /\ Forall (fun c => is_upper_hex c = true) h.
Proof.
  intros self canonical.
  exists (DocumentIDGenerator.hash16 (canonical_string canonical)).
  split; [reflexivity|]. split; [apply hash16_length|apply hash16_upper_hex].
Qed.

(** X6. For a generator whose prefix holds no dash, [parse_id] of an
    identifier it generated returns the prefix, the code, the hash part
    and the document type of the canonical data. *)
Theorem parse_id_of_generated :
  forall (self : DocumentIDGenerator.t) (canonical : CanonicalData),
    ~ In 45 (DocumentIDGenerator.prefix self) ->
    DocumentIDGenerator.parse_id
      (DocumentIDGenerator._generate_id self canonical)
    = Some {| DocumentIDGenerator.parsed_prefix :=
                DocumentIDGenerator.prefix self;
              DocumentIDGenerator.parsed_type :=
                DocumentType.value (document_type canonical);
              DocumentIDGenerator.parsed_hash :=
                DocumentIDGenerator.hash16 (canonical_string canonical);
              DocumentIDGenerator.parsed_document_type :=
                Some (document_type canonical) |}.
Proof.
  intros self canonical H. unfold DocumentIDGenerator.parse_id.
  rewrite (generated_id_split self canonical H), find_member. reflexivity.
Qed.

Lemma parse_id_of_generated_witness :
  DocumentIDGenerator.parse_id
    (DocumentIDGenerator._generate_id DocumentIDGenerator.default
       {| document_type := DocumentType.RECEIPT;
          canonical_string := PyStr.lit "5213017228|2025-01-15|45.99" |})
  = Some {| DocumentIDGenerator.parsed_prefix := PyStr.lit "DOC";
            DocumentIDGenerator.parsed_type := PyStr.lit "PAR";
            DocumentIDGenerator.parsed_hash :=
              DocumentIDGenerator.hash16
                (PyStr.lit "5213017228|2025-01-15|45.99");
            DocumentIDGenerator.parsed_document_type :=
              Some DocumentType.RECEIPT |}.
Proof.
  apply (parse_id_of_generated DocumentIDGenerator.default
           {| document_type := DocumentType.RECEIPT;
              canonical_string := PyStr.lit "5213017228|2025-01-15|45.99" |}).
  vm_compute. intros H.
  repeat (destruct H as [H|H]; [discriminate H|]). exact H.
Defined.

(** X7. An identifier verifies against the canonical string it was
    generated from exactly when the prefix of the generator holds no dash,
    and [parse_id] raises on it exactly when the prefix holds one. *)
Theorem dash_in_prefix_breaks_own_ids :
  forall (self : DocumentIDGenerator.t) (canonical : CanonicalData),
    (DocumentIDGenerator.verify_id self
       (DocumentIDGenerator._generate_id self canonical)
       (canonical_string canonical) = true
     <-> ~ In 45 (DocumentIDGenerator.prefix self))
    /\ (DocumentIDGenerator.parse_id
          (DocumentIDGenerator._generate_id self canonical) = None
        <-> In 45 (DocumentIDGenerator.prefix self)).
Proof.
  intros self canonical.
  pose proof (split_length 45
                (DocumentIDGenerator._generate_id self canonical)) as L.
  rewrite generated_id_dashes in L.
  destruct (List.in_dec N.eq_dec 45 (DocumentIDGenerator.prefix self))
    as [Hin|Hnot].
  - assert (count_char 45 (DocumentIDGenerator.prefix self) <> 0%nat) as Hc.
    { intros C. apply count_char_zero in C. contradiction. }
    unfold DocumentIDGenerator.verify_id, DocumentIDGenerator.parse_id.
    destruct (PyStr.split 45 _) as [|p [|k [|h [|? ?]]]];
      simpl in L; try lia.
    split; [split; [discriminate|contradiction]|tauto].
  - unfold DocumentIDGenerator.verify_id, DocumentIDGenerator.parse_id.
    rewrite (generated_id_split self canonical Hnot), eqb_refl.
    split; [tauto|]. split; [discriminate|contradiction].
Qed.

(** X8. [parse_id] raises exactly on the texts that do not hold two
    dashes. When it returns, its three pieces joined by dashes are the
    input, and the document type is [dt] exactly when the middle piece is
    the code of [dt]: an unknown code gives no type, not an error. *)
Theorem parse_id_pieces :
  forall document_id : PyStr.str,
    (DocumentIDGenerator.parse_id document_id = None
     <-> count_char 45 document_id <> 2%nat)
    /\ forall r : DocumentIDGenerator.ParsedID,
         DocumentIDGenerator.parse_id document_id = Some r ->
         document_id
         = DocumentIDGenerator.parsed_prefix r
           ++ 45 :: DocumentIDGenerator.parsed_type r
           ++ 45 :: DocumentIDGenerator.parsed_hash r
         /\ forall dt : DocumentType.t,
              DocumentIDGenerator.parsed_document_type r = Some dt
              <-> DocumentType.value dt = DocumentIDGenerator.parsed_type r.
Proof.
  intros document_id.
  pose proof (split_length 45 document_id) as L.
  unfold DocumentIDGenerator.parse_id.
  destruct (PyStr.split 45 document_id) as [|p [|k [|h [|? ?]]]] eqn:E;
    simpl in L.
  - lia.
  - split; [split; [lia|reflexivity]|discriminate].
  - split; [split; [lia|reflexivity]|discriminate].
  - split; [split; [discriminate|lia]|].
    intros r H. injection H as <-. simpl.
    apply split_three in E. destruct E as (-> & _). split; [reflexivity|].
    intros dt. apply find_type_code.
  - split; [split; [lia|reflexivity]|discriminate].
Qed.

(** X9. Two identifiers of one generator are equal exactly when the
    document types are equal and the hash parts are: identifiers of
    different types never coincide. *)
Theorem generated_ids_equal_iff :
  forall (self : DocumentIDGenerator.t) (c1 c2 : CanonicalData),
    DocumentIDGenerator._generate_id self c1
    = DocumentIDGenerator._generate_id self c2
    <-> document_type c1 = document_type c2
        /\ DocumentIDGenerator.hash16 (canonical_string c1)
           = DocumentIDGenerator.hash16 (canonical_string c2).
Proof.
  intros self c1 c2. unfold DocumentIDGenerator._generate_id. split.
  - intros H. apply List.app_inv_head in H. injection H as H.
    assert (PyStr.split 45
              (DocumentType.value (document_type c1)
               ++ 45 :: DocumentIDGenerator.hash16 (canonical_string c1))
            = PyStr.split 45
                (DocumentType.value (document_type c2)
                 ++ 45 :: DocumentIDGenerator.hash16 (canonical_string c2)))
      as S by (rewrite H; reflexivity).
    rewrite !split_app in S by apply value_no_dash.
    injection S as Hv _. apply value_inj in Hv. split; [exact Hv|].
    rewrite Hv in H. apply List.app_inv_head in H. injection H as H.
    exact H.
  - intros [-> ->]. reflexivity.
Qed.

(** ** The generators of the other document types *)

Section Generators.
Import PyStr DocumentIDGenerator.

Lemma md5_step_length (m st : list N) (i : nat) :
  List.length (MD5.step m st i) = List.length st.
Proof.
  unfold MD5.step. destruct st as [|a [|b [|c [|d [|? ?]]]]]; reflexivity.
Qed.

Lemma md5_compress_length (st block : list N) :
  List.length (MD5.compress st block) = List.length st.
Proof.
  unfold MD5.compress.
  rewrite List.length_map, List.length_combine,
    (fold_left_length (MD5.step _)) by apply md5_step_length.
  lia.
Qed.

Lemma md5_digest_length (msg : list N) :
  List.length (MD5.digest msg) = 16%nat.
Proof.
  unfold MD5.digest. rewrite (flat_map_length_const _ 4).
  - rewrite (fold_left_length MD5.compress) by apply md5_compress_length.
    reflexivity.
  - intros x _. unfold MD5.le_bytes.
    rewrite List.length_map, List.length_seq. reflexivity.
Qed.

Lemma md5_digest_bytes (msg : list N) :
  Forall (fun b => b < 256) (MD5.digest msg).
Proof.
  unfold MD5.digest. apply List.Forall_forall. intros b Hb.
  apply List.in_flat_map in Hb. destruct Hb as (w & _ & Hb).
  unfold MD5.le_bytes in Hb. apply List.in_map_iff in Hb.
  destruct Hb as (i & <- & _). apply N.mod_lt. discriminate.
Qed.

Lemma hex_digit_lower (d : N) :
  d < 16 -> is_lower_hex (SHA256.hex_digit d) = true.
Proof.
  intros H. unfold SHA256.hex_digit, is_lower_hex.
  destruct (N.ltb_spec d 10); bool_goal; lia.
Qed.

(** The segment that stands for a name: eight lower-case hexadecimal
    digits. *)
Lemma name_hash_shape (name : str) :
  List.length (name_hash name) = 8%nat
  /\ Forall (fun c => is_lower_hex c = true) (name_hash name).
Proof.
  unfold name_hash, MD5.hexdigest. split.
  - rewrite List.length_firstn, hex_length, md5_digest_length. reflexivity.
  - apply List.Forall_forall. intros c Hc. apply in_firstn in Hc.
    apply hex_chars in Hc; [|apply md5_digest_bytes].
    destruct Hc as (d & Hd & ->). apply hex_digit_lower, Hd.
Qed.

Lemma join_snoc (sep : str) (parts : list str) (x : str) :
  parts <> [] -> join sep (parts ++ [x]) = join sep parts ++ sep ++ x.
Proof.
  induction parts as [|p [|q parts] IH]; intros H; [contradiction| |].
  - reflexivity.
  - change (join sep ((p :: q :: parts) ++ [x]))
      with (p ++ sep ++ join sep ((q :: parts) ++ [x])).
    rewrite IH by discriminate.
    change (join sep (p :: q :: parts))
      with (p ++ sep ++ join sep (q :: parts)).
    rewrite <- !List.app_assoc. reflexivity.
Qed.

Lemma append_if_parts (o : option str) (f : str -> str) (parts : list str) :
  parts <> [] -> append_if o f parts <> [].
Proof.
  intros H. destruct o as [[|c x]|]; simpl; try exact H.
  destruct parts; [contradiction|discriminate].
Qed.

End Generators.

(** X10. On the same arguments [generate_invoice_id] and
    [generate_bill_id] raise together, or return identifiers with the same
    hash part that differ by the codes [FV] and [RAC] only. *)
Theorem bill_id_has_invoice_hash :
  forall (self : DocumentIDGenerator.t) (pads_year : bool)
         (nip number : PyStr.str) (issue_date : DateNormalizer.date_arg)
         (gross_amount : AmountNormalizer.amount),
    (DocumentIDGenerator.generate_invoice_id self pads_year nip number
       issue_date gross_amount = None
     /\ DocumentIDGenerator.generate_bill_id self pads_year nip number
          issue_date gross_amount = None)
    \/ exists h : PyStr.str,
         DocumentIDGenerator.generate_invoice_id self pads_year nip number
           issue_date gross_amount
         = Some (DocumentIDGenerator.prefix self ++ PyStr.lit "-FV-" ++ h)
         /\ DocumentIDGenerator.generate_bill_id self pads_year nip number
              issue_date gross_amount
            = Some (DocumentIDGenerator.prefix self
                    ++ PyStr.lit "-RAC-" ++ h).
Proof.
  intros self pads_year nip number issue_date amount.
  unfold DocumentIDGenerator.generate_invoice_id,
    DocumentIDGenerator.generate_bill_id,
    DocumentIDGenerator.invoice_canonical,
    DocumentIDGenerator.bill_canonical.
  destruct (AmountNormalizer.normalize amount) as [a|];
    [right|left; split; reflexivity].
  eexists. split; reflexivity.
Qed.

(** X11. An optional field is not told apart from its neighbour: the
    receipt with the receipt number [x] and no register number has the
    identifier of the receipt with no receipt number and the register
    number [x]; likewise the number and the type of a contract. *)
Theorem optional_fields_not_told_apart :
  forall (self : DocumentIDGenerator.t) (pads_year : bool)
         (x : PyStr.str),
    (forall (seller_nip : PyStr.str) (receipt_date : DateNormalizer.date_arg)
            (gross_amount : AmountNormalizer.amount),
       DocumentIDGenerator.generate_receipt_id self pads_year seller_nip
         receipt_date gross_amount (Some x) None
       = DocumentIDGenerator.generate_receipt_id self pads_year seller_nip
           receipt_date gross_amount None (Some x))
    /\ (forall (party1_nip party2_nip : PyStr.str)
               (contract_date : DateNormalizer.date_arg),
          DocumentIDGenerator.generate_contract_id self pads_year party1_nip
            party2_nip contract_date (Some x) None
          = DocumentIDGenerator.generate_contract_id self pads_year
              party1_nip party2_nip contract_date None (Some x)).
Proof.
  intros self pads_year x. split.
  - intros seller_nip receipt_date amount.
    unfold DocumentIDGenerator.generate_receipt_id,
      DocumentIDGenerator.receipt_canonical.
    destruct (AmountNormalizer.normalize amount); [|reflexivity].
    destruct x; reflexivity.
  - intros party1_nip party2 contract_date.
    unfold DocumentIDGenerator.generate_contract_id,
      DocumentIDGenerator.contract_canonical.
    destruct x; reflexivity.
Qed.

(** X12. For fields of code points below U+0180: generating an invoice
    identifier from the normalized fields gives the identifier of the raw
    fields, when the normalized tax number does not start with two letters
    [A-Z], the normalized date does not start with the digit 0 (or
    [strftime] pads the year), and the amount is not a float NaN and is
    one that [AmountNormalizer.normalize] returns for. *)
Theorem invoice_id_from_normalized_fields :
  forall (self : DocumentIDGenerator.t) (pads_year : bool)
         (seller_nip invoice_number issue_date : PyStr.str)
         (gross_amount : AmountNormalizer.amount) (a : PyStr.str),
    basic seller_nip -> basic invoice_number -> basic issue_date ->
    basic_amount gross_amount ->
    starts_with_country (NIPValidator.normalize seller_nip) = false ->
    pads_year = true
    \/ List.head (DateNormalizer.normalize_str pads_year issue_date)
       <> Some 48 ->
    not_nan gross_amount ->
    AmountNormalizer.normalize gross_amount = Some a ->
    DocumentIDGenerator.generate_invoice_id self pads_year
      (NIPValidator.normalize seller_nip)
      (InvoiceNumberNormalizer.normalize invoice_number)
      (DateNormalizer.DStr
         (DateNormalizer.normalize_str pads_year issue_date))
      (AmountNormalizer.AStr a)
    = DocumentIDGenerator.generate_invoice_id self pads_year seller_nip
        invoice_number (DateNormalizer.DStr issue_date) gross_amount.
Proof.
  intros self pads_year seller_nip invoice_number issue_date gross_amount a
    _ _ _ _ Hn Hd Ha Hg.
  unfold DocumentIDGenerator.generate_invoice_id,
    DocumentIDGenerator.invoice_canonical.
  rewrite Hg. cbn [AmountNormalizer.normalize DateNormalizer.normalize].
  rewrite (amount_result_fixed gross_amount a Ha Hg).
  rewrite (proj2 (nip_idempotent_iff seller_nip) Hn).
  rewrite invoice_number_idempotent.
  rewrite (date_idempotent pads_year issue_date Hd).
  reflexivity.
Qed.

Lemma invoice_id_from_normalized_fields_witness :
  DocumentIDGenerator.generate_invoice_id DocumentIDGenerator.default false
    (NIPValidator.normalize (PyStr.lit "PL 521-301-72-28"))
    (InvoiceNumberNormalizer.normalize (PyStr.lit "fv 2025 142"))
    (DateNormalizer.DStr
       (DateNormalizer.normalize_str false (PyStr.lit "15.01.2025")))
    (AmountNormalizer.AStr (PyStr.lit "1230.50"))
  = DocumentIDGenerator.generate_invoice_id DocumentIDGenerator.default false
      (PyStr.lit "PL 521-301-72-28") (PyStr.lit "fv 2025 142")
      (DateNormalizer.DStr (PyStr.lit "15.01.2025"))
      (AmountNormalizer.AFloat (PyStr.lit "1230.5")).
Proof.
  apply (invoice_id_from_normalized_fields DocumentIDGenerator.default false
           (PyStr.lit "PL 521-301-72-28") (PyStr.lit "fv 2025 142")
           (PyStr.lit "15.01.2025")
           (AmountNormalizer.AFloat (PyStr.lit "1230.5"))
           (PyStr.lit "1230.50")).
  - unfold basic. repeat constructor.
  - unfold basic. repeat constructor.
  - unfold basic. repeat constructor.
  - unfold basic_amount, basic. repeat constructor.
  - vm_compute. reflexivity.
  - right. vm_compute. discriminate.
  - exists false, 12305, (-1)%Z. vm_compute. reflexivity.
  - vm_compute. reflexivity.
Defined.

(** X13. A payer name adds one segment to the canonical string of a
    cash receipt, the first eight hexadecimal digits, in lower case, of
    the MD5 of the stripped and upper-cased name; the rest is the
    canonical string of the same call without a name. *)
Theorem cash_receipt_name_segment :
  forall (pads_year : bool) (document_number : PyStr.str)
         (document_date : DateNormalizer.date_arg)
         (amount : AmountNormalizer.amount)
         (issuer_nip : option PyStr.str) (payer_name a : PyStr.str),
    AmountNormalizer.normalize amount = Some a ->
    payer_name <> [] ->
    exists without h : PyStr.str,
      DocumentIDGenerator.cash_receipt_canonical pads_year document_number
        document_date amount issuer_nip None
      = Some {| document_type := DocumentType.CASH_IN;
                canonical_string := without |}
      /\ DocumentIDGenerator.cash_receipt_canonical pads_year
           document_number document_date amount issuer_nip
           (Some payer_name)
         = Some {| document_type := DocumentType.CASH_IN;
                   canonical_string := without ++ 124 :: h |}
      /\ h = List.firstn 8
               (MD5.hexdigest (PyStr.upper (PyStr.strip payer_name)))
      /\ List.length h = 8%nat
      /\ Forall (fun c => is_lower_hex c = true) h.
Proof.
  intros pads_year document_number document_date amount issuer_nip
    payer_name a Ha Hp.
  unfold DocumentIDGenerator.cash_receipt_canonical. rewrite Ha.
  destruct payer_name as [|c name]; [contradiction|].
  eexists. exists (DocumentIDGenerator.name_hash (c :: name)).
  split; [reflexivity|]. split.
  - cbn [DocumentIDGenerator.append_if]. rewrite join_snoc.
    + reflexivity.
    + apply append_if_parts. discriminate.
  - split; [reflexivity|]. apply name_hash_shape.
Qed.

Lemma cash_receipt_name_segment_witness :
  exists without h : PyStr.str,
    DocumentIDGenerator.cash_receipt_canonical true (PyStr.lit "kp/1/2025")
      (DateNormalizer.DStr (PyStr.lit "15.01.2025"))
      (AmountNormalizer.AInt 100) None None
    = Some {| document_type := DocumentType.CASH_IN;
              canonical_string := without |}
    /\ DocumentIDGenerator.cash_receipt_canonical true
         (PyStr.lit "kp/1/2025")
         (DateNormalizer.DStr (PyStr.lit "15.01.2025"))
         (AmountNormalizer.AInt 100) None (Some (PyStr.lit "Jan Kowalski"))
       = Some {| document_type := DocumentType.CASH_IN;
                 canonical_string := without ++ 124 :: h |}
    /\ h = List.firstn 8
             (MD5.hexdigest
                (PyStr.upper (PyStr.strip (PyStr.lit "Jan Kowalski"))))
    /\ List.length h = 8%nat
    /\ Forall (fun c => is_lower_hex c = true) h.
Proof.
  apply (cash_receipt_name_segment true (PyStr.lit "kp/1/2025")
           (DateNormalizer.DStr (PyStr.lit "15.01.2025"))
           (AmountNormalizer.AInt 100) None (PyStr.lit "Jan Kowalski")
           (PyStr.lit "100.00")).
  - vm_compute. reflexivity.
  - discriminate.
Defined.

(** ** The pipeline: batches and verification *)

Section Batches.
Import PyStr DocumentPipeline.

(** What one call of [process] returns and leaves in the cache. *)
Lemma process_inv self pads_year force ex ocr self' doc :
  process self pads_year force ex ocr = Some (self', doc) ->
  exists i c,
    _generate_id self pads_year ex
      match force with
      | Some ty => ty
      | None => _map_category_to_type (category ex)
      end ocr = Some (i, c)
    /\ document_id doc = i /\ doc_canonical_string doc = c
    /\ id_generator self' = id_generator self
    /\ match _processed_ids self !! c with
       | Some existing =>
           _processed_ids self' = _processed_ids self
           /\ is_duplicate doc = true /\ duplicate_of doc = Some existing
       | None =>
           _processed_ids self' = <[c := i]> (_processed_ids self)
           /\ is_duplicate doc = false /\ duplicate_of doc = None
       end.
Proof.
  unfold process. intros H.
  destruct (_generate_id self pads_year ex _ ocr) as [[i c]|] eqn:G;
    [|discriminate].
  exists i, c. split; [reflexivity|].
  destruct (_processed_ids self !! c) as [existing|] eqn:E;
    injection H as <- <-; simpl; rewrite ?E; auto 10.
Qed.

Lemma generate_id_same_generator self self' pads_year ex ty ocr :
  id_generator self' = id_generator self ->
  _generate_id self' pads_year ex ty ocr
  = _generate_id self pads_year ex ty ocr.
Proof.
  intros H. destruct self' as [g cache]. simpl in H. subst g.
  apply _generate_id_cache.
Qed.

(** Processing leaves the canonical string of the document in the
    cache, with the identifier that [duplicate_of] or the document
    names. *)
Lemma process_registers self pads_year force ex ocr self' doc :
  process self pads_year force ex ocr = Some (self', doc) ->
  _processed_ids self' !! doc_canonical_string doc
  = Some match duplicate_of doc with
         | Some existing => existing
         | None => document_id doc
         end.
Proof.
  intros H. apply process_inv in H.
  destruct H as (i & c & _ & -> & -> & _ & H).
  destruct (_processed_ids self !! c) as [existing|] eqn:E.
  - destruct H as (-> & _ & ->). exact E.
  - destruct H as (-> & _ & ->). apply lookup_insert_eq.
Qed.

Lemma process_twice self pads_year force ex ocr s1 d1 :
  process self pads_year force ex ocr = Some (s1, d1) ->
  exists s2 d2,
    process s1 pads_year force ex ocr = Some (s2, d2)
    /\ is_duplicate d2 = true
    /\ duplicate_of d2
       = Some match duplicate_of d1 with
              | Some existing => existing
              | None => document_id d1
              end
    /\ document_id d2 = document_id d1
    /\ doc_canonical_string d2 = doc_canonical_string d1
    /\ _processed_ids s2 = _processed_ids s1.
Proof.
  intros H. pose proof (process_registers _ _ _ _ _ _ _ H) as R.
  apply process_inv in H.
  destruct H as (i & c & G & Hi & Hc & Hg & _).
  destruct (process_total s1 pads_year force ex ocr) as [[s2 d2] P].
  exists s2, d2. split; [exact P|].
  apply process_inv in P. destruct P as (i' & c' & G' & Hi' & Hc' & _ & P).
  rewrite (generate_id_same_generator self s1) in G' by exact Hg.
  rewrite G in G'. injection G' as <- <-.
  rewrite <- Hc, R in P. destruct P as (-> & -> & ->).
  repeat split; congruence.
Qed.

(** The cache only grows along a batch. *)
Lemma process_batch_keeps_entries pads_year skip files :
  forall self k v,
    _processed_ids self !! k = Some v ->
    _processed_ids (fst (process_batch self pads_year files skip)) !! k
    = Some v.
Proof.
  induction files as [|[[ex ocr]|] files IH]; intros self k v H; simpl;
    [exact H| |apply IH, H].
  destruct (process self pads_year None ex ocr) as [[self' d]|] eqn:P;
    [|apply IH, H].
  pose proof (process_keeps_entries _ _ _ _ _ _ _ _ _ P H) as H'.
  specialize (IH self' k v H').
  destruct (process_batch self' pads_year files skip) as [final results].
  destruct (skip && is_duplicate d); exact IH.
Qed.

End Batches.

(** X14. Processing a document twice in a row: both calls return, the
    second returns the same identifier, flags it as a duplicate of the
    identifier the cache holds after the first call (the one the first
    document duplicated, or its own), and leaves the cache as it was. *)
Theorem process_again_is_duplicate :
  forall (self : DocumentPipeline.t) (pads_year : bool)
         (force_type : option DocumentType.t) (ex : ExtractionResult)
         (ocr : DocumentOCRResult),
    exists (s1 : DocumentPipeline.t) (d1 : ProcessedDocument)
           (s2 : DocumentPipeline.t) (d2 : ProcessedDocument),
      DocumentPipeline.process self pads_year force_type ex ocr
      = Some (s1, d1)
      /\ DocumentPipeline.process s1 pads_year force_type ex ocr
         = Some (s2, d2)
      /\ is_duplicate d2 = true
      /\ duplicate_of d2
         = Some match duplicate_of d1 with
                | Some existing => existing
                | None => document_id d1
                end
      /\ document_id d2 = document_id d1
      /\ DocumentPipeline._processed_ids s2
         = DocumentPipeline._processed_ids s1.
Proof.
  intros self pads_year force_type ex ocr.
  destruct (process_total self pads_year force_type ex ocr) as [[s1 d1] P].
  destruct (process_twice _ _ _ _ _ _ _ P)
    as (s2 & d2 & P2 & Hd & Ho & Hi & _ & Hc).
  exists s1, d1, s2, d2. auto 10.
Qed.

(** X15. [verify_document] returns whether the identifier that
    [process] computes is the expected one, [get_canonical_string] returns
    the canonical string, and both leave the pipeline as [process] does:
    processing the same document afterwards flags it as a duplicate. *)
Theorem verify_document_registers :
  forall (self : DocumentPipeline.t) (pads_year : bool)
         (ex : ExtractionResult) (ocr : DocumentOCRResult)
         (expected_id : PyStr.str),
    exists (s1 : DocumentPipeline.t) (d : ProcessedDocument),
      DocumentPipeline.process self pads_year None ex ocr = Some (s1, d)
      /\ DocumentPipeline.verify_document self pads_year ex ocr expected_id
         = Some (s1, PyStr.eqb (document_id d) expected_id)
      /\ DocumentPipeline.get_canonical_string self pads_year ex ocr
         = Some (s1, doc_canonical_string d)
      /\ exists (s2 : DocumentPipeline.t) (d2 : ProcessedDocument),
           DocumentPipeline.process s1 pads_year None ex ocr
           = Some (s2, d2)
           /\ is_duplicate d2 = true
           /\ document_id d2 = document_id d.
Proof.
  intros self pads_year ex ocr expected_id.
  destruct (process_total self pads_year None ex ocr) as [[s1 d] P].
  exists s1, d. split; [exact P|].
  unfold DocumentPipeline.verify_document,
    DocumentPipeline.get_canonical_string. rewrite P.
  split; [reflexivity|]. split; [reflexivity|].
  destruct (process_twice _ _ _ _ _ _ _ P)
    as (s2 & d2 & P2 & Hd & _ & Hi & _).
  exists s2, d2. auto.
Qed.

(** X16. With [skip_duplicates], [process_batch] returns only documents
    that are not flagged as duplicates; their canonical strings are
    pairwise different, none was in the cache before the batch, and after
    the batch the cache maps each to the identifier of its document. *)
Theorem process_batch_without_duplicates :
  forall (self : DocumentPipeline.t) (pads_year : bool)
         (file_paths : list (option (ExtractionResult * DocumentOCRResult))),
    Forall (fun d =>
              is_duplicate d = false
              /\ DocumentPipeline._processed_ids self
                 !! doc_canonical_string d = None
              /\ DocumentPipeline._processed_ids
                   (fst (DocumentPipeline.process_batch self pads_year
                           file_paths true))
                 !! doc_canonical_string d
                 = Some (document_id d))
           (snd (DocumentPipeline.process_batch self pads_year file_paths
                   true))
    /\ List.NoDup
         (List.map doc_canonical_string
            (snd (DocumentPipeline.process_batch self pads_year file_paths
                    true))).
Proof.
  intros self pads_year file_paths. revert self.
  induction file_paths as [|[[ex ocr]|] files IH]; intros self; simpl.
  - split; constructor.
  - destruct (DocumentPipeline.process self pads_year None ex ocr) as [[self' d]|] eqn:P;
      [|apply IH].
    specialize (IH self').
    pose proof (process_batch_keeps_entries pads_year true files self') as K.
    destruct (DocumentPipeline.process_batch self' pads_year files true) as [final results].
    simpl in IH, K. destruct IH as [F D].
    assert (Forall (fun d0 =>
                      is_duplicate d0 = false
                      /\ DocumentPipeline._processed_ids self !! doc_canonical_string d0 = None
                      /\ DocumentPipeline._processed_ids final !! doc_canonical_string d0
                         = Some (document_id d0)) results) as F'.
    { eapply List.Forall_impl; [|exact F]. intros d0 (H1 & H2 & H3).
      repeat split; try assumption.
      destruct (DocumentPipeline._processed_ids self !! doc_canonical_string d0) as [v|] eqn:E;
        [|reflexivity].
      rewrite (process_keeps_entries _ _ _ _ _ _ _ _ _ P E) in H2.
      discriminate. }
    pose proof (process_registers _ _ _ _ _ _ _ P) as R.
    apply process_inv in P.
    destruct P as (i & c & _ & <- & <- & _ & P).
    destruct (DocumentPipeline._processed_ids self !! doc_canonical_string d)
      as [existing|] eqn:E.
    + destruct P as (_ & -> & _). simpl. split; assumption.
    + destruct P as (_ & Hd & Ho). rewrite Hd. simpl. rewrite Ho in R.
      split.
      * constructor; [|exact F'].
        repeat split; try assumption. apply K. exact R.
      * constructor; [|exact D]. intros Hin.
        apply List.in_map_iff in Hin. destruct Hin as (d0 & Hd0 & Hin).
        pose proof (proj1 (List.Forall_forall _ _) F d0 Hin) as (_ & H2 & _).
        rewrite Hd0, R in H2. discriminate.
  - apply IH.
Qed.

(** X17. [skip_duplicates] only filters: with it [process_batch]
    leaves the same cache and returns the documents not flagged as
    duplicates among those it returns without it. Without it the batch is
    the calls of [process] on the files whose text and extraction are
    delivered, one after the other on the same pipeline: it returns their
    results, all of them and in that order, and leaves the cache they
    leave. *)
Theorem process_batch_skip_only_filters :
  forall (self : DocumentPipeline.t) (pads_year : bool)
         (file_paths : list (option (ExtractionResult * DocumentOCRResult))),
    DocumentPipeline.process_batch self pads_year file_paths true
    = (fst (DocumentPipeline.process_batch self pads_year file_paths false),
       List.filter (fun d => negb (is_duplicate d))
         (snd (DocumentPipeline.process_batch self pads_year file_paths
                 false)))
    /\ process_all self pads_year (delivered file_paths)
       = Some (DocumentPipeline.process_batch self pads_year file_paths
                 false).
Proof.
  intros self pads_year file_paths. revert self.
  induction file_paths as [|[[ex ocr]|] files IH]; intros self; simpl.
  - split; reflexivity.
  - unfold process_request. simpl.
    destruct (process_total self pads_year None ex ocr) as [[self' d] P].
    rewrite P. destruct (IH self') as [E L]. rewrite E, L.
    destruct (DocumentPipeline.process_batch self' pads_year files false)
      as [final results].
    simpl. destruct (is_duplicate d); split; reflexivity.
  - apply IH.
Qed.

(** ** What the normalizers return *)

Section Outputs.
Import PyStr PyDecimal.

Lemma strip_by_prefix (p : N -> bool) (s : str) :
  exists b, lstrip_by p s = strip_by p s ++ b.
Proof.
  unfold strip_by.
  destruct (lstrip_by_suffix p (List.rev (lstrip_by p s))) as [pre H].
  exists (List.rev pre).
  rewrite <- List.rev_app_distr, <- H, List.rev_involutive. reflexivity.
Qed.

(** A stripped text neither starts nor ends in the class. *)
Lemma strip_by_ends (p : N -> bool) (s : str) :
  match strip_by p s with c :: _ => p c = false | [] => True end
  /\ match List.rev (strip_by p s) with
     | c :: _ => p c = false
     | [] => True
     end.
Proof.
  split.
  - destruct (strip_by_prefix p s) as [b H].
    pose proof (lstrip_by_head p s) as L. rewrite H in L.
    destruct (strip_by p s); [exact I|exact L].
  - unfold strip_by. rewrite List.rev_involutive. apply lstrip_by_head.
Qed.

Lemma filter_digits_upper_cp (c : N) :
  List.filter isdigit (upper_cp c) = if isdigit c then [c] else [].
Proof.
  destruct (N.ltb_spec c 384) as [H|H].
  - assert (List.forallb
              (fun c => eqb (List.filter isdigit (upper_cp c))
                          (if isdigit c then [c] else []))
              (List.map N.of_nat (List.seq 0 384)) = true) as K
      by (vm_compute; reflexivity).
    apply eqb_eq.
    exact (below_forallb
             (fun c => eqb (List.filter isdigit (upper_cp c))
                         (if isdigit c then [c] else [])) 384 K c H).
  - rewrite upper_cp_high by exact H. simpl.
    destruct (isdigit c); reflexivity.
Qed.

Lemma filter_digits_upper (s : str) :
  List.filter isdigit (upper s) = List.filter isdigit s.
Proof.
  unfold upper. induction s as [|c s IH]; [reflexivity|].
  cbn [List.flat_map List.filter].
  rewrite List.filter_app, IH, filter_digits_upper_cp.
  destruct (isdigit c); reflexivity.
Qed.

Lemma filter_digits_remove_class (p : N -> bool) (s : str) :
  (forall c, isdigit c = true -> p c = false) ->
  List.filter isdigit (remove_class p s) = List.filter isdigit s.
Proof.
  intros H. unfold remove_class. induction s as [|c s IH]; [reflexivity|].
  cbn [List.filter]. destruct (isdigit c) eqn:E.
  - rewrite (H c E). cbn [negb List.filter]. rewrite E, IH. reflexivity.
  - destruct (p c); cbn [negb List.filter]; rewrite ?E; exact IH.
Qed.

Lemma filter_digits_strip_country (s : str) :
  List.filter isdigit (NIPValidator.strip_country s) = List.filter isdigit s.
Proof.
  unfold NIPValidator.strip_country. destruct s as [|a [|b t]];
    try reflexivity.
  destruct (is_AZ a) eqn:Ea; [|reflexivity].
  destruct (is_AZ b) eqn:Eb; [|reflexivity].
  cbn [andb List.filter].
  replace (isdigit a) with false.
  2:{ unfold is_AZ in Ea. unfold isdigit. symmetry. bool_hyps.
      bool_goal; lia. }
  replace (isdigit b) with false; [reflexivity|].
  unfold is_AZ in Eb. unfold isdigit. symmetry. bool_hyps. bool_goal; lia.
Qed.

End Outputs.

(** X18. On an input of code points below U+0180,
    [NIPValidator.normalize] keeps the ASCII digits of its input, all of
    them and in their order, and returns no white space, dash or dot. *)
Theorem nip_normalize_keeps_digits :
  forall nip : PyStr.str,
    basic nip ->
    List.filter PyStr.isdigit (NIPValidator.normalize nip)
    = List.filter PyStr.isdigit nip
    /\ Forall (fun c => NIPValidator.is_sep c = false)
         (NIPValidator.normalize nip).
Proof.
  intros nip _. split.
  - unfold NIPValidator.normalize. destruct nip as [|c nip]; [reflexivity|].
    rewrite filter_digits_remove_class, filter_digits_strip_country,
      filter_digits_upper; [reflexivity|].
    intros x Hx. unfold PyStr.isdigit in Hx.
    unfold NIPValidator.is_sep, PyStr.isspace. bool_hyps. bool_goal; lia.
  - apply List.Forall_forall. intros x Hx.
    apply (nip_normalize_clean nip x Hx).
Qed.

Lemma nip_normalize_keeps_digits_witness :
  List.filter PyStr.isdigit
    (NIPValidator.normalize (PyStr.lit "pl 521-301.72 28"))
  = PyStr.lit "5213017228".
Proof.
  apply (nip_normalize_keeps_digits (PyStr.lit "pl 521-301.72 28")).
  unfold basic. repeat constructor.
Defined.

(** X19. On an input of code points below U+0180, what
    [InvoiceNumberNormalizer.normalize] returns holds no
    white space, dash or underscore, is left alone by [upper], has no two
    neighbouring slashes, and neither starts nor ends with a slash. *)
Theorem invoice_number_normal_form :
  forall number : PyStr.str,
    basic number ->
    Forall (fun c => InvoiceNumberNormalizer.is_sep c = false)
      (InvoiceNumberNormalizer.normalize number)
    /\ PyStr.upper (InvoiceNumberNormalizer.normalize number)
       = InvoiceNumberNormalizer.normalize number
    /\ no_double 47 (InvoiceNumberNormalizer.normalize number) = true
    /\ List.head (InvoiceNumberNormalizer.normalize number) <> Some 47
    /\ List.last (InvoiceNumberNormalizer.normalize number) 0 <> 47.
Proof.
  intros number _. unfold InvoiceNumberNormalizer.normalize.
  destruct number as [|c0 n0].
  { repeat split; try constructor; discriminate. }
  set (u := PyStr.strip (PyStr.upper (c0 :: n0))).
  set (v := PyStr.sub_runs InvoiceNumberNormalizer.is_sep 47 u).
  set (w := PyStr.sub_runs (N.eqb 47) 47 v).
  assert (forall x, In x u -> PyStr.upper_cp x = [x]) as Uu.
  { intros x Hx. apply in_strip_by in Hx.
    pose proof (upper_fixed (c0 :: n0)) as F.
    rewrite List.Forall_forall in F. exact (F x Hx). }
  assert (forall x, In x v ->
                    PyStr.upper_cp x = [x]
                    /\ InvoiceNumberNormalizer.is_sep x = false) as Vv.
  { intros x Hx. apply sub_runs_from_chars in Hx.
    destruct Hx as [->|[Hx Hs]]; [split; reflexivity | auto]. }
  assert (forall x, In x (PyStr.strip_char 47 w) ->
                    PyStr.upper_cp x = [x]
                    /\ InvoiceNumberNormalizer.is_sep x = false) as Rr.
  { intros x Hx. apply in_strip_by in Hx. apply sub_runs_from_chars in Hx.
    destruct Hx as [->|[Hx _]]; [split; reflexivity | auto]. }
  split; [apply List.Forall_forall; intros x Hx; apply Rr, Hx|].
  split; [apply upper_id, List.Forall_forall; intros x Hx; apply Rr, Hx|].
  split.
  { destruct (strip_by_infix (N.eqb 47) w) as (a & b & E).
    apply (no_double_infix 47 a _ b). fold (PyStr.strip_char 47 w) in E.
    rewrite <- E. apply (collapse_no_double 47 false v). }
  destruct (strip_by_ends (N.eqb 47) w) as [Hh Hl].
  fold (PyStr.strip_char 47 w) in Hh, Hl. split.
  - destruct (PyStr.strip_char 47 w) as [|c r]; [discriminate|].
    simpl. intros [= ->]. discriminate Hh.
  - destruct (PyStr.strip_char 47 w) as [|c r] using List.rev_ind;
      [discriminate|].
    rewrite List.last_last. rewrite List.rev_app_distr in Hl. simpl in Hl.
    intros ->. discriminate Hl.
Qed.

Lemma invoice_number_normal_form_witness :
  PyStr.upper (InvoiceNumberNormalizer.normalize (PyStr.lit " fv_2025--142/ "))
  = InvoiceNumberNormalizer.normalize (PyStr.lit " fv_2025--142/ ").
Proof.
  apply (invoice_number_normal_form (PyStr.lit " fv_2025--142/ ")).
  unfold basic. repeat constructor.
Defined.

(** X20. On every string of code points below U+0180
    [AmountNormalizer.normalize] returns, and what it returns is an
    optional minus sign, one or more digits, a point and two digits. *)
Theorem amount_text_two_decimals :
  forall text : PyStr.str,
    basic text ->
    exists (neg : bool) (r : PyStr.str),
      AmountNormalizer.normalize (AmountNormalizer.AStr text) = Some r
      /\ two_decimals neg r.
Proof.
  intros text _. cbn [AmountNormalizer.normalize].
  rewrite normalize_str_finish. unfold finish.
  assert (two_decimals false (PyStr.lit "0.00")) as Z.
  { exists (PyStr.lit "0"), (PyStr.lit "00").
    repeat split; try discriminate; unfold all_digits; repeat constructor. }
  destruct (PyDecimal.of_str (cleaned text)) as [d|] eqn:E.
  - destruct (of_str_cleaned_finite text d E) as (neg & c & e & ->).
    destruct (PyDecimal.quantize_cents (PyDecimal.Finite neg c e))
      as [q|] eqn:Q.
    + destruct (quantize_cents_fixed neg c e q Q) as (c' & -> & _).
      exists neg. eexists. split; [reflexivity|]. apply to_str_two_decimals.
    + exists false. eexists. split; [reflexivity|exact Z].
  - exists false. eexists. split; [reflexivity|exact Z].
Qed.

Lemma amount_text_two_decimals_witness :
  exists (neg : bool) (r : PyStr.str),
    AmountNormalizer.normalize
      (AmountNormalizer.AStr (PyStr.lit "1 230,5 z" ++ [322]))
    = Some r
    /\ two_decimals neg r.
Proof.
  apply (amount_text_two_decimals (PyStr.lit "1 230,5 z" ++ [322])).
  unfold basic. repeat constructor.
Defined.

(** ** One date in the seven layouts *)

Ltac chars_equal :=
  repeat match goal with
         | E : [] = _ :: _ |- _ => discriminate E
         | E : _ :: _ = [] |- _ => discriminate E
         | E : _ :: _ = _ :: _ |- _ => injection E; clear E; intros
         | E : ?x = _ |- _ => is_var x; subst x
         | E : _ = ?x |- _ => is_var x; subst x
         end.

Ltac not_that_char :=
  match goal with
  | H : PyStr.isdigit ?c = true |- _ =>
      solve [vm_compute in H; discriminate H]
  | H : PyStr.isspace ?c = true, D : PyStr.isdigit ?c = true |- _ =>
      rewrite (digit_not_space c D) in H; discriminate H
  end.

Ltac read_directive :=
  match goal with
  | H : DateNormalizer.match_format (DateNormalizer.DirLit _ :: _) _ _
        = Some _ |- _ =>
      apply match_lit in H; destruct H as (? & ? & H)
  | H : DateNormalizer.match_format (DateNormalizer.DirY :: _) _ _
        = Some _ |- _ =>
      apply match_year in H;
      destruct H as (? & ? & ? & ? & ? & ? & ? & ? & ? & ? & H)
  | H : DateNormalizer.match_format (DateNormalizer.DirM :: _) _ _
        = Some _ |- _ =>
      let Hin := fresh "Hin" in
      apply match_month in H; destruct H as (? & ? & Hin & H);
      apply month_alts_in in Hin;
      destruct Hin as [(? & ? & ?)|(? & ? & ? & ? & ? & ?)]
  | H : DateNormalizer.match_format (DateNormalizer.DirD :: _) _ _
        = Some _ |- _ =>
      let Hin := fresh "Hin" in
      apply match_day in H; destruct H as (? & ? & Hin & H);
      apply day_alts_in in Hin;
      destruct Hin as [(? & ? & ?)|[(? & ? & ? & ? & ? & ?)|(? & ?)]]
  | H : DateNormalizer.match_format (DateNormalizer.DirSpace :: _) _ _
        = Some _ |- _ =>
      apply match_space in H; destruct H as (? & ? & ? & ?)
  end; chars_equal; try not_that_char; try discriminate.

Ltac format_fails :=
  apply strptime_no_match;
  match goal with
  | |- DateNormalizer.match_format ?f ?i ?o = None =>
      let M := fresh "M" in
      destruct (DateNormalizer.match_format f i o) as [?|] eqn:M;
      [exfalso; repeat read_directive | reflexivity]
  end.

Ltac skip_format EM ED :=
  match goal with
  | |- match DateNormalizer.strptime ?t ?f with _ => _ end = _ =>
      replace (DateNormalizer.strptime t f) with (@None (N * N * N))
        by (symmetry; rewrite ?EM, ?ED; cbn [app]; format_fails)
  end.

Section Layouts.
Import PyStr PyDecimal DateNormalizer.

Lemma small_cases (n : N) (k : nat) :
  n < N.of_nat k -> In n (List.map N.of_nat (List.seq 0 k)).
Proof.
  intros H. apply List.in_map_iff. exists (N.to_nat n).
  split; [apply N2Nat.id|]. apply List.in_seq. lia.
Qed.

(** The first alternative of [%d] that reads a day written with two
    digits reads both. *)
Lemma day_alts_two_digits (d : N) (rest : str) :
  1 <= d -> d <= 31 ->
  exists tl, day_alts (pad_to 2 (digits_of_N d) ++ rest) = (d, rest) :: tl.
Proof.
  intros H1 H2. assert (d < N.of_nat 32) as H by lia.
  apply small_cases in H. simpl in H.
  repeat (destruct H as [<-|H]; [try lia; eexists; reflexivity|]).
  contradiction.
Qed.

Lemma month_alts_two_digits (m : N) (rest : str) :
  1 <= m -> m <= 12 ->
  exists tl, month_alts (pad_to 2 (digits_of_N m) ++ rest) = (m, rest) :: tl.
Proof.
  intros H1 H2. assert (m < N.of_nat 13) as H by lia.
  apply small_cases in H. simpl in H.
  repeat (destruct H as [<-|H]; [try lia; eexists; reflexivity|]).
  contradiction.
Qed.

Lemma read_day (d : N) (f : list directive) (ymd : N * N * N)
    (rest : str) (r : N * N * N * str) :
  1 <= d -> d <= 31 ->
  match_format f (fst ymd, d) rest = Some r ->
  match_format (DirD :: f) ymd (pad_to 2 (digits_of_N d) ++ rest) = Some r.
Proof.
  intros H1 H2 H. destruct (day_alts_two_digits d rest H1 H2) as [tl E].
  cbn [match_format]. rewrite E. cbn [first_match fst snd]. rewrite H.
  reflexivity.
Qed.

Lemma read_month (m : N) (f : list directive) (ymd : N * N * N)
    (rest : str) (r : N * N * N * str) :
  1 <= m -> m <= 12 ->
  match_format f (fst (fst ymd), m, snd ymd) rest = Some r ->
  match_format (DirM :: f) ymd (pad_to 2 (digits_of_N m) ++ rest) = Some r.
Proof.
  intros H1 H2 H. destruct (month_alts_two_digits m rest H1 H2) as [tl E].
  cbn [match_format]. rewrite E. cbn [first_match fst snd]. rewrite H.
  reflexivity.
Qed.

Lemma read_year (a b c d : N) (f : list directive) (ymd : N * N * N)
    (rest : str) (r : N * N * N * str) :
  isdigit a = true -> isdigit b = true -> isdigit c = true ->
  isdigit d = true ->
  match_format f (int_of_digits [a; b; c; d], snd (fst ymd), snd ymd) rest
  = Some r ->
  match_format (DirY :: f) ymd (a :: b :: c :: d :: rest) = Some r.
Proof.
  intros Ha Hb Hc Hd H. cbn [match_format]. rewrite Ha, Hb, Hc, Hd.
  exact H.
Qed.

Lemma read_lit (c : N) (f : list directive) (ymd : N * N * N)
    (rest : str) (r : N * N * N * str) :
  match_format f ymd rest = Some r ->
  match_format (DirLit c :: f) ymd (c :: rest) = Some r.
Proof. intros H. cbn [match_format]. rewrite N.eqb_refl. exact H. Qed.

Lemma read_space (f : list directive) (ymd : N * N * N) (s : str)
    (r : N * N * N * str) :
  match s with x :: _ => isspace x = false | [] => False end ->
  match_format f ymd s = Some r ->
  match_format (DirSpace :: f) ymd (32 :: s) = Some r.
Proof.
  intros Hx H. cbn [match_format space_alts].
  change (isspace 32) with true. cbv iota.
  destruct s as [|x s]; [contradiction|].
  cbn [space_alts]. rewrite Hx. cbn [app first_match]. rewrite H.
  reflexivity.
Qed.

Lemma read_day_last (d : N) (ymd : N * N * N) :
  1 <= d -> d <= 31 ->
  match_format [DirD] ymd (pad_to 2 (digits_of_N d))
  = Some (fst ymd, d, []).
Proof.
  intros H1 H2. rewrite <- (List.app_nil_r (pad_to 2 (digits_of_N d))).
  apply read_day; [assumption..|reflexivity].
Qed.

Lemma normalize_of_match (pads_year : bool) (text : str) (y m d : N) :
  strip text = text ->
  first_match (strptime text) FORMATS = Some (y, m, d) ->
  normalize_str pads_year text = strftime pads_year y m d.
Proof.
  intros Hs Hm. unfold normalize_str. cbv zeta. rewrite Hs, Hm.
  reflexivity.
Qed.

Lemma strip_ends (s : str) :
  match s with c :: _ => isspace c = false | [] => True end ->
  match List.rev s with c :: _ => isspace c = false | [] => True end ->
  strip s = s.
Proof.
  intros Hh Hl. unfold strip, strip_by.
  rewrite (lstrip_by_fixed isspace s Hh).
  rewrite (lstrip_by_fixed isspace (List.rev s) Hl).
  apply List.rev_involutive.
Qed.

(** The digits of the three fields of a calendar date. *)
Lemma date_fields (y m d : N) :
  valid_date y m d = true ->
  (1 <= m /\ m <= 12 /\ 1 <= d /\ d <= 31)
  /\ (exists a b c dd,
        pad_to 4 (digits_of_N y) = [a; b; c; dd]
        /\ isdigit a = true /\ isdigit b = true /\ isdigit c = true
        /\ isdigit dd = true /\ int_of_digits [a; b; c; dd] = y)
  /\ (exists e f, pad_to 2 (digits_of_N m) = [e; f]
                  /\ isdigit e = true /\ isdigit f = true)
  /\ (exists g h, pad_to 2 (digits_of_N d) = [g; h]
                  /\ isdigit g = true /\ isdigit h = true).
Proof.
  intros V. unfold valid_date in V. bool_hyps.
  assert (d <= 31) as Hd.
  { unfold days_in_month in *.
    repeat match goal with
           | H : context [if ?b then _ else _] |- _ => destruct b
           end; lia. }
  split; [lia|].
  assert (forall n k, (1 <= k)%nat -> n < 10 ^ N.of_nat k ->
                      List.length (pad_to k (digits_of_N n)) = k
                      /\ all_digits (pad_to k (digits_of_N n))) as P.
  { intros n k Hk Hn. split.
    - apply pad_to_length, digits_length_lt; assumption.
    - apply pad_to_digits, digits_are_digits. }
  split; [|split].
  - destruct (P y 4%nat ltac:(lia) ltac:(simpl; lia)) as [L D].
    pose proof (pad_to_value 4 y) as Vy.
    destruct (pad_to 4 (digits_of_N y)) as [|a [|b [|c [|dd [|? ?]]]]];
      try discriminate L.
    unfold all_digits in D.
    repeat match goal with
           | H : Forall _ (_ :: _) |- _ => inversion H; subst; clear H
           end.
    exists a, b, c, dd. auto 10.
  - destruct (P m 2%nat ltac:(lia) ltac:(simpl; lia)) as [L D].
    destruct (pad_to 2 (digits_of_N m)) as [|e [|f [|? ?]]];
      try discriminate L.
    unfold all_digits in D.
    repeat match goal with
           | H : Forall _ (_ :: _) |- _ => inversion H; subst; clear H
           end.
    exists e, f. auto.
  - destruct (P d 2%nat ltac:(lia) ltac:(simpl; lia)) as [L D].
    destruct (pad_to 2 (digits_of_N d)) as [|g [|h [|? ?]]];
      try discriminate L.
    unfold all_digits in D.
    repeat match goal with
           | H : Forall _ (_ :: _) |- _ => inversion H; subst; clear H
           end.
    exists g, h. auto.
Qed.

End Layouts.

(** X21. For every calendar date (years 1 to 9999), the seven layouts
    of [FORMATS], written with a year of four digits and a month and a day
    of two, all normalize to the same text, the one [strftime] prints for
    the date. *)
Theorem date_layouts_agree :
  forall (pads_year : bool) (y m d : N),
    DateNormalizer.valid_date y m d = true ->
    Forall (fun text =>
              DateNormalizer.normalize_str pads_year text
              = DateNormalizer.strftime pads_year y m d)
           (layouts y m d).
Proof.
  intros pads_year y m d V.
  destruct (date_fields y m d V)
    as ((Hm1 & Hm2 & Hd1 & Hd2)
        & (a & b & c & dd & EY & Ha & Hb & Hc & Hdd & Vy)
        & (e & f & EM & He & Hf) & (g & h & ED & Hg & Hh)).
  pose proof (digit_not_space _ Ha) as Sa.
  pose proof (digit_not_space _ Hdd) as Sdd.
  pose proof (digit_not_space _ Hg) as Sg.
  pose proof (digit_not_space _ Hh) as Sh.
  pose proof (digit_not_space _ He) as Se.
  unfold layouts. cbv zeta. rewrite EY. cbn [app].
  assert (forall fmt text,
            DateNormalizer.match_format fmt (1900, 1, 1) text
            = Some (y, m, d, []) ->
            DateNormalizer.strptime text fmt = Some (y, m, d)) as Ok.
  { intros fmt text H. unfold DateNormalizer.strptime. rewrite H, V.
    reflexivity. }
  repeat apply List.Forall_cons; [ | | | | | | | apply List.Forall_nil].
  all: apply normalize_of_match;
    [ rewrite EM, ED; apply strip_ends; assumption
    | unfold DateNormalizer.FORMATS; cbn [DateNormalizer.first_match] ].
  - rewrite (Ok _ _); [reflexivity|].
    apply read_year; [assumption..|]. apply read_lit.
    apply read_month; [assumption..|]. apply read_lit.
    cbn [fst snd]. rewrite Vy. apply read_day_last; assumption.
  - do 1 skip_format EM ED. rewrite (Ok _ _); [reflexivity|].
    apply read_day; [assumption..|]. apply read_lit.
    apply read_month; [assumption..|]. apply read_lit.
    apply read_year; [assumption..|]. cbn [fst snd]. rewrite Vy.
    reflexivity.
  - do 2 skip_format EM ED. rewrite (Ok _ _); [reflexivity|].
    apply read_day; [assumption..|]. apply read_lit.
    apply read_month; [assumption..|]. apply read_lit.
    apply read_year; [assumption..|]. cbn [fst snd]. rewrite Vy.
    reflexivity.
  - do 3 skip_format EM ED. rewrite (Ok _ _); [reflexivity|].
    apply read_day; [assumption..|]. apply read_lit.
    apply read_month; [assumption..|]. apply read_lit.
    apply read_year; [assumption..|]. cbn [fst snd]. rewrite Vy.
    reflexivity.
  - do 4 skip_format EM ED. rewrite (Ok _ _); [reflexivity|].
    apply read_year; [assumption..|]. apply read_lit.
    apply read_month; [assumption..|]. apply read_lit.
    cbn [fst snd]. rewrite Vy. apply read_day_last; assumption.
  - do 5 skip_format EM ED. rewrite (Ok _ _); [reflexivity|].
    apply read_day; [assumption..|].
    apply read_space; [rewrite EM; exact Se|].
    apply read_month; [assumption..|].
    apply read_space; [exact Sa|].
    apply read_year; [assumption..|]. cbn [fst snd]. rewrite Vy.
    reflexivity.
  - do 6 skip_format EM ED. rewrite (Ok _ _); [reflexivity|].
    apply read_year; [assumption..|].
    apply read_month; [assumption..|].
    cbn [fst snd]. rewrite Vy. apply read_day_last; assumption.
Qed.

Lemma date_layouts_agree_witness :
  Forall (fun text =>
            DateNormalizer.normalize_str false text
            = DateNormalizer.strftime false 2025 1 15)
         (layouts 2025 1 15).
Proof.
  apply (date_layouts_agree false 2025 1 15). vm_compute. reflexivity.
Defined.

Example layouts_of_a_date :
  layouts 2025 1 15
  = List.map PyStr.lit
      [ "2025-01-15"; "15-01-2025"; "15.01.2025"; "15/01/2025";
        "2025/01/15"; "15 01 2025"; "20250115" ]%string.
Proof. vm_compute. reflexivity. Qed.

(** ** Dates that are not checked, pages that are merged, amounts that
    are too large *)

Section Unchecked.
Import PyStr PyDecimal DateNormalizer.

Lemma four_digit_year_text (pads_year : bool) (r0 : str) :
  all_digits r0 -> List.length r0 = 4%nat ->
  pads_year = true \/ List.head r0 <> Some 48 ->
  year_text pads_year (int_of_digits r0) = r0.
Proof.
  intros D L H. destruct r0 as [|a [|b [|c [|d [|? ?]]]]];
    try discriminate L.
  unfold all_digits in D.
  repeat match goal with
         | H : Forall _ (_ :: _) |- _ => inversion H; subst; clear H
         end.
  apply year_text_of_four_digits; try assumption.
  destruct H as [H|H]; [left; exact H|right].
  intros ->. apply H. reflexivity.
Qed.

End Unchecked.

(** X22. Three runs of digits joined by dashes, the first of four
    digits (not starting with 0 where [strftime] does not pad the year),
    the others of two digits or more, are returned unchanged, whether or
    not they name a calendar date. *)
Theorem dashed_digits_are_not_checked :
  forall (pads_year : bool) (r0 r1 r2 : PyStr.str),
    all_digits r0 -> all_digits r1 -> all_digits r2 ->
    List.length r0 = 4%nat ->
    (2 <= List.length r1)%nat -> (2 <= List.length r2)%nat ->
    pads_year = true \/ List.head r0 <> Some 48 ->
    DateNormalizer.normalize_str pads_year (date_text r0 r1 r2)
    = date_text r0 r1 r2.
Proof.
  intros pads_year r0 r1 r2 D0 D1 D2 L0 L1 L2 H.
  rewrite normalize_str_core, date_text_strip by assumption.
  apply core_date_text; try assumption.
  apply four_digit_year_text; assumption.
Qed.

Lemma dashed_digits_are_not_checked_witness :
  DateNormalizer.normalize_str false (PyStr.lit "2025-13-45")
  = PyStr.lit "2025-13-45".
Proof.
  apply (dashed_digits_are_not_checked false (PyStr.lit "2025")
           (PyStr.lit "13") (PyStr.lit "45")).
  - unfold all_digits. repeat constructor.
  - unfold all_digits. repeat constructor.
  - unfold all_digits. repeat constructor.
  - reflexivity.
  - simpl. lia.
  - simpl. lia.
  - right. discriminate.
Defined.

Section MergedPages.
Import PyStr DocumentPipeline.

Variable slot : str -> N.

Lemma insert_by_slot_in (x : str) (l : list str) (y : str) :
  In y (insert_by_slot slot x l) <-> y = x \/ In y l.
Proof.
  induction l as [|z l IH]; simpl; [intuition congruence|].
  destruct (eqb z x) eqn:E.
  - apply eqb_eq in E. subst z. simpl. intuition congruence.
  - destruct (slot x <? slot z); simpl; [intuition congruence|].
    rewrite IH. intuition congruence.
Qed.

Lemma insert_by_slot_keeps (x : str) (l : list str) :
  List.ForallOrdPairs (by_slot slot) l /\ List.NoDup l ->
  List.ForallOrdPairs (by_slot slot) (insert_by_slot slot x l)
  /\ List.NoDup (insert_by_slot slot x l).
Proof.
  induction l as [|z l IH]; intros [S D]; simpl.
  - split; repeat constructor. intros [].
  - destruct (eqb z x) eqn:E; [split; assumption|].
    apply eqb_neq in E.
    inversion S as [|? ? F S']; subst. inversion D as [|? ? Hz D']; subst.
    destruct (N.ltb_spec (slot x) (slot z)) as [Hlt|Hge].
    + split.
      * constructor; [|exact S]. constructor; [unfold by_slot; lia|].
        eapply List.Forall_impl; [|exact F]. unfold by_slot. intros; lia.
      * constructor; [|exact D]. intros [->|Hin]; [congruence|].
        pose proof (proj1 (List.Forall_forall _ _) F x Hin) as Hx.
        unfold by_slot in Hx. lia.
    + destruct (IH (conj S' D')) as [S2 D2]. split.
      * constructor; [|exact S2]. apply List.Forall_forall. intros y Hy.
        apply insert_by_slot_in in Hy. destruct Hy as [->|Hy].
        -- exact Hge.
        -- exact (proj1 (List.Forall_forall _ _) F y Hy).
      * constructor; [|exact D2]. intros Hin.
        apply insert_by_slot_in in Hin. destruct Hin as [->|Hin];
          [congruence|contradiction].
Qed.

(** [list(set(xs))] holds the members of [xs], each once. *)
Lemma list_of_set_members (xs : list str) :
  List.NoDup (list_of_set slot xs)
  /\ forall x, In x (list_of_set slot xs) <-> In x xs.
Proof.
  unfold list_of_set.
  assert (forall acc,
            List.ForallOrdPairs (by_slot slot) acc /\ List.NoDup acc ->
            (List.ForallOrdPairs (by_slot slot)
               (List.fold_left (fun acc x => insert_by_slot slot x acc)
                  xs acc)
             /\ List.NoDup
                  (List.fold_left (fun acc x => insert_by_slot slot x acc)
                     xs acc))
            /\ forall x,
                 In x (List.fold_left
                         (fun acc x => insert_by_slot slot x acc) xs acc)
                 <-> In x acc \/ In x xs) as G.
  { induction xs as [|a xs IH]; intros acc I; simpl.
    - split; [exact I|]. intros x. tauto.
    - destruct (IH _ (insert_by_slot_keeps a acc I)) as [I' M].
      split; [exact I'|]. intros x. rewrite M, insert_by_slot_in.
      intuition congruence. }
  destruct (G [] (conj (List.FOP_nil _) (List.NoDup_nil _)))
    as [[_ D] M].
  split; [exact D|]. intros x. rewrite M. simpl. tauto.
Qed.

End MergedPages.

(** X23. Merging the pages of a PDF raises exactly when there is no
    page. Otherwise the text is the page texts joined by a blank line, and
    each merged list of tokens holds, without repetition, exactly the
    tokens detected on some page, whatever the hash order. *)
Theorem merged_pages_hold_each_token_once :
  forall (slot : PyStr.str -> N) (pages : list DocumentOCRResult),
    (DocumentPipeline.combine_pages slot pages = None <-> pages = [])
    /\ forall merged : DocumentOCRResult,
         DocumentPipeline.combine_pages slot pages = Some merged ->
         full_text merged
         = PyStr.join [10; 10] (List.map full_text pages)
         /\ forall field,
              In field [ detected_nips; detected_amounts; detected_dates;
                         detected_invoice_numbers ] ->
              List.NoDup (field merged)
              /\ forall token : PyStr.str,
                   In token (field merged)
                   <-> exists page, In page pages /\ In token (field page).
Proof.
  intros slot pages. unfold DocumentPipeline.combine_pages.
  destruct pages as [|p pages].
  { split; [tauto|discriminate]. }
  split; [split; discriminate|].
  intros merged [= <-]. split; [reflexivity|].
  assert (forall (field : DocumentOCRResult -> list PyStr.str)
                 (ps : list DocumentOCRResult) (token : PyStr.str),
            In token (List.concat (List.map field ps))
            <-> exists page, In page ps /\ In token (field page)) as C.
  { intros field ps token. rewrite List.in_concat. split.
    - intros (l & Hl & Ht). apply List.in_map_iff in Hl.
      destruct Hl as (page & <- & Hp). eauto.
    - intros (page & Hp & Ht). exists (field page).
      split; [apply List.in_map, Hp|exact Ht]. }
  intros field Hf. simpl in Hf.
  destruct Hf as [<-|[<-|[<-|[<-|[]]]]]; cbn [detected_nips detected_amounts
    detected_dates detected_invoice_numbers];
    (split; [apply list_of_set_members|]); intros token;
    rewrite (proj2 (list_of_set_members slot _));
    exact (C _ (p :: pages) token).
Qed.

Lemma merged_pages_hold_each_token_once_witness :
  full_text
    {| full_text := PyStr.lit "a" ++ [10; 10] ++ PyStr.lit "b";
       detected_nips := []; detected_amounts := [];
       detected_dates := []; detected_invoice_numbers := [] |}
  = PyStr.join [10; 10]
      (List.map full_text [text_only (PyStr.lit "a");
                           text_only (PyStr.lit "b")]).
Proof.
  apply (proj2 (merged_pages_hold_each_token_once (fun _ => 0)
                  [text_only (PyStr.lit "a"); text_only (PyStr.lit "b")])
           {| full_text := PyStr.lit "a" ++ [10; 10] ++ PyStr.lit "b";
              detected_nips := []; detected_amounts := [];
              detected_dates := []; detected_invoice_numbers := [] |}).
  vm_compute. reflexivity.
Defined.

Section LargeAmounts.
Import PyStr PyDecimal AmountNormalizer.

Lemma ndigits_le (c : N) (k : nat) :
  (1 <= k)%nat -> ((ndigits c <= Z.of_nat k)%Z <-> c < 10 ^ N.of_nat k).
Proof.
  intros Hk. unfold ndigits. rewrite <- (digits_length c k Hk). lia.
Qed.

(** [quantize] on an integer: the hundredths need 28 digits at most. *)
Lemma quantize_cents_integer (neg : bool) (c : N) :
  quantize_cents (Finite neg c 0)
  = if c <? 10 ^ 26 then Some (Finite neg (c * 100) (-2)) else None.
Proof.
  unfold quantize_cents. destruct (N.eqb_spec c 0) as [->|Hc];
    [reflexivity|].
  pose proof (ndigits_le c 26 ltac:(lia)) as H26.
  pose proof (ndigits_le (c * 100) 28 ltac:(lia)) as H28.
  change (N.of_nat 26) with 26 in H26. change (N.of_nat 28) with 28 in H28.
  change (Z.of_nat 26) with 26%Z in H26.
  change (Z.of_nat 28) with 28%Z in H28.
  unfold adjusted, Emax, prec.
  replace (rescale_half_up c 0 (-2)) with (c * 100)
    by (unfold rescale_half_up; simpl; reflexivity).
  destruct (N.ltb_spec c (10 ^ 26)) as [Hlt|Hge].
  - apply H26 in Hlt.
    assert (ndigits (c * 100) <= 28)%Z as L.
    { apply H28. apply H26 in Hlt.
      change (10 ^ 28) with (10 ^ 26 * 100). lia. }
    repeat match goal with
           | |- context [(?a <? ?b)%Z] =>
               destruct (Z.ltb_spec a b); try lia
           end.
    reflexivity.
  - assert (~ (ndigits c <= 26)%Z) as L by (rewrite H26; lia).
    repeat match goal with
           | |- context [(?a <? ?b)%Z] =>
               destruct (Z.ltb_spec a b); try lia; try reflexivity
           end.
Qed.

End LargeAmounts.

(** X24. On an [int] argument [AmountNormalizer.normalize] raises
    (the [InvalidOperation] of [quantize]) exactly from 26 digits on,
    [abs n >= 10^26]; the same number passed as a string gives
    [0.00]. *)
Theorem amount_int_raises_from_26_digits :
  forall z : Z,
    (AmountNormalizer.normalize (AmountNormalizer.AInt z) = None
     <-> (10 ^ 26 <= Z.abs z)%Z)
    /\ ((10 ^ 26 <= Z.abs z)%Z ->
        AmountNormalizer.normalize
          (AmountNormalizer.AStr (PyDecimal.str_of_int z))
        = Some (PyStr.lit "0.00")).
Proof.
  intros z.
  assert ((Z.abs_N z <? 10 ^ 26) = true <-> (Z.abs z < 10 ^ 26)%Z) as B.
  { rewrite N.ltb_lt.
    change (10 ^ 26) with 100000000000000000000000000.
    change (10 ^ 26)%Z with 100000000000000000000000000%Z. lia. }
  split.
  - cbn [AmountNormalizer.normalize].
    unfold AmountNormalizer.normalize_number.
    rewrite of_str_int, quantize_cents_integer.
    destruct (Z.abs_N z <? 10 ^ 26) eqn:E; simpl.
    + split; [discriminate|]. pose proof (proj1 B eq_refl). lia.
    + split; [intros _|reflexivity].
      destruct (Z.le_gt_cases (10 ^ 26) (Z.abs z)) as [H|H]; [exact H|].
      apply B in H. discriminate H.
  - intros H. cbn [AmountNormalizer.normalize]. f_equal.
    rewrite str_of_int_text, normalize_str_finish, cleaned_number_text,
      <- str_of_int_text, of_str_int.
    + unfold finish. rewrite quantize_cents_integer.
      destruct (Z.abs_N z <? 10 ^ 26) eqn:E; [|reflexivity].
      pose proof (proj1 B eq_refl). lia.
    + apply digits_are_digits.
    + constructor.
Qed.
